(** * The ngrok addon of minikube: credential gate and configuration wizard

    A shallow embedding of
      - [pkg/addons/addons_ngrok.go]  (enableOrDisableNgrok, enableAddonNgrok,
        ngrokValidation, AskForYesNoConfirmation, posString, containsString)
      - [cmd/minikube/cmd/config/configure.go]  (the "ngrok" case of
        addonsConfigureCmd, AskForSingleOrMultipleDomainChoice,
        LoadAndCreatePolicyModules, AddIngressToServices, ReadFileContents)
    followed by the properties of the specification that these functions
    decide.

    Layout: Part I holds every definition, Part II the lemmas and theorems. *)

From Stdlib Require Import ZArith Lia Ascii String.
From stdpp Require Import gmap strings list.

Open Scope Z_scope.

(* ====================================================================== *)
(** * Part I.  Definitions                                                 *)
(* ====================================================================== *)

(** ** Go values *)

(** A Go [error] value.  [nil] is [None] in [option error]. *)
Inductive error : Type :=
| ErrFacade (msg : string)                 (* returned by package service *)
| ErrSyntax (fn arg : string)              (* *strconv.NumError, ErrSyntax *)
| ErrRange (fn arg : string)               (* *strconv.NumError, ErrRange *)
| ErrOs (op path : string)                 (* *fs.PathError from os.ReadFile *)
| ErrWrap (cause : error) (msg : string)   (* errors.Wrap / errors.Wrapf *)
| ErrErrorf (format : string) (args : list string)
                                           (* fmt.Errorf without %w *)
| ErrErrorfW (format : string) (args : list string) (wrapped : error)
                                           (* fmt.Errorf with a %w operand *)
| ErrSkipThisAddon.                        (* the sentinel addons.ErrSkipThisAddon *)

(** Go strings are byte sequences; [string] is a list of 8-bit [ascii]. *)
Definition byte_val (c : ascii) : Z := Z.of_nat (nat_of_ascii c).

(** ** The Go standard library functions the code calls *)

Module GoStd.

(** [strconv.ParseBool]: a switch over twelve literals. *)
Definition ParseBool (str : string) : bool * option error :=
  match str with
  | "1" | "t" | "T" | "TRUE" | "true" | "True" => (true, None)
  | "0" | "f" | "F" | "FALSE" | "false" | "False" => (false, None)
  | _ => (false, Some (ErrSyntax "ParseBool" str))
  end%string.

(** The digit loop of [strconv.Atoi]: [ch -= '0'] on a byte wraps around
    modulo 256, and [ch > 9] rejects everything that is not a digit. *)
Fixpoint atoi_digits (s : string) (n : Z) : option Z :=
  match s with
  | EmptyString => Some n
  | String ch s' =>
      let d := (byte_val ch - 48) mod 256 in
      if 9 <? d then None else atoi_digits s' (n * 10 + d)
  end.

(** [strconv.Atoi] on a 64-bit platform: an optional sign, at least one
    decimal digit, no underscores (base 10 is explicit); a value outside
    [int64] is a range error. *)
Definition Atoi (s0 : string) : Z * option error :=
  let '(neg, s) :=
    match s0 with
    | String "-" s' => (true, s')
    | String "+" s' => (false, s')
    | _ => (false, s0)
    end in
  match s with
  | EmptyString => (0, Some (ErrSyntax "Atoi" s0))
  | _ =>
      match atoi_digits s 0 with
      | None => (0, Some (ErrSyntax "Atoi" s0))
      | Some un =>
          let n := if neg then - un else un in
          if (n <? - 2 ^ 63) then (- 2 ^ 63, Some (ErrRange "Atoi" s0))
          else if (2 ^ 63 - 1 <? n) then (2 ^ 63 - 1, Some (ErrRange "Atoi" s0))
          else (n, None)
      end
  end.

(** The conversion [int32(port)] of an [int]: two's complement wrap-around. *)
Definition int32 (z : Z) : Z := (z + 2 ^ 31) mod 2 ^ 32 - 2 ^ 31.

Definition in_int32 (z : Z) : Prop := - 2 ^ 31 <= z < 2 ^ 31.

(** The byte ['0' + d]. *)
Definition digit_char (d : Z) : ascii := ascii_of_nat (Z.to_nat (48 + d)).

(** [strconv.formatBits] in base 10: the digits of [u], most significant
    first, are put in front of [acc]. *)
Fixpoint formatBits (fuel : nat) (u : Z) (acc : string) : string :=
  match fuel with
  | O => acc
  | S fuel' =>
      if u <? 10 then String (digit_char u) acc
      else formatBits fuel' (u / 10) (String (digit_char (u mod 10)) acc)
  end.

(** A number below [2 ^ k] has at most [k] decimal digits. *)
Definition digits_fuel (u : Z) : nat := S (Z.to_nat (Z.log2 u)).

(** The verb [%d] of [fmt.Sprintf] (strconv.FormatInt in base 10). *)
Definition FormatInt (i : Z) : string :=
  if i <? 0 then String "-" (formatBits (digits_fuel (- i)) (- i) EmptyString)
  else formatBits (digits_fuel i) i EmptyString.

(** [strings.Split(s, sep)] for a one-byte separator: the [Count(s, sep) + 1]
    substrings between the separators. *)
Fixpoint Split (s : string) (sep : ascii) : list string :=
  match s with
  | EmptyString => [EmptyString]
  | String c s' =>
      if Ascii.eqb c sep then EmptyString :: Split s' sep
      else match Split s' sep with
           | [] => [String c EmptyString]
           | hd :: tl => String c hd :: tl
           end
  end.

(** [strings.ToLower].  A string of ASCII bytes is lowered byte by byte
    (the letters A-Z).  Any other string goes through
    [Map(unicode.ToLower, s)], whose result is fixed by the case tables of
    the Unicode version of the Go library: it is a parameter. *)
Class Unicode : Type := { Map_unicode_ToLower : string -> string }.

Definition lower_byte (c : ascii) : ascii :=
  let n := byte_val c in
  if (65 <=? n) && (n <=? 90) then ascii_of_nat (Z.to_nat (n + 32)) else c.

Fixpoint lower_bytes (s : string) : string :=
  match s with
  | EmptyString => EmptyString
  | String c s' => String (lower_byte c) (lower_bytes s')
  end.

(** No byte of [s] is [utf8.RuneSelf] (0x80) or above. *)
Fixpoint isASCII (s : string) : bool :=
  match s with
  | EmptyString => true
  | String c s' => (byte_val c <? 128) && isASCII s'
  end.

Definition ToLower `{Unicode} (s : string) : string :=
  if isASCII s then lower_bytes s else Map_unicode_ToLower s.

(** [unicode.IsSpace]: the runes '\t', '\n', '\v', '\f', '\r', ' ', U+0085
    and U+00A0 of Latin-1 and, beyond, those of the property White_Space.
    Each is given by its UTF-8 encoding. *)
Definition white_space : list (list ascii) :=
  map (map ascii_of_nat)
      [[9]; [10]; [11]; [12]; [13]; [32];
       [194; 133];                                       (* U+0085 *)
       [194; 160];                                       (* U+00A0 *)
       [225; 154; 128];                                  (* U+1680 *)
       [226; 128; 128]; [226; 128; 129]; [226; 128; 130];
       [226; 128; 131]; [226; 128; 132]; [226; 128; 133];
       [226; 128; 134]; [226; 128; 135]; [226; 128; 136];
       [226; 128; 137]; [226; 128; 138];                 (* U+2000 - U+200A *)
       [226; 128; 168]; [226; 128; 169];                 (* U+2028, U+2029 *)
       [226; 128; 175];                                  (* U+202F *)
       [226; 129; 159];                                  (* U+205F *)
       [227; 128; 128]]%nat.                             (* U+3000 *)

(** [l] without the bytes [p] at its front, if it starts with them. *)
Fixpoint strip_prefix (p l : list ascii) : option (list ascii) :=
  match p, l with
  | [], _ => Some l
  | a :: p', b :: l' => if Ascii.eqb a b then strip_prefix p' l' else None
  | _ :: _, [] => None
  end.

(** [l] without the rune of [runes] that it starts with, if there is one. *)
Fixpoint strip_rune (runes : list (list ascii)) (l : list ascii)
  : option (list ascii) :=
  match runes with
  | [] => None
  | r :: runes' =>
      match strip_prefix r l with
      | Some l' => Some l'
      | None => strip_rune runes' l
      end
  end.

(** The runes of [runes] are taken from the front of [l] as long as there
    is one; every step shortens [l], so [length l] steps are enough. *)
Fixpoint trim_runes (fuel : nat) (runes : list (list ascii)) (l : list ascii)
  : list ascii :=
  match fuel with
  | O => l
  | S fuel' =>
      match strip_rune runes l with
      | Some l' => trim_runes fuel' runes l'
      | None => l
      end
  end.

(** [strings.TrimLeftFunc(s, unicode.IsSpace)].  The decoder reads a
    white-space rune at the front of [s] exactly when [s] starts with the
    encoding of one: an encoding in shortest form is decoded to its rune,
    and nothing else is decoded to that rune. *)
Definition trim_left (l : list ascii) : list ascii :=
  trim_runes (length l) white_space l.

(** [strings.TrimRightFunc(s, unicode.IsSpace)].  Reading backwards, the
    decoder goes back to the nearest byte that starts a rune, which for a
    string that ends with the encoding of a white-space rune is the first
    byte of that encoding. *)
Definition trim_right (l : list ascii) : list ascii :=
  rev (trim_runes (length l) (map (@rev ascii) white_space) (rev l)).

(** [strings.TrimSpace] (and [bytes.TrimSpace]): the leading and the
    trailing white space is removed, "as defined by Unicode". *)
Definition TrimSpace (s : string) : string :=
  string_of_list_ascii (trim_right (trim_left (list_ascii_of_string s))).

(** [strings.IndexByte(s, c) >= 0]. *)
Fixpoint contains_byte (c : ascii) (s : string) : bool :=
  match s with
  | EmptyString => false
  | String c' s' => Ascii.eqb c' c || contains_byte c s'
  end.

End GoStd.

(** ** Data of the cluster API that the code reads *)

(** [core.ServicePort], of which the code reads [Port].  The field is an
    [int32]: the value comes with the bounds of its type. *)
Record ServicePort : Type := mkServicePort {
  Port : Z;
  Port_int32 : Is_true ((- 2 ^ 31 <=? Port) && (Port <? 2 ^ 31))
}.

(** [core.Service] as far as the code reads it: [Namespace], [Name] and the
    entries of [Spec.Ports]. *)
Record Service : Type := mkService {
  Namespace : string;
  Name : string;
  Ports : list ServicePort
}.

(** ** Observable behaviour: calls, replies and events *)

(** The calls into package [service] (the Cluster Facade), with their
    arguments as the call sites pass them. *)
Inductive call : Type :=
| CallCheckNamespace (profile namespace : string)
| CallCreateNamespace (profile namespace : string)
| CallCheckSecretExists (profile namespace name : string)
| CallCreateSecret (profile namespace name : string)
                   (dataValues labels : gmap string string)
| CallListAllServices (profile : string)
| CallCreateIngress (profile namespace name domain serviceName : string)
                    (port : Z) (ingressClassName : string).

Inductive reply : Type :=
| ReplyBool (b : bool) (err : option error)
| ReplyErr (err : option error)
| ReplyServices (items : list Service) (err : option error).

Inductive style : Type := StyleFatal | StyleLaunch | StyleNotice.

(** The printing functions of package [out]. *)
Inductive out_fn : Type :=
| OutString | OutErr | OutErrT (st : style) | OutFailureT | OutSuccessT
| OutStyled (st : style) | OutBoxed.

Inductive out_arg : Type := ArgS (s : string) | ArgE (e : error).

Inductive event : Type :=
| EvOut (fn : out_fn) (format : string) (args : list out_arg)
| EvStdin (line : string)
| EvReadFile (path : string)
| EvCall (c : call) (r : reply).

(** ** The Cluster Facade

    Package [service] is not among the sources at hand; the code is embedded
    over any implementation of the six functions it calls, acting on a
    cluster state of type [St].  Each function returns what the Go function
    returns (a value and an [error], or an [error]) and the next cluster
    state. *)
Class Facade (St : Type) : Type := {
  service_CheckNamespace : string -> string -> St -> (bool * option error) * St;
  service_CreateNamespace : string -> string -> St -> option error * St;
  service_CheckSecretExists :
    string -> string -> string -> St -> (bool * option error) * St;
  service_CreateSecret :
    string -> string -> string -> gmap string string -> gmap string string ->
    St -> option error * St;
  service_ListAllServices : string -> St -> (list Service * option error) * St;
  service_CreateIngress :
    string -> string -> string -> string -> string -> Z -> string ->
    St -> option error * St
}.

(** ** The world a run acts on, and the monad of runs *)

Record World (St : Type) : Type := mkWorld {
  cluster : St;                  (* the cluster behind the facade *)
  stdin : list string;           (* the lines the operator will type *)
  files : gmap string string;    (* the readable files, by path *)
  trace : list event             (* what happened so far, oldest first *)
}.
Arguments mkWorld {St}.
Arguments cluster {St}.
Arguments stdin {St}.
Arguments files {St}.
Arguments trace {St}.

Inductive outcome (A : Type) : Type :=
| Done (a : A)        (* the function returned [a] *)
| Exited              (* log.Fatal: the process exited *)
| Panicked            (* run-time panic (index out of range) *)
| OutOfFuel.          (* the loop bound of the model was reached *)
Arguments Done {A}.
Arguments Exited {A}.
Arguments Panicked {A}.
Arguments OutOfFuel {A}.

Definition M (St A : Type) : Type := World St -> outcome A * World St.

Definition ret {St A} (a : A) : M St A := fun w => (Done a, w).

Definition bind {St A B} (m : M St A) (k : A -> M St B) : M St B :=
  fun w =>
    match m w with
    | (Done a, w') => k a w'
    | (Exited, w') => (Exited, w')
    | (Panicked, w') => (Panicked, w')
    | (OutOfFuel, w') => (OutOfFuel, w')
    end.

Notation "x <- c1 ;; c2" := (bind c1 (fun x => c2))
  (at level 100, c1 at next level, right associativity).
Notation "c1 ;; c2" := (bind c1 (fun _ => c2))
  (at level 100, right associativity).

Definition emit {St} (e : event) : M St unit :=
  fun w => (Done tt, mkWorld (cluster w) (stdin w) (files w) (trace w ++ [e])).

(** The functions of package [out] (out.String, out.Err, out.ErrT,
    out.FailureT, out.SuccessT, out.Styled, out.Boxed) print a message and
    return to their caller; the style of out.ErrT selects a prefix.  Where
    the code wants to leave after a message it says so itself, with a
    [return] (lines 361-362, 398-399, 447-448 of configure.go) or a
    [continue] (lines 383-384, 425-426); the call that ends the process
    is exit.Message (line 49). *)
Definition out {St} (fn : out_fn) (format : string) (args : list out_arg)
  : M St unit := emit (EvOut fn format args).

(** [log.Fatal]. *)
Definition log_Fatal {St A} : M St A := fun w => (Exited, w).

Definition panic {St A} : M St A := fun w => (Panicked, w).

Definition out_of_fuel {St A} : M St A := fun w => (OutOfFuel, w).

(** [reader.ReadString('\n')]: the next line, or an error at end of input. *)
Definition ReadString {St} : M St (option string) :=
  fun w =>
    match stdin w with
    | [] => (Done None, w)
    | line :: rest =>
        (Done (Some line),
         mkWorld (cluster w) rest (files w) (trace w ++ [EvStdin line]))
    end.

(** [os.ReadFile]. *)
Definition os_ReadFile {St} (path : string) : M St (string * option error) :=
  fun w =>
    let w' := mkWorld (cluster w) (stdin w) (files w) (trace w ++ [EvReadFile path]) in
    match files w !! path with
    | Some data => (Done (data, None), w')
    | None => (Done (EmptyString, Some (ErrOs "open" path)), w')
    end.

(** [serviceParts[i]]: indexing a slice panics out of range. *)
Definition index {St} (l : list string) (i : nat) : M St string :=
  match l !! i with
  | Some x => ret x
  | None => panic
  end.

(** ** Calls through the facade: the call and its reply are recorded *)

Section Program.

Context {St : Type} `{Facade St} `{GoStd.Unicode}.

Definition facade_call {A} (c : call) (f : St -> A * St) (r : A -> reply)
  : M St A :=
  fun w =>
    let '(a, st) := f (cluster w) in
    (Done a, mkWorld st (stdin w) (files w) (trace w ++ [EvCall c (r a)])).

Definition CheckNamespace (profile namespace : string)
  : M St (bool * option error) :=
  facade_call (CallCheckNamespace profile namespace)
              (service_CheckNamespace profile namespace)
              (fun a => ReplyBool (fst a) (snd a)).

Definition CreateNamespace (profile namespace : string) : M St (option error) :=
  facade_call (CallCreateNamespace profile namespace)
              (service_CreateNamespace profile namespace) ReplyErr.

Definition CheckSecretExists (profile namespace name : string)
  : M St (bool * option error) :=
  facade_call (CallCheckSecretExists profile namespace name)
              (service_CheckSecretExists profile namespace name)
              (fun a => ReplyBool (fst a) (snd a)).

Definition CreateSecret (profile namespace name : string)
    (dataValues labels : gmap string string) : M St (option error) :=
  facade_call (CallCreateSecret profile namespace name dataValues labels)
              (service_CreateSecret profile namespace name dataValues labels)
              ReplyErr.

Definition ListAllServices (profile : string)
  : M St (list Service * option error) :=
  facade_call (CallListAllServices profile)
              (service_ListAllServices profile)
              (fun a => ReplyServices (fst a) (snd a)).

Definition CreateIngress (profile namespace name domain serviceName : string)
    (port : Z) (ingressClassName : string) : M St (option error) :=
  facade_call
    (CallCreateIngress profile namespace name domain serviceName port ingressClassName)
    (service_CreateIngress profile namespace name domain serviceName port ingressClassName)
    ReplyErr.

(** ** pkg/addons/addons_ngrok.go *)

(** [constants.DefaultClusterName] is declared in another package. *)
Variable DefaultClusterName : string.

(** [config.ClusterConfig], of which only [Name] is read. *)
Record ClusterConfig : Type := mkClusterConfig { cfg_Name : string }.

Definition enableAddonNgrok (cfg : ClusterConfig) : M St (option error) :=
  r <- CheckSecretExists (cfg_Name cfg) "ngrok-ingress-controller"
                         "ngrok-ingress-controller-credentials" ;;
  let exists_ := fst r in
  match snd r with
  | Some err => ret (Some (ErrWrap err "check secret exists"))
  | None =>
      if negb exists_ then
        ret (Some (ErrErrorf
          "please run `minikube %s addons configure ngrok` to create your credentials before enabling"
          [cfg_Name cfg]))
      else ret None
  end.

Definition enableOrDisableNgrok (cfg : ClusterConfig) (name val : string)
  : M St (option error) :=
  let '(enable, err) := GoStd.ParseBool val in
  match err with
  | Some err => ret (Some (ErrWrap err ("parsing bool: " +:+ name)))
  | None =>
      if enable then enableAddonNgrok cfg
      else (* return disableAddonNgrok(cfg) *) ret None
  end.

Definition ngrokValidation (cfg : ClusterConfig) (_ _ : string)
  : M St (option error) :=
  r <- CheckSecretExists (cfg_Name cfg) "ngrok-ingress-controller"
                         "ngrok-ingress-controller-credentials" ;;
  let exists_ := fst r in
  match snd r with
  | Some err => ret (Some (ErrWrap err "check secret exists"))
  | None =>
      if negb exists_ then
        let clusterName := cfg_Name cfg in
        let tipProfileArg :=
          if negb (String.eqb clusterName DefaultClusterName)
          then " -p " +:+ clusterName else EmptyString in
        out (OutStyled StyleLaunch)
            ("Please run `minikube " +:+ tipProfileArg +:+
             " addons configure ngrok` to create your credentials before enabling the ngrok ingress addon")
            [] ;;
        ret (Some ErrSkipThisAddon)
      else ret None
  end.

(** [posString] returns the first index of [element] in [slice], or -1. *)
Fixpoint posString_from (index : Z) (slice : list string) (element : string) : Z :=
  match slice with
  | [] => -1
  | elem :: slice' =>
      if String.eqb elem element then index
      else posString_from (index + 1) slice' element
  end.

Definition posString (slice : list string) (element : string) : Z :=
  posString_from 0 slice element.

Definition containsString (slice : list string) (element : string) : bool :=
  negb (posString slice element =? -1).

(** The loop of [AskForYesNoConfirmation] over the lines still to be read;
    every iteration reads one line, so the recursion is on the input. *)
Fixpoint yesno_lines (s : string) (posResponses negResponses : list string)
    (lines : list string) (tr : list event)
  : outcome bool * list string * list event :=
  let tr := tr ++ [EvOut OutString "%s [y/n]: " [ArgS s]] in
  match lines with
  | [] => (Exited, [], tr)                        (* log.Fatal(err) *)
  | response :: rest =>
      let tr := tr ++ [EvStdin response] in
      let r := GoStd.ToLower (GoStd.TrimSpace response) in
      if containsString posResponses r then (Done true, rest, tr)
      else if containsString negResponses r then (Done false, rest, tr)
      else yesno_lines s posResponses negResponses rest
             (tr ++ [EvOut OutErr "Please type yes or no:" []])
  end.

Definition AskForYesNoConfirmation (s : string)
    (posResponses negResponses : list string) : M St bool :=
  fun w =>
    let '(o, rest, tr) :=
      yesno_lines s posResponses negResponses (stdin w) (trace w) in
    (o, mkWorld (cluster w) rest (files w) tr).

(** ** cmd/minikube/cmd/config/configure.go *)

Definition posResponses : list string := ["yes"; "y"]%string.
Definition negResponses : list string := ["no"; "n"]%string.

(** Modelled from the spec: the prompt functions AskForStaticValue,
    AskForStaticValueOptional and AskForChoice (prompt.go) are not among
    the sources at hand.  They belong to the Interactive Prompt Driver,
    which "renders a prompt, returns a validated operator answer": the
    prompt is printed and the operator's next line is the answer.  At the
    end of the input the process exits, as in AskForYesNoConfirmation.

    The AskForYesNoConfirmation that configure.go calls is the one of its
    own package, in prompt.go as well.  The spec has a single prompt
    driver with a yes/no answer; the call is read as a call of the
    function of that name and signature in addons_ngrok.go (lines 90-110,
    [AskForYesNoConfirmation] above). *)
Definition prompt_answer (s : string) (choices : list string) : M St string :=
  out OutString s (map ArgS choices) ;;
  line <- ReadString ;;
  match line with
  | Some response => ret response
  | None => log_Fatal
  end.

(** Modelled from the spec: AskForStaticValue (prompt.go), a free-text
    answer. *)
Definition AskForStaticValue (s : string) : M St string := prompt_answer s [].

(** Modelled from the spec: AskForStaticValueOptional (prompt.go), a
    free-text answer. *)
Definition AskForStaticValueOptional (s : string) : M St string :=
  prompt_answer s [].

(** Modelled from the spec: AskForChoice (prompt.go), a choice from a set;
    the choices are shown with the prompt. *)
Definition AskForChoice (s : string) (choices : list string) : M St string :=
  prompt_answer s choices.

Definition domain_choice_prompt : string :=
  "Would you like to use a single domain for all services or a unique domain for each? Free accounts can only use a single domain.".

Definition AskForSingleOrMultipleDomainChoice : M St string :=
  choice <- AskForChoice domain_choice_prompt ["single"; "multiple"]%string ;;
  ret choice.

Definition ReadFileContents (filePath : string) : M St (string * option error) :=
  r <- os_ReadFile filePath ;;
  match snd r with
  | Some err =>
      ret (EmptyString,
           Some (ErrErrorfW "failed to read file '%s': %w" [filePath] err))
  | None => ret (fst r, None)
  end.

Definition policy_prompt : string :=
  "Give path to policy module file (type 'none' if done):".

(** The [for] loop of [LoadAndCreatePolicyModules]; [fuel] bounds the number
    of iterations. *)
Fixpoint LoadAndCreatePolicyModules_loop (fuel : nat) : M St unit :=
  match fuel with
  | O => out_of_fuel
  | S fuel' =>
      policyModulePath <- AskForStaticValueOptional policy_prompt ;;
      if String.eqb policyModulePath "none" then ret tt          (* break *)
      else
        r <- ReadFileContents policyModulePath ;;
        match snd r with
        | Some err =>
            out OutErr "Error reading module set file: %v" [ArgE err] ;;
            LoadAndCreatePolicyModules_loop fuel'                (* continue *)
        | None => LoadAndCreatePolicyModules_loop fuel'
        end
  end.

(** Every iteration reads a line: the bound is never reached. *)
Definition LoadAndCreatePolicyModules : M St unit :=
  fun w => LoadAndCreatePolicyModules_loop (S (length (stdin w))) w.

(** [fmt.Sprintf("%s:%s:%d", service.Namespace, service.Name, port.Port)]. *)
Definition render_triple (namespace name : string) (port : Z) : string :=
  namespace +:+ ":" +:+ name +:+ ":" +:+ GoStd.FormatInt port.

(** The inner loop of the search: [found = true; break] at the first port
    whose triple is the choice. *)
Fixpoint found_ports (svc : Service) (ports : list ServicePort)
    (serviceChoice : string) (found : bool) : bool :=
  match ports with
  | [] => found
  | port :: ports' =>
      if String.eqb (render_triple (Namespace svc) (Name svc) (Port port))
                    serviceChoice
      then true
      else found_ports svc ports' serviceChoice found
  end.

(** The outer loop: it has no [break] and visits every service. *)
Fixpoint found_items (items : list Service) (serviceChoice : string)
    (found : bool) : bool :=
  match items with
  | [] => found
  | svc :: items' =>
      found_items items' serviceChoice
                  (found_ports svc (Ports svc) serviceChoice found)
  end.

(** The text of the box: one line per port of every service. *)
Fixpoint serviceString_ports (svc : Service) (ports : list ServicePort)
    (acc : string) : string :=
  match ports with
  | [] => acc
  | port :: ports' =>
      serviceString_ports svc ports'
        (acc +:+ render_triple (Namespace svc) (Name svc) (Port port) +:+
         String "010" EmptyString)
  end.

Fixpoint serviceString_items (items : list Service) (acc : string) : string :=
  match items with
  | [] => acc
  | svc :: items' =>
      serviceString_items items' (serviceString_ports svc (Ports svc) acc)
  end.

Definition service_prompt : string :=
  "What service would you like to add ingress for? Use the format namespace:service:port (type 'none' to exit):".

Definition domain_prompt : string := "What domain would you like to use?".

(** Lines 451-454: the ingress is created; a failure is printed. *)
Definition create_ingress (profile namespace serviceName domain : string)
    (port : Z) : M St unit :=
  err <- CreateIngress profile namespace ("ngrok-ingress-" +:+ serviceName)
           domain serviceName port "ngrok" ;;
  match err with
  | Some err => out OutErr "Error creating ingress: %v" [ArgE err]
  | None => ret tt
  end.

(** Lines 442-455: a found choice is split and mapped.  [next] is the rest
    of the loop, which the [return] of line 448 does not reach. *)
Definition map_selection (profile serviceChoice domain : string)
    (next : M St unit) : M St unit :=
  let serviceParts := GoStd.Split serviceChoice ":" in
  namespace <- index serviceParts 0 ;;
  serviceName <- index serviceParts 1 ;;
  part2 <- index serviceParts 2 ;;
  let '(port, err) := GoStd.Atoi part2 in
  match err with
  | Some err =>
      out OutErr "Error converting port to int: %v" [ArgE err]   (* return *)
  | None =>
      create_ingress profile namespace serviceName domain (GoStd.int32 port) ;;
      next
  end.

(** The selection loop of [AddIngressToServices], lines 409-456.  The
    variable [domain] is assigned in the loop, so it is carried from one
    iteration to the next.  [fuel] bounds the number of iterations. *)
Fixpoint AddIngressToServices_loop (fuel : nat) (profile : string)
    (items : list Service) (singleDomain : bool) (domain : string)
  : M St unit :=
  match fuel with
  | O => out_of_fuel
  | S fuel' =>
      serviceChoice <- AskForStaticValue service_prompt ;;
      if String.eqb serviceChoice "none" then ret tt             (* break *)
      else
        let found := found_items items serviceChoice false in
        if negb found then
          out OutErr "Service not found" [] ;;
          AddIngressToServices_loop fuel' profile items singleDomain domain
        else
          domain <- (if negb singleDomain
                     then AskForStaticValue domain_prompt
                     else ret domain) ;;
          map_selection profile serviceChoice domain
            (AddIngressToServices_loop fuel' profile items singleDomain domain)
  end.

(** Every iteration reads a line, so one more iteration than there are
    lines is never needed. *)
Definition AddIngressToServices_for (profile : string) (items : list Service)
    (singleDomain : bool) (domain : string) : M St unit :=
  fun w =>
    AddIngressToServices_loop (S (length (stdin w))) profile items
                              singleDomain domain w.

Definition AddIngressToServices (profile : string) (singleDomain : bool)
    (domain : string) : M St unit :=
  r <- ListAllServices profile ;;
  match snd r with
  | Some err => out OutErr "Error listing services: %v" [ArgE err]   (* return *)
  | None =>
      let items := fst r in
      let serviceString := serviceString_items items EmptyString in
      out OutBoxed ("Services:" +:+ String "010" EmptyString +:+ serviceString) [] ;;
      AddIngressToServices_for profile items singleDomain domain
  end.

(** *** The "ngrok" case of [addonsConfigureCmd], step by step *)

Definition ngrok_namespace : string := "ngrok-ingress-controller".
Definition ngrok_secret : string := "ngrok-ingress-controller-credentials".

(** Lines 285-294: the namespace is checked, and created if [!exists]. *)
Definition EnsureNamespace (profile : string) : M St unit :=
  let namespace := ngrok_namespace in
  r <- CheckNamespace profile namespace ;;
  let exists_ := fst r in
  match snd r with
  | Some err =>
      out (OutErrT StyleFatal)
          "Error checking for existing `ngrok-ingress-controller` namespace: {{.error}}"
          [ArgE err]
  | None => ret tt
  end ;;
  if negb exists_ then
    err <- CreateNamespace profile namespace ;;
    match err with
    | Some err =>
        out (OutErrT StyleFatal)
            "Error creating `ngrok-ingress-controller` namespace: {{.error}}"
            [ArgE err]
    | None => ret tt
    end
  else ret tt.

(** The two map literals of lines 316-324. *)
Definition credential_data (ngrokAuthToken ngrokAPIKey : string)
  : gmap string string :=
  <["AUTHTOKEN" := ngrokAuthToken]> (<["API_KEY" := ngrokAPIKey]> ∅).

Definition credential_labels : gmap string string :=
  <["app" := "ngrok"]>
    (<["cloud" := "ngrok"]>
       (<["kubernetes.io/minikube-addons" := "ngrok"]> ∅)).

(** The question of the credential step, by the answer of the check. *)
Definition credentials_question (exists_ : bool) : string :=
  "Would you like to " +:+ (if exists_ then "replace" else "set") +:+
  " ngrok credentials?".

(** Lines 296-329: the credential secret. *)
Definition ReconcileCredentials (profile : string) : M St unit :=
  let namespace := ngrok_namespace in
  r <- CheckSecretExists profile namespace ngrok_secret ;;
  let exists_ := fst r in
  match snd r with
  | Some err =>
      out (OutErrT StyleFatal)
          "Error checking for existing `ngrok-ingress-controller-credentials secret`: {{.error}}"
          [ArgE err]
  | None => ret tt
  end ;;
  let replaceOrSet := if exists_ then "replace" else "set" in
  let msg := "Would you like to " +:+ replaceOrSet +:+ " ngrok credentials?" in
  setCredentials <- AskForYesNoConfirmation msg posResponses negResponses ;;
  if setCredentials then
    ngrokAuthToken <- AskForStaticValue "-- Enter ngrok authtoken: " ;;
    ngrokAPIKey <- AskForStaticValue "-- Enter ngrok apikey: " ;;
    err <- CreateSecret profile namespace ngrok_secret
             (credential_data ngrokAuthToken ngrokAPIKey) credential_labels ;;
    match err with
    | Some err =>
        out OutFailureT
            "ERROR creating `ngrok-ingress-controller-credentials` secret: {{.error}}"
            [ArgE err]
    | None => ret tt
    end
  else ret tt.

(** Line 365, after the [switch]. *)
Definition configured (addon : string) : M St unit :=
  out OutSuccessT "{{.name}} was successfully configured" [ArgS addon].

(** Lines 347-357: the two optional branches, once the strategy and the
    shared domain are fixed. *)
Definition PolicyAndMapping (profile : string) (singleDomain : bool)
    (domain : string) : M St unit :=
  configurePolicyModule <- AskForYesNoConfirmation
    "Would you like to create a policy module that can be used to secure ingress to services with authentication?"
    posResponses negResponses ;;
  (if configurePolicyModule then LoadAndCreatePolicyModules else ret tt) ;;
  configureIngressToServices <- AskForYesNoConfirmation
    "Would you like to create ingress to existing services?"
    posResponses negResponses ;;
  (if configureIngressToServices
   then AddIngressToServices profile singleDomain domain else ret tt) ;;
  out OutSuccessT
      "Congrats, you have configured ingress with ngrok in your minikube cluster." [].

Definition configure_ingress_question : string :=
  "Would you like to configure ingress for existing services in your minikube cluster?".

(** Lines 331-357: everything after the setup steps. *)
Definition ConfigureIngress (profile : string) : M St unit :=
  configureIngress <- AskForYesNoConfirmation configure_ingress_question
    posResponses negResponses ;;
  if negb configureIngress then ret tt                           (* break *)
  else
    domainChoice <- AskForSingleOrMultipleDomainChoice ;;
    let singleDomain := String.eqb domainChoice "single" in
    domain <- (if singleDomain
               then AskForStaticValue domain_prompt
               else ret EmptyString) ;;
    PolicyAndMapping profile singleDomain domain.

(** [addonsConfigureCmd.Run] with [args = ["ngrok"]]. *)
Definition addonsConfigureCmd_ngrok (profile : string) : M St unit :=
  EnsureNamespace profile ;;
  ReconcileCredentials profile ;;
  ConfigureIngress profile ;;
  configured "ngrok".

End Program.

(** ** A cluster behind the facade *)

Record Secret : Type := mkSecret {
  secret_data : gmap string string;
  secret_labels : gmap string string
}.

Record Ingress : Type := mkIngress {
  ing_namespace : string;
  ing_name : string;
  ing_domain : string;
  ing_serviceName : string;
  ing_port : Z;
  ing_class : string
}.

(** The durable state of one cluster: its namespaces, its secrets by
    (namespace, name), its services and its ingress objects by generated
    name.  [faults] tells, for the coming facade calls in order, whether
    the call fails to reach the cluster ([Some err]) or not. *)
Record Cluster : Type := mkCluster {
  namespaces : gset string;
  secrets : gmap (string * string) Secret;
  services : list Service;
  ingresses : gmap string Ingress;
  faults : list (option error)
}.

(** The fate of the coming call, and the cluster with that call counted. *)
Definition next_fault (c : Cluster) : option error * Cluster :=
  match faults c with
  | [] => (None, c)
  | f :: fs =>
      (f, mkCluster (namespaces c) (secrets c) (services c) (ingresses c) fs)
  end.

(** Modelled from the spec: package service (the Cluster Facade) is not
    among the sources at hand.  The spec gives its operations as
    NamespaceExists, CreateNamespace, SecretExists, CreateSecret
    ("full-replace semantics, not a merge"), ListServices and CreateIngress
    "against a single cluster identified by a profile name", each of which
    may fail with a communication failure.  A failing call returns Go's
    zero value with the error and leaves the cluster as it is. *)
Definition cluster_CheckNamespace (profile namespace : string) (c : Cluster)
  : (bool * option error) * Cluster :=
  match next_fault c with
  | (Some err, c') => ((false, Some err), c')
  | (None, c') => ((bool_decide (namespace ∈ namespaces c'), None), c')
  end.

(** Modelled from the spec: service.CreateNamespace, "CreateNamespace(profile,
    namespace) -> error". *)
Definition cluster_CreateNamespace (profile namespace : string) (c : Cluster)
  : option error * Cluster :=
  match next_fault c with
  | (Some err, c') => (Some err, c')
  | (None, c') =>
      (None, mkCluster ({[namespace]} ∪ namespaces c') (secrets c')
                       (services c') (ingresses c') (faults c'))
  end.

(** Modelled from the spec: service.CheckSecretExists, "SecretExists(profile,
    namespace, secretName) -> bool | error". *)
Definition cluster_CheckSecretExists (profile namespace name : string)
    (c : Cluster) : (bool * option error) * Cluster :=
  match next_fault c with
  | (Some err, c') => ((false, Some err), c')
  | (None, c') =>
      ((bool_decide (is_Some (secrets c' !! (namespace, name))), None), c')
  end.

(** Modelled from the spec: service.CreateSecret, "full-replace semantics,
    not a merge": the secret of that name is the given data and labels. *)
Definition cluster_CreateSecret (profile namespace name : string)
    (dataValues labels : gmap string string) (c : Cluster)
  : option error * Cluster :=
  match next_fault c with
  | (Some err, c') => (Some err, c')
  | (None, c') =>
      (None, mkCluster (namespaces c')
                       (<[(namespace, name) := mkSecret dataValues labels]> (secrets c'))
                       (services c') (ingresses c') (faults c'))
  end.

(** Modelled from the spec: service.ListAllServices, "ListServices(profile)
    -> sequence of {namespace, name, ports}". *)
Definition cluster_ListAllServices (profile : string) (c : Cluster)
  : (list Service * option error) * Cluster :=
  match next_fault c with
  | (Some err, c') => (([], Some err), c')
  | (None, c') => ((services c', None), c')
  end.

(** Modelled from the spec: service.CreateIngress.  The spec keeps the
    ingress objects by their generated name, which is no namespace-scoped
    key; "collisions between two requests with the same generated name are
    not deduplicated" and the later request is "silently overwriting" the
    object of that name (section 9). *)
Definition cluster_CreateIngress
    (profile namespace name domain serviceName : string) (port : Z)
    (ingressClassName : string) (c : Cluster) : option error * Cluster :=
  match next_fault c with
  | (Some err, c') => (Some err, c')
  | (None, c') =>
      (None, mkCluster (namespaces c') (secrets c') (services c')
                       (<[name := mkIngress namespace name domain serviceName
                                            port ingressClassName]>
                          (ingresses c'))
                       (faults c'))
  end.

#[export] Instance cluster_facade : Facade Cluster := {
  service_CheckNamespace := cluster_CheckNamespace;
  service_CreateNamespace := cluster_CreateNamespace;
  service_CheckSecretExists := cluster_CheckSecretExists;
  service_CreateSecret := cluster_CreateSecret;
  service_ListAllServices := cluster_ListAllServices;
  service_CreateIngress := cluster_CreateIngress
}.

(** The communication failure that awaits the next facade call, if any. *)
Definition pending_fault (c : Cluster) : option error :=
  match faults c with
  | Some err :: _ => Some err
  | _ => None
  end.

(** The communication failure that awaits the [n]-th coming call, if any. *)
Definition fault_at (n : nat) (c : Cluster) : option error :=
  match faults c !! n with
  | Some (Some err) => Some err
  | _ => None
  end.

(** Two cluster states hold the same durable objects. *)
Definition same_store (c c' : Cluster) : Prop :=
  namespaces c = namespaces c' /\ secrets c = secrets c' /\
  services c = services c' /\ ingresses c = ingresses c'.

(** ** Well-formed service lists *)

(** No namespace and no name of the list contains the byte [':']. *)
Definition names_colon_free (items : list Service) : bool :=
  forallb (fun svc => negb (GoStd.contains_byte ":" (Namespace svc)) &&
                      negb (GoStd.contains_byte ":" (Name svc))) items.

(** The choice is the rendered triple of some port of some listed service. *)
Definition is_listed_triple (items : list Service) (serviceChoice : string)
  : Prop :=
  exists svc port, svc ∈ items /\ port ∈ Ports svc /\
    serviceChoice = render_triple (Namespace svc) (Name svc) (Port port).

(** ** Sample clusters and worlds *)

Definition empty_cluster : Cluster := mkCluster ∅ ∅ [] ∅ [].

Definition idle_world : World Cluster := mkWorld empty_cluster [] ∅ [].

(** The namespace exists already. *)
Definition cluster_with_namespace : Cluster :=
  mkCluster {[ngrok_namespace]} ∅ [] ∅ [].

(** The secret holds an earlier bundle, with one more key. *)
Definition cluster_with_secret : Cluster :=
  mkCluster {[ngrok_namespace]}
            {[(ngrok_namespace, ngrok_secret) :=
                mkSecret (<["OLD_KEY" := "x"]> (credential_data "a" "b")) ∅]}
            [] ∅ [].

(** The operator's line is a positive response of the wizard's yes/no
    questions; the line is none of their responses. *)
Definition accepts `{GoStd.Unicode} (line : string) : bool :=
  containsString posResponses (GoStd.ToLower (GoStd.TrimSpace line)).

Definition not_an_answer `{GoStd.Unicode} (line : string) : bool :=
  negb (containsString posResponses (GoStd.ToLower (GoStd.TrimSpace line))) &&
  negb (containsString negResponses (GoStd.ToLower (GoStd.TrimSpace line))).

(** What a yes/no question adds to the trace for the lines that are not
    an answer: it is asked, the line is read, the operator is told. *)
Fixpoint retry_events (s : string) (others : list string) : list event :=
  match others with
  | [] => []
  | line :: others' =>
      [EvOut OutString "%s [y/n]: " [ArgS s]; EvStdin line;
       EvOut OutErr "Please type yes or no:" []] ++ retry_events s others'
  end.

(** What the credential step adds to the trace when the operator, after
    the lines [others] that are no answer, accepts with the line [yes] and
    enters the two values: the check and its error message if it failed,
    the prompts with their answers, the creation call and its error message
    if it failed. *)
Definition credential_events (profile : string) (exists_ : bool)
    (err : option error) (others : list string) (yes tok key : string)
    (err2 : option error) : list event :=
  [EvCall (CallCheckSecretExists profile ngrok_namespace ngrok_secret)
          (ReplyBool exists_ err)] ++
  match err with
  | Some e =>
      [EvOut (OutErrT StyleFatal)
         "Error checking for existing `ngrok-ingress-controller-credentials secret`: {{.error}}"
         [ArgE e]]
  | None => []
  end ++
  retry_events (credentials_question exists_) others ++
  [EvOut OutString "%s [y/n]: " [ArgS (credentials_question exists_)];
   EvStdin yes;
   EvOut OutString "-- Enter ngrok authtoken: " []; EvStdin tok;
   EvOut OutString "-- Enter ngrok apikey: " []; EvStdin key;
   EvCall (CallCreateSecret profile ngrok_namespace ngrok_secret
             (credential_data tok key) credential_labels)
          (ReplyErr err2)] ++
  match err2 with
  | Some e =>
      [EvOut OutFailureT
         "ERROR creating `ngrok-ingress-controller-credentials` secret: {{.error}}"
         [ArgE e]]
  | None => []
  end.

(** The cluster cannot be reached at the fourth facade call. *)
Definition cluster_fourth_call_fails : Cluster :=
  mkCluster ∅ ∅ [mkService "default" "web" [mkServicePort 80 I]] ∅
            [None; None; None; Some (ErrFacade "connection refused")].

(** The operator sets the credentials, chooses the single domain
    foo.ngrok.app, skips the policy modules and maps default:web:80. *)
Definition world_secret_creation_fails : World Cluster :=
  mkWorld cluster_fourth_call_fails
          ["y"; "tok"; "key"; "y"; "single"; "foo.ngrok.app"; "n"; "y";
           "default:web:80"; "none"]%string ∅ [].

(** The cluster cannot be reached during the four setup calls. *)
Definition world_setup_calls_fail : World Cluster :=
  mkWorld (mkCluster ∅ ∅ [mkService "default" "web" [mkServicePort 80 I]] ∅
             [Some (ErrFacade "timeout 1"); Some (ErrFacade "timeout 2");
              Some (ErrFacade "timeout 3"); Some (ErrFacade "timeout 4")])
          (stdin world_secret_creation_fails) ∅ [].

(** Two services, as the cluster API lists them. *)
Definition dns_and_web : list Service :=
  [mkService "kube-system" "dns" [mkServicePort 53 I];
   mkService "default" "web" [mkServicePort 80 I]].

Definition cluster_dns_web : Cluster := mkCluster ∅ ∅ dns_and_web ∅ [].

(** A service list with a colon in a namespace: no cluster hands it out,
    but the type of the list allows it. *)
Definition colon_services : list Service :=
  [mkService "a:b" "c" [mkServicePort 80 I]].

(** ** Reading a trace *)

Definition is_facade_call (e : event) : bool :=
  match e with
  | EvCall _ _ => true
  | _ => false
  end.

(** The facade calls of a trace, in order. *)
Definition calls_of (tr : list event) : list call :=
  omap (fun e => match e with EvCall c _ => Some c | _ => None end) tr.

(** The events a run added to the trace it started from. *)
Definition new_events {St} (w w' : World St) : list event :=
  drop (length (trace w)) (trace w').

(** The error a facade call came back with, if any. *)
Definition reply_error (r : reply) : option error :=
  match r with
  | ReplyBool _ err => err
  | ReplyErr err => err
  | ReplyServices _ err => err
  end.

(** The facade calls of a trace that failed, in order. *)
Definition failed_calls_of (tr : list event) : list call :=
  omap (fun e => match e with
                 | EvCall c r => match reply_error r with
                                 | Some _ => Some c
                                 | None => None
                                 end
                 | _ => None
                 end) tr.

(** What one iteration of the policy-module loop adds to the trace: the
    prompt, the line read, and for a path the attempt to read the file with
    the error message when it fails. *)
Definition policy_prompt_events (line : string) : list event :=
  [EvOut OutString policy_prompt []; EvStdin line].

Definition policy_events (fs : gmap string string) (path : string) : list event :=
  policy_prompt_events path ++ [EvReadFile path] ++
  match fs !! path with
  | Some _ => []
  | None =>
      [EvOut OutErr "Error reading module set file: %v"
             [ArgE (ErrErrorfW "failed to read file '%s': %w" [path]
                               (ErrOs "open" path))]]
  end.

(** [emits_such Q m]: a run of [m] only adds events to the trace, and the
    list of the added events satisfies [Q]. *)
Definition emits_such {St A} (Q : list event -> Prop) (m : M St A) : Prop :=
  forall w, exists evs, trace (snd (m w)) = trace w ++ evs /\ Q evs.

(** [ends_or_eof m]: a run of [m] returns, unless the operator's input
    ends, in which case the process exits with nothing left to read. *)
Definition ends_or_eof {St A} (m : M St A) : Prop :=
  forall w, (exists a, fst (m w) = Done a) \/
            (fst (m w) = Exited /\ stdin (snd (m w)) = []).






(** [emits P m]: a run of [m] only adds events to the trace, and every
    event it adds satisfies [P]. *)
Definition emits {St A} (P : event -> Prop) (m : M St A) : Prop :=
  forall w, exists evs, trace (snd (m w)) = trace w ++ evs /\ Forall P evs.

(** An ingress request is for a port of a listed service, under the
    generated name. *)
Definition ingress_for_listed (items : list Service) (e : event) : Prop :=
  match e with
  | EvCall (CallCreateIngress _ namespace name _ serviceName port class) _ =>
      exists svc p, svc ∈ items /\ p ∈ Ports svc /\ port = Port p /\
        namespace = Namespace svc /\ serviceName = Name svc /\
        name = "ngrok-ingress-" +:+ serviceName /\ class = "ngrok"%string
  | _ => True
  end.

(** What the single-domain strategy allows: ingress requests for the
    shared domain, and no further domain prompt. *)
Definition single_domain_event (d : string) (e : event) : Prop :=
  match e with
  | EvCall (CallCreateIngress _ _ _ domain _ _ _) _ => domain = d
  | EvOut OutString format _ => format <> domain_prompt
  | _ => True
  end.

(** ** Further readings of the code *)

(** [ngrokPostStart]: the notice is printed; the result is [nil]. *)
Definition ngrokPostStart {St} (cfg : ClusterConfig) (_ _ : string)
  : M St (option error) :=
  out (OutStyled StyleNotice)
      "The ngrok service is available at the following URL:" [] ;;
  ret None.

(** The operator's line, trimmed and in lower case, is one of the
    responses. *)
Definition answers_in `{GoStd.Unicode} (responses : list string)
    (line : string) : bool :=
  containsString responses (GoStd.ToLower (GoStd.TrimSpace line)).

(** The lines the box of [AddIngressToServices] shows: the triple of every
    port of every service, in the order of the list. *)
Definition service_lines (items : list Service) : list string :=
  flat_map (fun svc =>
              map (fun port => render_triple (Namespace svc) (Name svc) (Port port))
                  (Ports svc))
           items.

(** The lines of a text, each closed by a newline. *)
Fixpoint lines_text (lines : list string) : string :=
  match lines with
  | [] => EmptyString
  | line :: lines' => line +:+ String "010" EmptyString +:+ lines_text lines'
  end.

(** The files a trace reads, in order. *)
Definition reads_of (tr : list event) : list string :=
  omap (fun e => match e with EvReadFile path => Some path | _ => None end) tr.

(** The lines in front of the first [none]. *)
Fixpoint before_none (lines : list string) : list string :=
  match lines with
  | [] => []
  | line :: lines' =>
      if String.eqb line "none" then [] else line :: before_none lines'
  end.

(** The closing notice of the ingress configuration. *)
Definition congrats : event :=
  EvOut OutSuccessT
    "Congrats, you have configured ingress with ngrok in your minikube cluster." [].

Definition is_success_notice (e : event) : bool :=
  match e with
  | EvOut OutSuccessT _ _ => true
  | _ => false
  end.

(** The operator's line is a negative response and no positive one. *)
Definition declines `{GoStd.Unicode} (line : string) : bool :=
  negb (accepts line) && answers_in negResponses line.

(** The facade calls that create a secret or an ingress, or list the
    services. *)
Definition is_secret_or_ingress_call (c : call) : bool :=
  match c with
  | CallCreateSecret _ _ _ _ _ | CallListAllServices _
  | CallCreateIngress _ _ _ _ _ _ _ => true
  | _ => false
  end.

(** The event is no success notice. *)
Definition quiet (e : event) : Prop := is_success_notice e = false.

(** ** [addonsConfigureCmd.Run], the whole switch *)

Section Dispatch.

Context {St : Type} `{Facade St} `{GoStd.Unicode}.

(** The cases of the other addons (lines 57-280) call packages that are
    not among the sources at hand; they are steps of which nothing is
    assumed.  Each is given the profile. *)
Variable registry_creds_case metallb_case ingress_case registry_aliases_case
         auto_pause_case : string -> M St unit.

(** [exit.Message(reason.Usage, ...)], line 49: the process exits. *)
Definition exit_usage {A} : M St A := fun w => (Exited, w).

(** Lines 282-357, the case "ngrok". *)
Definition ngrok_case (profile : string) : M St unit :=
  EnsureNamespace profile ;;
  ReconcileCredentials profile ;;
  ConfigureIngress profile.

(** [profile] is the value of ClusterFlagValue(). *)
Definition addonsConfigureCmd_Run (profile : string) (args : list string)
  : M St unit :=
  (if negb (length args =? 1)%nat then exit_usage else ret tt) ;;
  addon <- index args 0 ;;
  if String.eqb addon "registry-creds" then
    registry_creds_case profile ;; configured addon
  else if String.eqb addon "metallb" then
    metallb_case profile ;; configured addon
  else if String.eqb addon "ingress" then
    ingress_case profile ;; configured addon
  else if String.eqb addon "registry-aliases" then
    registry_aliases_case profile ;; configured addon
  else if String.eqb addon "auto-pause" then
    auto_pause_case profile ;; configured addon
  else if String.eqb addon "ngrok" then
    ngrok_case profile ;; configured addon
  else
    out OutFailureT "{{.name}} has no available configuration options"
        [ArgS addon]                                               (* return *).

End Dispatch.

(** The addons that have a case in the switch. *)
Definition configurable_addons : list string :=
  ["registry-creds"; "metallb"; "ingress"; "registry-aliases"; "auto-pause";
   "ngrok"]%string.

(** ** pkg/addons/gcpauth.go *)

Module GCPAuth.

(** [assets.NewMemoryAssetTarget(d, targetPath, permissions)]. *)
Record Asset : Type := NewMemoryAssetTarget {
  asset_data : string;
  asset_targetPath : string;
  asset_permissions : string
}.

(** What the addon asks of the packages around it, and what it is told. *)
Inductive op : Type :=
| OpIsOnGCE                                   (* detect.IsOnGCE() *)
| OpRunning (name : string)                   (* mustload.Running(name) *)
| OpFindDefaultCredentials                    (* google.FindDefaultCredentials(ctx) *)
| OpCopy (f : Asset)                          (* r.Copy(f) *)
| OpRemove (f : Asset)                        (* r.Remove(f) *)
| OpGetenv (key : string)                     (* os.Getenv(key) *)
| OpGcloudProject                             (* gcloud config get-value project *)
| OpVerifyAddonStatusInternal (name val label : string).

Inductive op_reply : Type :=
| ToldBool (b : bool)
| ToldReturned (returned : bool)
| ToldCredentials (json : option string) (err : option error)
| ToldErr (err : option error)
| ToldString (s : string)
| ToldOutput (output : string) (err : option error).

Inductive tstyle : Type := Tip | Notice.

Inductive gevent : Type :=
| EvOp (o : op) (r : op_reply)
| EvExitMessage (msg : string)                (* exit.Message(reason, msg) *)
| EvWarningT (format : string)                (* out.WarningT *)
| EvStyled (st : tstyle) (format : string) (args : list string).

(** The packages the addon calls are not among the sources at hand; they
    are operations on a state [St] of which nothing is assumed.
    [mustload.Running] tells whether it returned; [creds.JSON] is [None]
    when it is nil. *)
Class Host (St : Type) : Type := {
  Force : St -> bool;
  detect_IsOnGCE : St -> bool * St;
  mustload_Running : string -> St -> bool * St;
  google_FindDefaultCredentials : St -> (option string * option error) * St;
  runner_Copy : Asset -> St -> option error * St;
  runner_Remove : Asset -> St -> option error * St;
  os_Getenv : string -> St -> string;
  gcloud_config_get_value_project : St -> (string * option error) * St;
  verifyAddonStatusInternal :
    ClusterConfig -> string -> string -> string -> St -> option error * St
}.

(** The state of the packages, and what has been asked and printed so
    far, oldest first. *)
Record Machine (St : Type) : Type := mkMachine {
  host : St;
  journal : list gevent
}.
Arguments mkMachine {St} _ _.
Arguments host {St} _.
Arguments journal {St} _.

Definition G (St A : Type) : Type := Machine St -> outcome A * Machine St.

Definition gret {St A} (a : A) : G St A := fun m => (Done a, m).

Definition gbind {St A B} (c : G St A) (k : A -> G St B) : G St B :=
  fun m =>
    match c m with
    | (Done a, m') => k a m'
    | (Exited, m') => (Exited, m')
    | (Panicked, m') => (Panicked, m')
    | (OutOfFuel, m') => (OutOfFuel, m')
    end.

Declare Scope gcp_scope.
Notation "x <- c1 ;; c2" := (gbind c1 (fun x => c2))
  (at level 100, c1 at next level, right associativity) : gcp_scope.
Notation "c1 ;; c2" := (gbind c1 (fun _ => c2))
  (at level 100, right associativity) : gcp_scope.
Local Open Scope gcp_scope.

(** [err == nil]. *)
Definition is_nil (err : option error) : bool :=
  match err with
  | None => true
  | Some _ => false
  end.

Definition record {St} (e : gevent) : G St unit :=
  fun m => (Done tt, mkMachine (host m) (journal m ++ [e])).

(** [exit.Message]: the message is printed and the process exits. *)
Definition exit_Message {St A} (msg : string) : G St A :=
  fun m => (Exited, mkMachine (host m) (journal m ++ [EvExitMessage msg])).

Definition host_op {St A} (o : op) (f : St -> A * St) (r : A -> op_reply)
  : G St A :=
  fun m =>
    let '(a, h) := f (host m) in
    (Done a, mkMachine h (journal m ++ [EvOp o (r a)])).

Section Addon.

Context {St : Type} `{Host St}.

(** [credentialsPath] and [projectPath] are declared in another file of
    the package. *)
Variable credentialsPath projectPath : string.

Definition read_Force : G St bool := fun m => (Done (Force (host m)), m).

Definition IsOnGCE : G St bool := host_op OpIsOnGCE detect_IsOnGCE ToldBool.

Definition Running (name : string) : G St unit :=
  fun m =>
    let '(returned, h) := mustload_Running name (host m) in
    (if returned then Done tt else Exited,
     mkMachine h (journal m ++ [EvOp (OpRunning name) (ToldReturned returned)])).

Definition FindDefaultCredentials : G St (option string * option error) :=
  host_op OpFindDefaultCredentials google_FindDefaultCredentials
          (fun a => ToldCredentials (fst a) (snd a)).

Definition Copy (f : Asset) : G St (option error) :=
  host_op (OpCopy f) (runner_Copy f) ToldErr.

Definition Remove (f : Asset) : G St (option error) :=
  host_op (OpRemove f) (runner_Remove f) ToldErr.

Definition Getenv (key : string) : G St string :=
  host_op (OpGetenv key) (fun h => (os_Getenv key h, h)) ToldString.

Definition gcloud_project : G St (string * option error) :=
  host_op OpGcloudProject gcloud_config_get_value_project
          (fun a => ToldOutput (fst a) (snd a)).

Definition no_credentials_message : string :=
  "Could not find any GCP credentials. Either run `gcloud auth application-default login` or set the GOOGLE_APPLICATION_CREDENTIALS environment variable to the path of your credentials file.".

Definition project_tip : string :=
  "To set your Google Cloud project,  run: " +:+
  String "010" (String "010" (String "009" (String "009"
    ("gcloud config set project <project name>" +:+
     String "010" (String "010"
       "or set the GOOGLE_CLOUD_PROJECT environment variable."))))).

Definition enableAddonGCPAuth (cfg : ClusterConfig) : G St (option error) :=
  force <- read_Force ;;
  (* !Force && detect.IsOnGCE() *)
  onGCE <- (if negb force then IsOnGCE else gret false) ;;
  (if onGCE then
     exit_Message
       "It seems that you are running in GCE, which means authentication should work without the GCP Auth addon. If you would still like to authenticate using a credentials file, use the --force flag."
   else gret tt) ;;
  Running (cfg_Name cfg) ;;
  creds <- FindDefaultCredentials ;;
  (match snd creds with
   | Some _ => exit_Message no_credentials_message
   | None => gret tt
   end) ;;
  match fst creds with
  | None => exit_Message no_credentials_message
  | Some json =>
      let f := NewMemoryAssetTarget json credentialsPath "0444" in
      err <- Copy f ;;
      match err with
      | Some err => gret (Some err)
      | None =>
          projectEnv <- Getenv "GOOGLE_CLOUD_PROJECT" ;;
          if negb (String.eqb projectEnv EmptyString) then
            let f := NewMemoryAssetTarget projectEnv projectPath "0444" in
            Copy f
          else
            r <- gcloud_project ;;
            let project := fst r in
            if is_nil (snd r) && (0 <? String.length project)%nat
            then
              (* bytes.TrimSpace(project) *)
              let f := NewMemoryAssetTarget (GoStd.TrimSpace project)
                                           projectPath "0444" in
              Copy f
            else
              record (EvWarningT
                "Could not determine a Google Cloud project, which might be ok.") ;;
              record (EvStyled Tip project_tip []) ;;
              let emptyFile := NewMemoryAssetTarget EmptyString projectPath "0444" in
              Copy emptyFile
      end
  end.

Definition disableAddonGCPAuth (cfg : ClusterConfig) : G St (option error) :=
  Running (cfg_Name cfg) ;;
  let creds := NewMemoryAssetTarget EmptyString credentialsPath "0444" in
  err <- Remove creds ;;
  match err with
  | Some err => gret (Some err)
  | None =>
      let project := NewMemoryAssetTarget EmptyString projectPath "0444" in
      err <- Remove project ;;
      match err with
      | Some err => gret (Some err)
      | None => gret None
      end
  end.

Definition enableOrDisableGCPAuth (cfg : ClusterConfig) (name val : string)
  : G St (option error) :=
  let '(enable, err) := GoStd.ParseBool val in
  match err with
  | Some err => gret (Some (ErrWrap err ("parsing bool: " +:+ name)))
  | None =>
      if enable then enableAddonGCPAuth cfg
      else disableAddonGCPAuth cfg
  end.

Definition verifyGCPAuthAddon (cc : ClusterConfig) (name val : string)
  : G St (option error) :=
  let '(enable, err) := GoStd.ParseBool val in
  match err with
  | Some err => gret (Some (ErrWrap err ("parsing bool: " +:+ name)))
  | None =>
      err <- host_op (OpVerifyAddonStatusInternal name val "gcp-auth")
                     (verifyAddonStatusInternal cc name val "gcp-auth")
                     ToldErr ;;
      (if enable && is_nil err then
         record (EvStyled Notice
           "Your GCP credentials will now be mounted into every pod created in the {{.name}} cluster."
           [cfg_Name cc]) ;;
         record (EvStyled Notice
           "If you don't want your credentials mounted into a specific pod, add a label with the `gcp-auth-skip-secret` key to your pod configuration."
           [])
       else gret tt) ;;
      gret err
  end.

End Addon.

(** *** Reading a journal *)

Definition ops_of (evs : list gevent) : list op :=
  omap (fun e => match e with EvOp o _ => Some o | _ => None end) evs.

(** The assets copied to the node, in order. *)
Definition copies_of (evs : list gevent) : list Asset :=
  omap (fun e => match e with EvOp (OpCopy f) _ => Some f | _ => None end) evs.

(** The assets removed from the node, in order. *)
Definition removes_of (evs : list gevent) : list Asset :=
  omap (fun e => match e with EvOp (OpRemove f) _ => Some f | _ => None end) evs.

(** The replies to the removals, in order. *)
Definition remove_replies_of (evs : list gevent) : list (option error) :=
  omap (fun e => match e with
                 | EvOp (OpRemove _) (ToldErr err) => Some err
                 | _ => None
                 end) evs.

(** What a run added to the journal it started from. *)
Definition added {St} (m m' : Machine St) : list gevent :=
  drop (length (journal m)) (journal m').

(** The replies to the copies, in order. *)
Definition copy_replies_of (evs : list gevent) : list (option error) :=
  omap (fun e => match e with
                 | EvOp (OpCopy _) (ToldErr err) => Some err
                 | _ => None
                 end) evs.

(** The credentials that were found, if the journal tells. *)
Definition found_credentials (evs : list gevent) : list (option string) :=
  omap (fun e => match e with
                 | EvOp OpFindDefaultCredentials (ToldCredentials json _) =>
                     Some json
                 | _ => None
                 end) evs.

(** The project the journal points to: the environment variable when it
    is set, else the trimmed output of gcloud when that ran without error
    and printed something, else none. *)
Fixpoint project_of (evs : list gevent) : option string :=
  match evs with
  | [] => None
  | EvOp (OpGetenv "GOOGLE_CLOUD_PROJECT") (ToldString s) :: evs' =>
      if String.eqb s EmptyString then project_of evs' else Some s
  | EvOp OpGcloudProject (ToldOutput output err) :: evs' =>
      match err with
      | None => if (0 <? String.length output)%nat
                then Some (GoStd.TrimSpace output) else project_of evs'
      | Some _ => project_of evs'
      end
  | _ :: evs' => project_of evs'
  end.

Definition warnings_of (evs : list gevent) : list string :=
  omap (fun e => match e with EvWarningT format => Some format | _ => None end)
       evs.

Definition notices_of (evs : list gevent) : list string :=
  omap (fun e => match e with
                 | EvStyled Notice format _ => Some format
                 | _ => None
                 end) evs.

(** *** A scripted host, for examples *)

(** The replies are fixed in advance; the copies and removals fail as
    [copy_faults] and [remove_faults] tell, in order. *)
Record Script : Type := mkScript {
  script_force : bool;
  script_onGCE : bool;
  script_running : bool;
  script_credentials : option string * option error;
  script_project_env : string;
  script_gcloud : string * option error;
  script_status : option error;
  copy_faults : list (option error);
  remove_faults : list (option error)
}.

Definition script_Copy (f : Asset) (s : Script) : option error * Script :=
  match copy_faults s with
  | [] => (None, s)
  | fault :: faults =>
      (fault,
       mkScript (script_force s) (script_onGCE s) (script_running s)
                (script_credentials s) (script_project_env s) (script_gcloud s)
                (script_status s) faults (remove_faults s))
  end.

Definition script_Remove (f : Asset) (s : Script) : option error * Script :=
  match remove_faults s with
  | [] => (None, s)
  | fault :: faults =>
      (fault,
       mkScript (script_force s) (script_onGCE s) (script_running s)
                (script_credentials s) (script_project_env s) (script_gcloud s)
                (script_status s) (copy_faults s) faults)
  end.

#[export] Instance scripted_host : Host Script := {
  Force := script_force;
  detect_IsOnGCE := fun s => (script_onGCE s, s);
  mustload_Running := fun _ s => (script_running s, s);
  google_FindDefaultCredentials := fun s => (script_credentials s, s);
  runner_Copy := script_Copy;
  runner_Remove := script_Remove;
  os_Getenv := fun key s =>
    if String.eqb key "GOOGLE_CLOUD_PROJECT" then script_project_env s
    else EmptyString;
  gcloud_config_get_value_project := fun s => (script_gcloud s, s);
  verifyAddonStatusInternal := fun _ _ _ _ s => (script_status s, s)
}.

(** Credentials are found; the project comes from gcloud. *)
Definition gcloud_script : Script :=
  mkScript false false true (Some "{}"%string, None) EmptyString
           (String "032" ("my-project" +:+ String "010" EmptyString), None)
           None [] [].

Definition gcloud_machine : Machine Script := mkMachine gcloud_script [].

(** The run of [enableAddonGCPAuth] on that host, with two sample paths. *)
Definition gcloud_run : outcome (option error) * Machine Script :=
  enableAddonGCPAuth "/creds.json" "/project" (mkClusterConfig "minikube")
                     gcloud_machine.

End GCPAuth.

(** ** Reading the domain strategy off a trace *)

Definition is_domain_prompt (e : event) : bool :=
  match e with
  | EvOut OutString format [] => String.eqb format domain_prompt
  | _ => false
  end.

(** How often the trace asks for a domain. *)
Definition domain_prompts (tr : list event) : nat :=
  length (List.filter is_domain_prompt tr).

Definition is_ingress_request (e : event) : bool :=
  match e with
  | EvCall (CallCreateIngress _ _ _ _ _ _ _) _ => true
  | _ => false
  end.

(** Every ingress request of the trace comes right after a domain prompt
    and the line read at it, and carries that line as its domain. *)
Definition request_after_own_prompt (tr : list event) : Prop :=
  forall (pre post : list event)
         (profile namespace name domain serviceName : string) (port : Z)
         (class : string) (r : reply),
    tr = pre ++
         EvCall (CallCreateIngress profile namespace name domain serviceName
                                   port class) r :: post ->
    exists pre',
      pre = pre' ++ [EvOut OutString domain_prompt []; EvStdin domain].

(** ** A stand-in for the case tables, for examples *)

(** The examples type ASCII lines, for which [Map(unicode.ToLower, s)] is
    not consulted; this instance leaves every other string as it is. *)
#[export] Instance ascii_unicode : GoStd.Unicode | 100 :=
  {| GoStd.Map_unicode_ToLower := fun s => s |}.

(* ====================================================================== *)
(** * Part II.  Lemmas and theorems                                        *)
(* ====================================================================== *)

Example ParseBool_T : GoStd.ParseBool "T" = (true, None).
Proof. reflexivity. Qed.

Example ParseBool_yes : GoStd.ParseBool "yes" = (false, Some (ErrSyntax "ParseBool" "yes")).
Proof. reflexivity. Qed.

Example Atoi_53 : GoStd.Atoi "53" = (53, None).
Proof. reflexivity. Qed.

Example Atoi_minus : GoStd.Atoi "-" = (0, Some (ErrSyntax "Atoi" "-")).
Proof. reflexivity. Qed.

Example Atoi_plus7 : GoStd.Atoi "+7" = (7, None).
Proof. reflexivity. Qed.

Example Atoi_huge :
  GoStd.Atoi "9223372036854775808" = (2 ^ 63 - 1, Some (ErrRange "Atoi" "9223372036854775808")).
Proof. reflexivity. Qed.

Example FormatInt_neg : GoStd.FormatInt (-2147483648) = "-2147483648"%string.
Proof. reflexivity. Qed.

Example FormatInt_0 : GoStd.FormatInt 0 = "0"%string.
Proof. reflexivity. Qed.

Example Split_3 : GoStd.Split "kube-system:dns:53" ":" = ["kube-system"; "dns"; "53"]%string.
Proof. reflexivity. Qed.

Example Split_empty : GoStd.Split "" ":" = [""]%string.
Proof. reflexivity. Qed.

Example TrimSpace_ex : GoStd.ToLower (GoStd.TrimSpace "  Yes ") = "yes"%string.
Proof. vm_compute. reflexivity. Qed.

(** White space beyond ASCII is trimmed too: a no-break space (U+00A0)
    behind the answer, an em space (U+2003) in front of it. *)
Example TrimSpace_no_break_space :
  GoStd.TrimSpace ("n" +:+ String "194" (String "160" EmptyString)) = "n"%string /\
  GoStd.TrimSpace (String "226" (String "128" (String "131" "Yes "))) = "Yes"%string /\
  not_an_answer ("n" +:+ String "194" (String "160" EmptyString)) = false.
Proof. repeat split. Qed.

(** A zero-width space (U+200B) is no white space, and a byte that is
    no encoding of a rune stays. *)
Example TrimSpace_not_white_space :
  GoStd.TrimSpace (String "226" (String "128" (String "139" "y")))
  = String "226" (String "128" (String "139" "y")) /\
  GoStd.TrimSpace ("y" +:+ String "160" EmptyString)
  = ("y" +:+ String "160" EmptyString).
Proof. repeat split. Qed.

(** ** Decimal rendering and parsing *)

Section Decimal.

Import GoStd.

Lemma byte_val_digit_char (d : Z) :
  0 <= d <= 9 -> byte_val (digit_char d) = 48 + d.
Proof.
  intros Hd. unfold byte_val, digit_char.
  rewrite nat_ascii_embedding by lia. lia.
Qed.

Lemma digit_char_value (d : Z) :
  0 <= d <= 9 -> (byte_val (digit_char d) - 48) mod 256 = d.
Proof.
  intros Hd. rewrite byte_val_digit_char by lia.
  replace (48 + d - 48) with d by lia. apply Z.mod_small. lia.
Qed.

Lemma atoi_digits_digit (d : Z) (s : string) (n : Z) :
  0 <= d <= 9 ->
  atoi_digits (String (digit_char d) s) n = atoi_digits s (n * 10 + d).
Proof.
  intros Hd. cbn [atoi_digits]. rewrite digit_char_value by lia.
  destruct (Z.ltb_spec 9 d); [lia | reflexivity].
Qed.

(** Parsing the digits that [formatBits] wrote gives the number back. *)
Lemma atoi_digits_formatBits (fuel : nat) :
  forall (u : Z) (acc : string),
    (0 < fuel)%nat -> 0 <= u < 10 ^ Z.of_nat fuel ->
    exists k : Z, 0 < k /\
      forall n, atoi_digits (formatBits fuel u acc) n
                = atoi_digits acc (n * 10 ^ k + u).
Proof.
  induction fuel as [|fuel IH]; intros u acc Hfuel Hu.
  - lia.
  - cbn [formatBits]. destruct (Z.ltb_spec u 10) as [Hlt|Hge].
    + exists 1. split; [lia|]. intros n.
      rewrite atoi_digits_digit by lia. f_equal.
    + assert (Hq : 0 <= u / 10 < 10 ^ Z.of_nat fuel).
      { split; [apply Z.div_pos; lia|].
        apply Z.div_lt_upper_bound; [lia|].
        replace (10 * 10 ^ Z.of_nat fuel) with (10 ^ Z.of_nat (S fuel)); [lia|].
        rewrite Nat2Z.inj_succ, Z.pow_succ_r by lia. reflexivity. }
      assert (Hf : (0 < fuel)%nat).
      { destruct fuel; [|lia]. cbn in Hq.
        assert (1 <= u / 10) by (apply Z.div_le_lower_bound; lia). lia. }
      destruct (IH (u / 10) (String (digit_char (u mod 10)) acc) Hf Hq)
        as (k & Hk & Heq).
      exists (k + 1). split; [lia|]. intros n.
      rewrite Heq.
      assert (Hm : 0 <= u mod 10 <= 9) by (pose proof (Z.mod_pos_bound u 10); lia).
      rewrite atoi_digits_digit by exact Hm. f_equal.
      rewrite Z.pow_add_r by lia.
      pose proof (Z.div_mod u 10). lia.
Qed.

Lemma digits_fuel_enough (u : Z) : 0 <= u -> u < 10 ^ Z.of_nat (digits_fuel u).
Proof.
  intros Hu. unfold digits_fuel.
  rewrite Nat2Z.inj_succ, Z2Nat.id by apply Z.log2_nonneg.
  destruct (Z.eq_dec u 0) as [->|Hne]; [reflexivity|].
  pose proof (Z.log2_spec u ltac:(lia)) as [_ Hlt].
  eapply Z.lt_le_trans; [exact Hlt|].
  apply Z.pow_le_mono_l. lia.
Qed.

Lemma formatBits_nonempty (fuel : nat) (u : Z) (acc : string) :
  (0 < fuel)%nat -> formatBits fuel u acc <> EmptyString.
Proof.
  revert u acc. induction fuel as [|fuel IH]; intros u acc Hf; [lia|].
  cbn [formatBits]. destruct (u <? 10); [discriminate|].
  destruct fuel as [|fuel']; [cbn; discriminate|]. apply IH. lia.
Qed.

Lemma formatBits_head_digit (fuel : nat) :
  forall (u : Z) (acc : string), 0 <= u -> (0 < fuel)%nat ->
    exists d s, 0 <= d <= 9 /\ formatBits fuel u acc = String (digit_char d) s.
Proof.
  induction fuel as [|fuel IH]; intros u acc Hu Hf; [lia|].
  cbn [formatBits]. destruct (Z.ltb_spec u 10).
  - exists u, acc. split; [lia | reflexivity].
  - destruct fuel as [|fuel'].
    + cbn. exists (u mod 10), acc.
      split; [pose proof (Z.mod_pos_bound u 10); lia | reflexivity].
    + apply IH; [apply Z.div_pos; lia | lia].
Qed.

Lemma digit_char_not_sign (d : Z) :
  0 <= d <= 9 -> digit_char d <> "-"%char /\ digit_char d <> "+"%char.
Proof.
  intros Hd.
  assert (d = 0 \/ d = 1 \/ d = 2 \/ d = 3 \/ d = 4 \/ d = 5 \/ d = 6 \/
          d = 7 \/ d = 8 \/ d = 9) as Hc by lia.
  repeat (destruct Hc as [->|Hc]; [split; discriminate|]).
  subst d. split; discriminate.
Qed.

Lemma Atoi_unsigned (s : string) (u : Z) (d : Z) (t : string) :
  s = String (digit_char d) t -> 0 <= d <= 9 ->
  atoi_digits s 0 = Some u -> 0 <= u < 2 ^ 63 ->
  Atoi s = (u, None).
Proof.
  intros -> Hd Hs Hu.
  destruct (digit_char_not_sign d Hd) as [Hm Hp].
  unfold Atoi.
  assert (Hsplit :
    match String (digit_char d) t with
    | String "-" s' => (true, s')
    | String "+" s' => (false, s')
    | _ => (false, String (digit_char d) t)
    end = (false, String (digit_char d) t)).
  { destruct (digit_char d) as [[] [] [] [] [] [] [] []]; try reflexivity;
      congruence. }
  rewrite Hsplit. rewrite Hs.
  destruct (Z.ltb_spec u (- 2 ^ 63)); [lia|].
  destruct (Z.ltb_spec (2 ^ 63 - 1) u); [lia|]. reflexivity.
Qed.

(** [strconv.Atoi] reads back what [%d] printed, for every [int64]. *)
Lemma Atoi_FormatInt (i : Z) :
  - 2 ^ 63 <= i < 2 ^ 63 -> Atoi (FormatInt i) = (i, None).
Proof.
  intros Hi. unfold FormatInt. destruct (Z.ltb_spec i 0) as [Hneg|Hpos].
  - set (u := - i). assert (Hu : 0 <= u) by lia.
    destruct (atoi_digits_formatBits (digits_fuel u) u EmptyString) as (k & _ & Hk).
    { unfold digits_fuel; lia. }
    { split; [lia | apply digits_fuel_enough; lia]. }
    specialize (Hk 0). cbn [atoi_digits] in Hk.
    replace (0 * 10 ^ k + u) with u in Hk by lia.
    unfold Atoi.
    pose proof (formatBits_nonempty (digits_fuel u) u EmptyString
                  ltac:(unfold digits_fuel; lia)) as Hne.
    destruct (formatBits (digits_fuel u) u EmptyString) as [|c t] eqn:Hf;
      [congruence|].
    rewrite Hk.
    destruct (Z.ltb_spec (- u) (- 2 ^ 63)); [lia|].
    destruct (Z.ltb_spec (2 ^ 63 - 1) (- u)); [lia|].
    f_equal. lia.
  - destruct (atoi_digits_formatBits (digits_fuel i) i EmptyString) as (k & _ & Hk).
    { unfold digits_fuel; lia. }
    { split; [lia | apply digits_fuel_enough; lia]. }
    specialize (Hk 0). cbn [atoi_digits] in Hk.
    replace (0 * 10 ^ k + i) with i in Hk by lia.
    destruct (formatBits_head_digit (digits_fuel i) i EmptyString)
      as (d & t & Hd & Hf); [lia | unfold digits_fuel; lia |].
    eapply Atoi_unsigned; eauto. lia.
Qed.

End Decimal.

(** ** Splitting at a separator *)

Section Splitting.

Import GoStd.

Lemma append_nil_l (s : string) : EmptyString +:+ s = s.
Proof. reflexivity. Qed.

Lemma append_cons_l (c : ascii) (a s : string) :
  String c a +:+ s = String c (a +:+ s).
Proof. reflexivity. Qed.

Lemma Split_not_nil (s : string) (sep : ascii) : Split s sep <> [].
Proof.
  destruct s as [|c s]; cbn; [discriminate|].
  destruct (Ascii.eqb c sep); [discriminate|].
  destruct (Split s sep); discriminate.
Qed.

Lemma Split_no_sep (s : string) (sep : ascii) :
  contains_byte sep s = false -> Split s sep = [s].
Proof.
  induction s as [|c s IH]; cbn [Split contains_byte]; [reflexivity|].
  intros Hc. apply orb_false_elim in Hc as [Hc Hs].
  rewrite Hc, (IH Hs). reflexivity.
Qed.

Lemma Split_app_sep (a b : string) (sep : ascii) :
  contains_byte sep a = false ->
  Split (a +:+ String sep b) sep = a :: Split b sep.
Proof.
  induction a as [|c a IH];
    rewrite ?append_nil_l, ?append_cons_l; cbn [Split contains_byte].
  - intros _. rewrite Ascii.eqb_refl. reflexivity.
  - intros Hc. apply orb_false_elim in Hc as [Hc Ha].
    rewrite Hc, (IH Ha). reflexivity.
Qed.

Lemma Split_app_sep_length (a b : string) (sep : ascii) :
  length (Split (a +:+ String sep b) sep)
  = (length (Split a sep) + length (Split b sep))%nat.
Proof.
  induction a as [|c a IH];
    rewrite ?append_nil_l, ?append_cons_l; cbn [Split].
  - rewrite Ascii.eqb_refl. reflexivity.
  - destruct (Ascii.eqb c sep); cbn [length]; [rewrite IH; reflexivity|].
    pose proof (Split_not_nil (a +:+ String sep b) sep) as Hn1.
    pose proof (Split_not_nil a sep) as Hn2.
    destruct (Split (a +:+ String sep b) sep); [congruence|].
    destruct (Split a sep); [congruence|].
    cbn in *. lia.
Qed.

Lemma Split_length_pos (s : string) (sep : ascii) : (1 <= length (Split s sep))%nat.
Proof.
  pose proof (Split_not_nil s sep). destruct (Split s sep); [congruence|cbn; lia].
Qed.

Lemma digit_char_not_colon (d : Z) : 0 <= d <= 9 -> Ascii.eqb (digit_char d) ":" = false.
Proof.
  intros Hd.
  assert (d = 0 \/ d = 1 \/ d = 2 \/ d = 3 \/ d = 4 \/ d = 5 \/ d = 6 \/
          d = 7 \/ d = 8 \/ d = 9) as Hc by lia.
  repeat (destruct Hc as [->|Hc]; [reflexivity|]).
  subst d. reflexivity.
Qed.

Lemma formatBits_colon (fuel : nat) :
  forall (u : Z) (acc : string), 0 <= u ->
    contains_byte ":" (formatBits fuel u acc) = contains_byte ":" acc.
Proof.
  induction fuel as [|fuel IH]; intros u acc Hu; [reflexivity|].
  cbn [formatBits]. destruct (Z.ltb_spec u 10).
  - cbn [contains_byte]. rewrite digit_char_not_colon by lia. reflexivity.
  - rewrite IH by (apply Z.div_pos; lia). cbn [contains_byte].
    rewrite digit_char_not_colon; [reflexivity|].
    pose proof (Z.mod_pos_bound u 10). lia.
Qed.

Lemma FormatInt_colon_free (i : Z) : contains_byte ":" (FormatInt i) = false.
Proof.
  unfold FormatInt. destruct (Z.ltb_spec i 0).
  - cbn [contains_byte]. rewrite formatBits_colon by lia. reflexivity.
  - rewrite formatBits_colon by lia. reflexivity.
Qed.

(** A rendered triple always has at least three segments. *)
Lemma Split_render_triple_length (namespace name : string) (port : Z) :
  (3 <= length (Split (render_triple namespace name port) ":"))%nat.
Proof.
  unfold render_triple.
  change (":" +:+ name +:+ ":" +:+ FormatInt port)
    with (String ":" (name +:+ String ":" (FormatInt port))).
  rewrite Split_app_sep_length, Split_app_sep_length.
  pose proof (Split_length_pos namespace ":").
  pose proof (Split_length_pos name ":").
  pose proof (Split_length_pos (FormatInt port) ":"). lia.
Qed.

(** With no colon in the namespace and in the name, the segments are the
    three parts that were rendered. *)
Lemma Split_render_triple (namespace name : string) (port : Z) :
  contains_byte ":" namespace = false -> contains_byte ":" name = false ->
  Split (render_triple namespace name port) ":"
  = [namespace; name; FormatInt port].
Proof.
  intros Hns Hname. unfold render_triple.
  change (":" +:+ name +:+ ":" +:+ FormatInt port)
    with (String ":" (name +:+ String ":" (FormatInt port))).
  rewrite (Split_app_sep _ _ _ Hns), (Split_app_sep _ _ _ Hname).
  rewrite Split_no_sep by apply FormatInt_colon_free. reflexivity.
Qed.

End Splitting.

(** ** The search for the chosen service *)

Lemma found_ports_spec (svc : Service) (ports : list ServicePort)
    (choice : string) (found : bool) :
  found_ports svc ports choice found = true <->
  found = true \/
  exists port, port ∈ ports /\
    choice = render_triple (Namespace svc) (Name svc) (Port port).
Proof.
  induction ports as [|p ports IH]; cbn [found_ports].
  - split; [auto|]. intros [Hf|(port & Hin & _)]; [exact Hf|].
    inversion Hin.
  - destruct (String.eqb_spec (render_triple (Namespace svc) (Name svc) (Port p))
                              choice)
      as [Heq|Hne].
    + split; [|reflexivity]. intros _. right. exists p.
      split; [constructor | congruence].
    + rewrite IH. split.
      * intros [Hf|(port & Hin & Hc)]; [left; exact Hf|].
        right. exists port. split; [constructor; exact Hin | exact Hc].
      * intros [Hf|(port & Hin & Hc)]; [left; exact Hf|].
        apply elem_of_cons in Hin as [->|Hin]; [congruence|].
        right. exists port. split; assumption.
Qed.

Lemma found_items_spec (items : list Service) (choice : string) :
  forall found : bool,
    found_items items choice found = true <->
    found = true \/ is_listed_triple items choice.
Proof.
  unfold is_listed_triple.
  induction items as [|svc items IH]; intros found; cbn [found_items].
  - split; [auto|]. intros [Hf|(s & p & Hin & _)]; [exact Hf|]. inversion Hin.
  - rewrite IH, found_ports_spec. split.
    + intros [[Hf|(port & Hin & Hc)]|(s & p & Hs & Hp & Hc)].
      * left; exact Hf.
      * right. exists svc, port. split; [constructor|]. split; assumption.
      * right. exists s, p. split; [constructor; exact Hs|]. split; assumption.
    + intros [Hf|(s & p & Hs & Hp & Hc)]; [left; left; exact Hf|].
      apply elem_of_cons in Hs as [->|Hs].
      * left. right. exists p. split; assumption.
      * right. exists s, p. split; [exact Hs|]. split; assumption.
Qed.

(** [found] is true after the search exactly when the choice is the triple
    of a listed service port. *)
Lemma found_iff_listed (items : list Service) (choice : string) :
  found_items items choice false = true <-> is_listed_triple items choice.
Proof.
  rewrite found_items_spec. split; [intros [Hf|Hl]; [discriminate|exact Hl]|auto].
Qed.

Lemma names_colon_free_elem (items : list Service) (svc : Service) :
  names_colon_free items = true -> svc ∈ items ->
  GoStd.contains_byte ":" (Namespace svc) = false /\
  GoStd.contains_byte ":" (Name svc) = false.
Proof.
  unfold names_colon_free. rewrite forallb_forall. intros Hall Hin.
  apply list_elem_of_In in Hin. specialize (Hall svc Hin).
  apply andb_prop in Hall as [H1 H2].
  split; [destruct (GoStd.contains_byte ":" (Namespace svc))
         | destruct (GoStd.contains_byte ":" (Name svc))]; auto; discriminate.
Qed.

Lemma Port_in_int32 (port : ServicePort) : GoStd.in_int32 (Port port).
Proof.
  pose proof (Port_int32 port) as Hp. apply Is_true_eq_true in Hp.
  apply andb_prop in Hp as [H1 H2]. unfold GoStd.in_int32. lia.
Qed.

Lemma int32_id (z : Z) : GoStd.in_int32 z -> GoStd.int32 z = z.
Proof.
  unfold GoStd.in_int32, GoStd.int32. intros Hz.
  rewrite Z.mod_small by lia. lia.
Qed.

(** The triple of a listed service port of a well-formed list splits into
    its three parts, and the third part parses back to the port. *)
Lemma rendered_triple_parts (items : list Service) (svc : Service)
    (port : ServicePort) :
  names_colon_free items = true -> svc ∈ items ->
  GoStd.Split (render_triple (Namespace svc) (Name svc) (Port port)) ":"
  = [Namespace svc; Name svc; GoStd.FormatInt (Port port)] /\
  GoStd.Atoi (GoStd.FormatInt (Port port)) = (Port port, None) /\
  GoStd.int32 (Port port) = Port port.
Proof.
  intros Hnames Hs.
  destruct (names_colon_free_elem _ _ Hnames Hs) as [Hns Hname].
  pose proof (Port_in_int32 port) as Hrange.
  repeat split.
  - apply Split_render_triple; assumption.
  - apply Atoi_FormatInt. unfold GoStd.in_int32 in Hrange. lia.
  - apply int32_id, Hrange.
Qed.

Lemma listed_triple_parts (items : list Service) (choice : string) :
  names_colon_free items = true ->
  is_listed_triple items choice ->
  exists svc port, svc ∈ items /\ port ∈ Ports svc /\
    GoStd.Split choice ":"
    = [Namespace svc; Name svc; GoStd.FormatInt (Port port)] /\
    GoStd.Atoi (GoStd.FormatInt (Port port)) = (Port port, None) /\
    GoStd.int32 (Port port) = Port port.
Proof.
  intros Hnames (svc & port & Hs & Hp & ->).
  exists svc, port. split; [exact Hs|]. split; [exact Hp|].
  apply (rendered_triple_parts items); assumption.
Qed.

Lemma render_triple_not_none (namespace name : string) (port : Z) :
  render_triple namespace name port <> "none"%string.
Proof.
  intros Heq. pose proof (Split_render_triple_length namespace name port) as Hlen.
  rewrite Heq in Hlen. cbn in Hlen. lia.
Qed.

(** ** Runs: what a computation adds to the trace *)

Section Emits.

Context {St : Type} `{Facade St} `{GoStd.Unicode}.

Lemma bind_unfold {A B} (m : M St A) (k : A -> M St B) (w : World St) :
  bind m k w =
  match m w with
  | (Done a, w') => k a w'
  | (Exited, w') => (Exited, w')
  | (Panicked, w') => (Panicked, w')
  | (OutOfFuel, w') => (OutOfFuel, w')
  end.
Proof. reflexivity. Qed.

Lemma emits_ret {A} (P : event -> Prop) (a : A) : emits P (ret (St := St) a).
Proof. intros w. exists []. split; [symmetry; apply app_nil_r | constructor]. Qed.

Lemma emits_stop {A} (P : event -> Prop) (o : outcome A) :
  emits P (fun w : World St => (o, w)).
Proof. intros w. exists []. split; [symmetry; apply app_nil_r | constructor]. Qed.

Lemma emits_bind {A B} (P : event -> Prop) (m : M St A) (k : A -> M St B) :
  emits P m -> (forall a, emits P (k a)) -> emits P (bind m k).
Proof.
  intros Hm Hk w. rewrite bind_unfold.
  destruct (Hm w) as (evs & Htr & Hall).
  destruct (m w) as [[a| | |] w']; cbn [snd] in *;
    try (exists evs; split; assumption).
  destruct (Hk a w') as (evs' & Htr' & Hall').
  exists (evs ++ evs'). split.
  - rewrite Htr', Htr. symmetry. apply app_assoc.
  - apply Forall_app. split; assumption.
Qed.

Lemma emits_emit (P : event -> Prop) (e : event) : P e -> emits P (emit (St := St) e).
Proof.
  intros He w. exists [e]. split; [reflexivity | repeat constructor; exact He].
Qed.

Lemma emits_out (P : event -> Prop) (fn : out_fn) (format : string)
    (args : list out_arg) :
  P (EvOut fn format args) -> emits P (out (St := St) fn format args).
Proof. apply emits_emit. Qed.

Lemma emits_facade_call {A} (P : event -> Prop) (c : call)
    (f : St -> A * St) (r : A -> reply) :
  (forall a, P (EvCall c (r a))) -> emits P (facade_call c f r).
Proof.
  intros Hc w. unfold facade_call. destruct (f (cluster w)) as [a st].
  exists [EvCall c (r a)]. split; [reflexivity | repeat constructor; apply Hc].
Qed.

Lemma emits_ReadString (P : event -> Prop) :
  (forall line, P (EvStdin line)) -> emits P (ReadString (St := St)).
Proof.
  intros Hl w. unfold ReadString. destruct (stdin w) as [|line rest].
  - exists []. split; [symmetry; apply app_nil_r | constructor].
  - exists [EvStdin line]. split; [reflexivity | repeat constructor; apply Hl].
Qed.

Lemma emits_os_ReadFile (P : event -> Prop) (path : string) :
  P (EvReadFile path) -> emits P (os_ReadFile (St := St) path).
Proof.
  intros Hp w. unfold os_ReadFile. exists [EvReadFile path].
  split; [destruct (files w !! path); reflexivity | repeat constructor; exact Hp].
Qed.

Lemma emits_index (P : event -> Prop) (l : list string) (i : nat) :
  emits P (index (St := St) l i).
Proof. unfold index. destruct (l !! i); [apply emits_ret | apply emits_stop]. Qed.

(** A prompt adds the text it prints and the line it reads. *)
Lemma emits_prompt_answer (P : event -> Prop) (s : string) (choices : list string) :
  P (EvOut OutString s (map ArgS choices)) -> (forall line, P (EvStdin line)) ->
  emits P (prompt_answer (St := St) s choices).
Proof.
  intros Hs Hl. unfold prompt_answer.
  apply emits_bind; [apply emits_out, Hs | intros _].
  apply emits_bind; [apply emits_ReadString, Hl | intros [line|]].
  - apply emits_ret.
  - apply emits_stop.
Qed.

Lemma yesno_lines_trace (P : event -> Prop) (s : string) (pos neg : list string)
    (lines : list string) :
  P (EvOut OutString "%s [y/n]: " [ArgS s]) ->
  P (EvOut OutErr "Please type yes or no:" []) ->
  (forall line, P (EvStdin line)) ->
  forall tr, exists evs,
    snd (yesno_lines s pos neg lines tr) = tr ++ evs /\ Forall P evs.
Proof.
  intros Hp He Hl. induction lines as [|response rest IH]; intros tr.
  - cbn [yesno_lines snd]. eexists. split; [reflexivity|]. repeat constructor; assumption.
  - cbn [yesno_lines].
    destruct (containsString pos _); [|destruct (containsString neg _)].
    + cbn [snd]. rewrite <- app_assoc. eexists. split; [reflexivity|].
      repeat constructor; auto.
    + cbn [snd]. rewrite <- app_assoc. eexists. split; [reflexivity|].
      repeat constructor; auto.
    + destruct (IH (((tr ++ [EvOut OutString "%s [y/n]: " [ArgS s]]) ++
                     [EvStdin response]) ++ [EvOut OutErr "Please type yes or no:" []]))
        as (evs & Heq & Hall).
      rewrite Heq. rewrite <- !app_assoc. eexists. split; [reflexivity|].
      cbn [app]. repeat constructor; auto.
Qed.

Lemma emits_AskForYesNoConfirmation (P : event -> Prop) (s : string)
    (pos neg : list string) :
  P (EvOut OutString "%s [y/n]: " [ArgS s]) ->
  P (EvOut OutErr "Please type yes or no:" []) ->
  (forall line, P (EvStdin line)) ->
  emits P (AskForYesNoConfirmation (St := St) s pos neg).
Proof.
  intros Hp He Hl w. unfold AskForYesNoConfirmation.
  destruct (yesno_lines_trace P s pos neg (stdin w) Hp He Hl (trace w))
    as (evs & Heq & Hall).
  destruct (yesno_lines s pos neg (stdin w) (trace w)) as [[o rest] tr].
  cbn [snd] in *. exists evs. split; assumption.
Qed.

End Emits.

(** ** One step of the prompts and of the loops *)

Section Steps.

Context {St : Type} `{Facade St} `{GoStd.Unicode}.

Lemma prompt_answer_cons (s : string) (choices : list string) (c : St)
    (line : string) (rest : list string) (f : gmap string string)
    (t : list event) :
  prompt_answer s choices (mkWorld c (line :: rest) f t)
  = (Done line,
     mkWorld c rest f (t ++ [EvOut OutString s (map ArgS choices); EvStdin line])).
Proof.
  unfold prompt_answer, out, emit, ReadString, bind, ret. cbn.
  rewrite <- app_assoc. reflexivity.
Qed.

Lemma prompt_answer_nil (s : string) (choices : list string) (c : St)
    (f : gmap string string) (t : list event) :
  prompt_answer s choices (mkWorld c [] f t)
  = (Exited, mkWorld c [] f (t ++ [EvOut OutString s (map ArgS choices)])).
Proof. reflexivity. Qed.

Lemma ReadFileContents_run (path : string) (c : St) (i : list string)
    (f : gmap string string) (t : list event) :
  ReadFileContents path (mkWorld c i f t)
  = (Done match f !! path with
          | Some data => (data, None)
          | None => (EmptyString,
                     Some (ErrErrorfW "failed to read file '%s': %w" [path]
                                      (ErrOs "open" path)))
          end,
     mkWorld c i f (t ++ [EvReadFile path])).
Proof.
  unfold ReadFileContents, os_ReadFile, bind, ret. cbn.
  destruct (f !! path); reflexivity.
Qed.

Lemma policy_loop_step (n : nat) (c : St) (path : string) (rest : list string)
    (f : gmap string string) (t : list event) :
  LoadAndCreatePolicyModules_loop (S n) (mkWorld c (path :: rest) f t)
  = if String.eqb path "none"
    then (Done tt, mkWorld c rest f (t ++ policy_prompt_events path))
    else LoadAndCreatePolicyModules_loop n
           (mkWorld c rest f (t ++ policy_events f path)).
Proof.
  cbn [LoadAndCreatePolicyModules_loop]. rewrite bind_unfold.
  unfold AskForStaticValueOptional. rewrite prompt_answer_cons.
  destruct (String.eqb path "none"); [reflexivity|].
  rewrite bind_unfold, ReadFileContents_run. unfold policy_events.
  destruct (f !! path); cbn [snd].
  - rewrite <- app_assoc. reflexivity.
  - rewrite bind_unfold. unfold out, emit. cbn [cluster stdin files trace].
    rewrite <- !app_assoc. reflexivity.
Qed.

(** The bound on the iterations does not matter once it exceeds the number
    of lines left. *)
Lemma policy_loop_fuel (n : nat) :
  forall (m : nat) (w : World St),
    (length (stdin w) < n)%nat -> (length (stdin w) < m)%nat ->
    LoadAndCreatePolicyModules_loop n w = LoadAndCreatePolicyModules_loop m w.
Proof.
  induction n as [|n IH]; intros m [c i f t] Hn Hm; cbn [stdin] in *; [lia|].
  destruct m as [|m]; [lia|].
  destruct i as [|path rest]; [reflexivity|].
  rewrite !policy_loop_step. destruct (String.eqb path "none"); [reflexivity|].
  apply IH; cbn [stdin length] in *; lia.
Qed.

Lemma LoadAndCreatePolicyModules_step (c : St) (path : string)
    (rest : list string) (f : gmap string string) (t : list event) :
  LoadAndCreatePolicyModules (mkWorld c (path :: rest) f t)
  = if String.eqb path "none"
    then (Done tt, mkWorld c rest f (t ++ policy_prompt_events path))
    else LoadAndCreatePolicyModules
           (mkWorld c rest f (t ++ policy_events f path)).
Proof.
  unfold LoadAndCreatePolicyModules. cbn [stdin length].
  apply policy_loop_step.
Qed.

(** A found choice whose segments and port are known: the ingress for
    these parts is created, and the loop goes on. *)
Lemma map_selection_parts (profile choice domain : string) (next : M St unit)
    (namespace name part2 : string) (more : list string) (port : Z) :
  GoStd.Split choice ":" = namespace :: name :: part2 :: more ->
  GoStd.Atoi part2 = (port, None) ->
  map_selection profile choice domain next
  = (create_ingress profile namespace name domain (GoStd.int32 port) ;; next).
Proof.
  intros Hsplit Hatoi. unfold map_selection. rewrite Hsplit.
  unfold index. cbn [lookup list_lookup].
  unfold bind at 1 2 3. unfold ret at 1 2 3.
  rewrite Hatoi. reflexivity.
Qed.

(** A found choice whose third segment is not a number: the error is
    printed and the function returns. *)
Lemma map_selection_bad_port (profile choice domain : string)
    (next : M St unit) (namespace name part2 : string) (more : list string)
    (port : Z) (err : error) (w : World St) :
  GoStd.Split choice ":" = namespace :: name :: part2 :: more ->
  GoStd.Atoi part2 = (port, Some err) ->
  map_selection profile choice domain next w
  = (Done tt,
     mkWorld (cluster w) (stdin w) (files w)
             (trace w ++ [EvOut OutErr "Error converting port to int: %v" [ArgE err]])).
Proof.
  intros Hsplit Hatoi. unfold map_selection. rewrite Hsplit.
  unfold index. cbn [lookup list_lookup].
  unfold bind at 1 2 3. unfold ret at 1 2 3.
  rewrite Hatoi. reflexivity.
Qed.

Lemma create_ingress_stdin (profile namespace name domain : string) (port : Z)
    (w : World St) :
  exists st evs,
    create_ingress profile namespace name domain port w
    = (Done tt, mkWorld st (stdin w) (files w) (trace w ++ evs)).
Proof.
  unfold create_ingress, CreateIngress, facade_call. rewrite bind_unfold.
  destruct (service_CreateIngress _ _ _ _ _ _ _ (cluster w)) as [[err|] st].
  - eexists st, _. unfold out, emit. cbn [cluster stdin files trace].
    rewrite <- app_assoc. reflexivity.
  - eexists st, _. unfold ret. reflexivity.
Qed.

(** What follows a mapped selection only matters on the lines that are
    left: mapping reads no input. *)
Lemma map_selection_ext (profile choice domain : string)
    (next1 next2 : M St unit) (w : World St) :
  (forall w', stdin w' = stdin w -> next1 w' = next2 w') ->
  map_selection profile choice domain next1 w
  = map_selection profile choice domain next2 w.
Proof.
  intros Hnext. unfold map_selection, index.
  destruct (GoStd.Split choice ":" !! 0%nat) as [ns|]; [|reflexivity].
  destruct (GoStd.Split choice ":" !! 1%nat) as [name|]; [|reflexivity].
  destruct (GoStd.Split choice ":" !! 2%nat) as [part2|]; [|reflexivity].
  unfold bind at 1 2 3 5 6 7. unfold ret at 1 2 3 4 5 6.
  destruct (GoStd.Atoi part2) as [port [err|]]; [reflexivity|].
  rewrite !bind_unfold.
  destruct (create_ingress_stdin profile ns name domain (GoStd.int32 port) w)
    as (st & evs & ->).
  apply Hnext. reflexivity.
Qed.

Lemma ingress_loop_step (n : nat) (profile : string) (items : list Service)
    (singleDomain : bool) (domain : string) (c : St) (choice : string)
    (rest : list string) (f : gmap string string) (t : list event) :
  AddIngressToServices_loop (S n) profile items singleDomain domain
    (mkWorld c (choice :: rest) f t)
  = if String.eqb choice "none" then
      (Done tt,
       mkWorld c rest f (t ++ [EvOut OutString service_prompt []; EvStdin choice]))
    else if negb (found_items items choice false) then
      AddIngressToServices_loop n profile items singleDomain domain
        (mkWorld c rest f
           (t ++ [EvOut OutString service_prompt []; EvStdin choice;
                  EvOut OutErr "Service not found" []]))
    else
      (domain' <- (if negb singleDomain then AskForStaticValue domain_prompt
                   else ret domain) ;;
       map_selection profile choice domain'
         (AddIngressToServices_loop n profile items singleDomain domain'))
        (mkWorld c rest f
           (t ++ [EvOut OutString service_prompt []; EvStdin choice])).
Proof.
  cbn [AddIngressToServices_loop]. rewrite bind_unfold.
  unfold AskForStaticValue at 1. rewrite prompt_answer_cons. cbn [map].
  destruct (String.eqb choice "none"); [reflexivity|].
  destruct (found_items items choice false); cbn [negb]; [reflexivity|].
  rewrite bind_unfold. unfold out, emit. cbn [cluster stdin files trace].
  rewrite <- app_assoc. reflexivity.
Qed.

Lemma ingress_loop_fuel (n : nat) :
  forall (m : nat) (profile : string) (items : list Service)
         (singleDomain : bool) (domain : string) (w : World St),
    (length (stdin w) < n)%nat -> (length (stdin w) < m)%nat ->
    AddIngressToServices_loop n profile items singleDomain domain w
    = AddIngressToServices_loop m profile items singleDomain domain w.
Proof.
  induction n as [|n IH]; intros m profile items sd domain [c i f t] Hn Hm;
    cbn [stdin] in *; [lia|].
  destruct m as [|m]; [lia|].
  destruct i as [|choice rest]; [reflexivity|].
  cbn [length] in *.
  rewrite !ingress_loop_step. destruct (String.eqb choice "none"); [reflexivity|].
  destruct (found_items items choice false); cbn [negb].
  - destruct sd; cbn [negb].
    + rewrite !bind_unfold. unfold ret at 1 2.
      apply map_selection_ext. intros w' Hw'. cbn [stdin] in Hw'.
      apply IH; rewrite Hw'; lia.
    + rewrite !bind_unfold. unfold AskForStaticValue.
      destruct rest as [|dom rest']; [reflexivity|].
      rewrite prompt_answer_cons.
      apply map_selection_ext. intros w' Hw'. cbn [stdin] in Hw'.
      apply IH; rewrite Hw'; cbn [length] in *; lia.
  - apply IH; cbn [stdin]; lia.
Qed.

End Steps.

(* ====================================================================== *)
(** * The properties of the specification                                  *)
(* ====================================================================== *)

(** ** Enabling and disabling *)

Example ParseBool_false_literals :
  Forall (fun val => GoStd.ParseBool val = (false, None))
         ["0"; "f"; "F"; "FALSE"; "false"; "False"]%string.
Proof. repeat constructor. Qed.

(** C9.  For every value string that parses as boolean false,
    [enableOrDisableNgrok] returns no error and leaves the world as it is:
    no facade call, no output, the cluster untouched.  For every value
    string that does not parse as a boolean it returns the parse error,
    wrapped, and again leaves the world as it is. *)
Theorem enableOrDisableNgrok_no_cluster_operation
    {St : Type} `{Facade St} (cfg : ClusterConfig) (name val : string)
    (w : World St) :
  (GoStd.ParseBool val = (false, None) ->
   enableOrDisableNgrok cfg name val w = (Done None, w)) /\
  (forall err, snd (GoStd.ParseBool val) = Some err ->
   enableOrDisableNgrok cfg name val w
   = (Done (Some (ErrWrap err ("parsing bool: " +:+ name))), w)).
Proof.
  unfold enableOrDisableNgrok. split.
  - intros ->. reflexivity.
  - intros err Herr. destruct (GoStd.ParseBool val) as [enable e].
    cbn [snd] in Herr. subst e. reflexivity.
Qed.

Lemma enableOrDisableNgrok_no_cluster_operation_witness :
  enableOrDisableNgrok (mkClusterConfig "minikube") "ngrok" "false" idle_world
  = (Done None, idle_world) /\
  enableOrDisableNgrok (mkClusterConfig "minikube") "ngrok" "maybe" idle_world
  = (Done (Some (ErrWrap (ErrSyntax "ParseBool" "maybe") "parsing bool: ngrok")),
     idle_world).
Proof.
  split.
  - apply (proj1 (enableOrDisableNgrok_no_cluster_operation
                    (mkClusterConfig "minikube") "ngrok" "false" idle_world)).
    reflexivity.
  - apply (proj2 (enableOrDisableNgrok_no_cluster_operation
                    (mkClusterConfig "minikube") "ngrok" "maybe" idle_world)
                 (ErrSyntax "ParseBool" "maybe")).
    reflexivity.
Defined.

(** ** The credential gate *)

Lemma new_events_app {St : Type} (c c' : St) (i i' : list string)
    (f f' : gmap string string) (t evs : list event) :
  new_events (mkWorld c i f t) (mkWorld c' i' f' (t ++ evs)) = evs.
Proof. unfold new_events. cbn [trace]. apply drop_app_length. Qed.

Lemma next_fault_same_store (c : Cluster) : same_store c (snd (next_fault c)).
Proof.
  unfold next_fault, same_store. destruct (faults c); cbn; auto.
Qed.

Lemma next_fault_pending (c : Cluster) : fst (next_fault c) = pending_fault c.
Proof.
  unfold next_fault, pending_fault. destruct (faults c) as [|[err|] fs]; reflexivity.
Qed.

(** The gate over any facade: its result is decided by the reply of the
    existence check, which is its only call. *)
Lemma ngrokValidation_run {St : Type} `{Facade St} (DefaultClusterName : string)
    (cfg : ClusterConfig) (a b : string) (c : St) (i : list string)
    (f : gmap string string) (t : list event) :
  ngrokValidation DefaultClusterName cfg a b (mkWorld c i f t)
  = let '((exists_, err), c1) :=
      service_CheckSecretExists (cfg_Name cfg) ngrok_namespace ngrok_secret c in
    let check :=
      EvCall (CallCheckSecretExists (cfg_Name cfg) ngrok_namespace ngrok_secret)
             (ReplyBool exists_ err) in
    match err with
    | Some e =>
        (Done (Some (ErrWrap e "check secret exists")),
         mkWorld c1 i f (t ++ [check]))
    | None =>
        if exists_ then (Done None, mkWorld c1 i f (t ++ [check]))
        else
          (Done (Some ErrSkipThisAddon),
           mkWorld c1 i f
             (t ++ [check;
                    EvOut (OutStyled StyleLaunch)
                      ("Please run `minikube " +:+
                       (if negb (String.eqb (cfg_Name cfg) DefaultClusterName)
                        then " -p " +:+ cfg_Name cfg else EmptyString) +:+
                       " addons configure ngrok` to create your credentials before enabling the ngrok ingress addon")
                      []]))
    end.
Proof.
  unfold ngrokValidation, CheckSecretExists, facade_call. rewrite bind_unfold.
  cbn [cluster stdin files trace]. fold ngrok_namespace ngrok_secret.
  destruct (service_CheckSecretExists (cfg_Name cfg) ngrok_namespace ngrok_secret c)
    as [[ex [e|]] c1]; cbn [fst snd]; [reflexivity|].
  destruct ex; cbn [negb]; [reflexivity|].
  rewrite bind_unfold. unfold out, emit, ret. cbn [cluster stdin files trace].
  rewrite <- app_assoc. reflexivity.
Qed.

(** C1.  For every cluster state, [ngrokValidation] returns the skip
    outcome [ErrSkipThisAddon] exactly when the existence check goes through
    and the secret ngrok-ingress-controller-credentials is absent from the
    namespace ngrok-ingress-controller; it returns an error other than the
    skip outcome only when the existence check itself fails, and the error
    is that failure, wrapped; the durable objects of the cluster are the
    same after the call, whose only facade call is the existence check. *)
Theorem ngrokValidation_gate (DefaultClusterName : string)
    (cfg : ClusterConfig) (a b : string) (w : World Cluster) :
  exists (res : option error) (w' : World Cluster),
    ngrokValidation DefaultClusterName cfg a b w = (Done res, w') /\
    (res = Some ErrSkipThisAddon <->
     pending_fault (cluster w) = None /\
     secrets (cluster w) !! (ngrok_namespace, ngrok_secret) = None) /\
    (res = None <->
     pending_fault (cluster w) = None /\
     is_Some (secrets (cluster w) !! (ngrok_namespace, ngrok_secret))) /\
    (forall e, res = Some e -> e <> ErrSkipThisAddon ->
       exists err, pending_fault (cluster w) = Some err /\
                   e = ErrWrap err "check secret exists") /\
    same_store (cluster w) (cluster w') /\
    calls_of (new_events w w')
    = [CallCheckSecretExists (cfg_Name cfg) ngrok_namespace ngrok_secret].
Proof.
  destruct w as [c i f t]. rewrite ngrokValidation_run.
  cbn [cluster service_CheckSecretExists cluster_facade].
  unfold cluster_CheckSecretExists.
  pose proof (next_fault_same_store c) as Hstore.
  pose proof (next_fault_pending c) as Hpend.
  destruct (next_fault c) as [[err|] c']; cbn [fst snd] in *.
  - (* the check fails *)
    eexists _, _. split; [reflexivity|]. rewrite <- Hpend.
    split; [|split; [|split; [|split]]].
    + split; [discriminate | intros [Hn _]; discriminate].
    + split; [discriminate | intros [Hn _]; discriminate].
    + intros e He _. exists err. split; congruence.
    + exact Hstore.
    + rewrite new_events_app. reflexivity.
  - (* the check goes through *)
    assert (Hsec : secrets c' = secrets c) by (symmetry; apply Hstore).
    rewrite Hsec.
    destruct (secrets c !! (ngrok_namespace, ngrok_secret)) as [sec|] eqn:Hlook.
    + rewrite bool_decide_eq_true_2 by eauto.
      eexists _, _. split; [reflexivity|]. rewrite <- Hpend.
      split; [|split; [|split; [|split]]].
      * split; [discriminate | intros [_ Hn]; discriminate].
      * split; [eauto | reflexivity].
      * intros e He. discriminate.
      * exact Hstore.
      * rewrite new_events_app. reflexivity.
    + rewrite bool_decide_eq_false_2 by (intros [? ?]; discriminate).
      eexists _, _. split; [reflexivity|]. rewrite <- Hpend.
      split; [|split; [|split; [|split]]].
      * split; [intros _; split; reflexivity | reflexivity].
      * split; [discriminate | intros [_ [? ?]]; discriminate].
      * intros e He Hne. congruence.
      * exact Hstore.
      * rewrite new_events_app. reflexivity.
Qed.

(** ** The namespace step *)

Lemma EnsureNamespace_run {St : Type} `{Facade St} (profile : string)
    (c : St) (i : list string) (f : gmap string string) (t : list event) :
  EnsureNamespace profile (mkWorld c i f t)
  = let '((exists_, err), c1) :=
      service_CheckNamespace profile ngrok_namespace c in
    let t1 := t ++ [EvCall (CallCheckNamespace profile ngrok_namespace)
                           (ReplyBool exists_ err)] ++
              match err with
              | Some e =>
                  [EvOut (OutErrT StyleFatal)
                     "Error checking for existing `ngrok-ingress-controller` namespace: {{.error}}"
                     [ArgE e]]
              | None => []
              end in
    if exists_ then (Done tt, mkWorld c1 i f t1)
    else
      let '(err2, c2) := service_CreateNamespace profile ngrok_namespace c1 in
      (Done tt,
       mkWorld c2 i f
         (t1 ++ [EvCall (CallCreateNamespace profile ngrok_namespace)
                        (ReplyErr err2)] ++
          match err2 with
          | Some e =>
              [EvOut (OutErrT StyleFatal)
                 "Error creating `ngrok-ingress-controller` namespace: {{.error}}"
                 [ArgE e]]
          | None => []
          end)).
Proof.
  unfold EnsureNamespace, CheckNamespace, CreateNamespace, facade_call.
  rewrite bind_unfold. cbn [cluster stdin files trace].
  destruct (service_CheckNamespace profile ngrok_namespace c) as [[ex err] c1].
  cbn [fst snd]. rewrite bind_unfold.
  destruct err as [e|]; unfold out, emit, ret; cbn [cluster stdin files trace];
    destruct ex; cbn [negb]; rewrite <- ?app_assoc; try reflexivity;
    rewrite !bind_unfold; cbn [cluster stdin files trace];
    destruct (service_CreateNamespace profile ngrok_namespace c1) as [[e2|] c2];
    cbn [cluster stdin files trace]; rewrite <- ?app_assoc; reflexivity.
Qed.

Lemma cluster_CheckNamespace_present (profile namespace : string) (c : Cluster) :
  namespace ∈ namespaces c -> pending_fault c = None ->
  cluster_CheckNamespace profile namespace c = ((true, None), snd (next_fault c)).
Proof.
  intros Hin Hp. unfold cluster_CheckNamespace.
  pose proof (next_fault_same_store c) as (Hns & _).
  pose proof (next_fault_pending c) as Hpend. rewrite Hp in Hpend.
  destruct (next_fault c) as [fault c']. cbn [fst snd] in *. subst fault.
  rewrite bool_decide_eq_true_2 by (rewrite <- Hns; exact Hin). reflexivity.
Qed.

(** On a reachable cluster the step ends with the namespace in place. *)
Lemma EnsureNamespace_reachable (profile : string) (c : Cluster)
    (i : list string) (f : gmap string string) (t : list event) :
  faults c = [] ->
  exists c1 t1,
    EnsureNamespace profile (mkWorld c i f t) = (Done tt, mkWorld c1 i f t1) /\
    ngrok_namespace ∈ namespaces c1 /\ faults c1 = [].
Proof.
  intros Hf. rewrite EnsureNamespace_run.
  cbn [service_CheckNamespace service_CreateNamespace cluster_facade].
  unfold cluster_CheckNamespace, cluster_CreateNamespace, next_fault.
  rewrite Hf. cbn [fst snd].
  destruct (decide (ngrok_namespace ∈ namespaces c)) as [Hin|Hnin].
  - rewrite bool_decide_eq_true_2 by exact Hin.
    eexists _, _. split; [reflexivity|]. split; [exact Hin | exact Hf].
  - rewrite bool_decide_eq_false_2 by exact Hnin. rewrite Hf.
    eexists _, _. split; [reflexivity|]. cbn [namespaces faults].
    split; [set_solver | exact Hf].
Qed.

(** C7.  The namespace step is idempotent.  It calls CreateNamespace for
    ngrok-ingress-controller exactly when the existence check came back
    with [exists = false]; run against a cluster in which the namespace
    exists (and can be checked), it prints no error, makes no creation call
    and leaves the durable objects as they are; and when it is run twice in
    a row on a reachable cluster, the second run consists of the existence
    check alone, answered [true]. *)
Theorem EnsureNamespace_idempotent (profile : string) (w : World Cluster) :
  let reported_present :=
    fst (fst (cluster_CheckNamespace profile ngrok_namespace (cluster w))) in
  let r1 := EnsureNamespace profile w in
  let r2 := EnsureNamespace profile (snd r1) in
  fst r1 = Done tt /\
  calls_of (new_events w (snd r1))
  = CallCheckNamespace profile ngrok_namespace ::
    (if reported_present then []
     else [CallCreateNamespace profile ngrok_namespace]) /\
  (ngrok_namespace ∈ namespaces (cluster w) ->
   pending_fault (cluster w) = None ->
   new_events w (snd r1)
   = [EvCall (CallCheckNamespace profile ngrok_namespace) (ReplyBool true None)]
   /\ same_store (cluster w) (cluster (snd r1))) /\
  (faults (cluster w) = [] ->
   fst r2 = Done tt /\
   new_events (snd r1) (snd r2)
   = [EvCall (CallCheckNamespace profile ngrok_namespace) (ReplyBool true None)]).
Proof.
  destruct w as [c i f t]. cbn zeta. cbn [cluster].
  split; [|split; [|split]].
  - rewrite EnsureNamespace_run.
    cbn [service_CheckNamespace service_CreateNamespace cluster_facade].
    destruct (cluster_CheckNamespace profile ngrok_namespace c) as [[ex err] c1].
    destruct ex; [reflexivity|].
    destruct (cluster_CreateNamespace profile ngrok_namespace c1); reflexivity.
  - rewrite EnsureNamespace_run.
    cbn [service_CheckNamespace service_CreateNamespace cluster_facade].
    destruct (cluster_CheckNamespace profile ngrok_namespace c) as [[ex err] c1].
    cbn [fst snd]. destruct ex.
    + cbn [snd]. rewrite new_events_app. destruct err; reflexivity.
    + destruct (cluster_CreateNamespace profile ngrok_namespace c1) as [err2 c2].
      cbn [snd]. rewrite <- app_assoc, new_events_app.
      destruct err, err2; reflexivity.
  - intros Hin Hp. rewrite EnsureNamespace_run.
    cbn [service_CheckNamespace service_CreateNamespace cluster_facade].
    rewrite (cluster_CheckNamespace_present _ _ _ Hin Hp).
    cbn [snd cluster]. rewrite new_events_app.
    split; [reflexivity | apply next_fault_same_store].
  - intros Hf.
    destruct (EnsureNamespace_reachable profile c i f t Hf)
      as (c1 & t1 & -> & Hin & Hf1).
    cbn [snd]. rewrite EnsureNamespace_run.
    cbn [service_CheckNamespace service_CreateNamespace cluster_facade].
    rewrite (cluster_CheckNamespace_present _ _ _ Hin)
      by (unfold pending_fault; rewrite Hf1; reflexivity).
    cbn [fst snd]. rewrite new_events_app. split; reflexivity.
Qed.

Lemma EnsureNamespace_idempotent_witness :
  let w := mkWorld cluster_with_namespace [] ∅ [] in
  new_events w (snd (EnsureNamespace "minikube" w))
  = [EvCall (CallCheckNamespace "minikube" ngrok_namespace) (ReplyBool true None)]
  /\ fst (EnsureNamespace "minikube" (snd (EnsureNamespace "minikube" idle_world)))
     = Done tt.
Proof.
  split.
  - apply (proj1 (proj2 (proj2 (EnsureNamespace_idempotent "minikube"
             (mkWorld cluster_with_namespace [] ∅ []))))).
    + cbn. apply elem_of_singleton_2. reflexivity.
    + reflexivity.
  - apply (proj2 (proj2 (proj2 (EnsureNamespace_idempotent "minikube" idle_world)))).
    reflexivity.
Defined.

(** ** The credential step *)

Section Confirmation.

Context {St : Type} `{Facade St} `{GoStd.Unicode}.

Lemma yesno_lines_retries (s : string) (others rest : list string) :
  forallb not_an_answer others = true ->
  forall tr,
    yesno_lines s posResponses negResponses (others ++ rest) tr
    = yesno_lines s posResponses negResponses rest (tr ++ retry_events s others).
Proof.
  induction others as [|line others IH]; intros Hall tr.
  - cbn [app retry_events]. rewrite app_nil_r. reflexivity.
  - cbn [forallb] in Hall. apply andb_prop in Hall as [Hline Hall].
    unfold not_an_answer in Hline. apply andb_prop in Hline as [Hpos Hneg].
    apply negb_true_iff in Hpos, Hneg.
    cbn [app yesno_lines]. rewrite Hpos, Hneg, (IH Hall).
    cbn [retry_events]. rewrite <- !app_assoc. reflexivity.
Qed.

(** The lines that are no answer are asked about again; the first answer
    is the result. *)
Lemma AskForYesNoConfirmation_accepts (s : string) (c : St)
    (others : list string) (yes : string) (rest : list string)
    (f : gmap string string) (t : list event) :
  forallb not_an_answer others = true -> accepts yes = true ->
  AskForYesNoConfirmation s posResponses negResponses
    (mkWorld c (others ++ yes :: rest) f t)
  = (Done true,
     mkWorld c rest f
       (t ++ retry_events s others ++
        [EvOut OutString "%s [y/n]: " [ArgS s]; EvStdin yes])).
Proof.
  intros Hothers Hyes. unfold AskForYesNoConfirmation. cbn [stdin trace].
  rewrite (yesno_lines_retries _ _ _ Hothers). cbn [yesno_lines].
  unfold accepts in Hyes. rewrite Hyes. cbn [cluster files].
  rewrite <- !app_assoc. reflexivity.
Qed.

End Confirmation.

(** The credential step when the operator accepts, over any facade. *)
Lemma ReconcileCredentials_accept {St : Type} `{Facade St} `{GoStd.Unicode}
    (profile : string)
    (c : St) (others : list string) (yes tok key : string) (rest : list string)
    (f : gmap string string) (t : list event) :
  forallb not_an_answer others = true -> accepts yes = true ->
  ReconcileCredentials profile
    (mkWorld c (others ++ yes :: tok :: key :: rest) f t)
  = let '((exists_, err), c1) :=
      service_CheckSecretExists profile ngrok_namespace ngrok_secret c in
    let '(err2, c2) :=
      service_CreateSecret profile ngrok_namespace ngrok_secret
                           (credential_data tok key) credential_labels c1 in
    (Done tt,
     mkWorld c2 rest f
             (t ++ credential_events profile exists_ err others yes tok key err2)).
Proof.
  intros Hothers Hyes.
  unfold ReconcileCredentials, CheckSecretExists, CreateSecret, facade_call.
  rewrite bind_unfold. cbn [cluster stdin files trace].
  destruct (service_CheckSecretExists profile ngrok_namespace ngrok_secret c)
    as [[ex err] c1].
  cbn [fst snd]. rewrite bind_unfold.
  assert (Hout :
    match err with
    | Some err0 =>
        out (OutErrT StyleFatal)
          "Error checking for existing `ngrok-ingress-controller-credentials secret`: {{.error}}"
          [ArgE err0]
    | None => ret tt
    end
      (mkWorld c1 (others ++ yes :: tok :: key :: rest) f
         (t ++ [EvCall (CallCheckSecretExists profile ngrok_namespace ngrok_secret)
                       (ReplyBool ex err)]))
    = (Done tt,
       mkWorld c1 (others ++ yes :: tok :: key :: rest) f
         (t ++ [EvCall (CallCheckSecretExists profile ngrok_namespace ngrok_secret)
                       (ReplyBool ex err)] ++
          match err with
          | Some e =>
              [EvOut (OutErrT StyleFatal)
                 "Error checking for existing `ngrok-ingress-controller-credentials secret`: {{.error}}"
                 [ArgE e]]
          | None => []
          end))).
  { destruct err; unfold out, emit, ret; cbn [cluster stdin files trace];
      rewrite <- ?app_assoc; reflexivity. }
  rewrite Hout. clear Hout.
  rewrite bind_unfold. fold (credentials_question ex).
  rewrite (AskForYesNoConfirmation_accepts _ _ _ _ _ _ _ Hothers Hyes).
  rewrite bind_unfold. unfold AskForStaticValue. rewrite prompt_answer_cons.
  rewrite bind_unfold, prompt_answer_cons.
  rewrite bind_unfold. cbn [cluster stdin files trace map].
  destruct (service_CreateSecret profile ngrok_namespace ngrok_secret
              (credential_data tok key) credential_labels c1) as [err2 c2].
  unfold credential_events.
  destruct err2; unfold out, emit, ret; cbn [cluster stdin files trace];
    rewrite <- ?app_assoc; reflexivity.
Qed.

Lemma credential_data_lookup (tok key k : string) :
  credential_data tok key !! k
  = if decide (k = "AUTHTOKEN"%string) then Some tok
    else if decide (k = "API_KEY"%string) then Some key
    else None.
Proof.
  unfold credential_data.
  destruct (decide (k = "AUTHTOKEN"%string)) as [->|Hk1];
    [apply lookup_insert_eq|].
  rewrite lookup_insert_ne by congruence.
  destruct (decide (k = "API_KEY"%string)) as [->|Hk2];
    [apply lookup_insert_eq|].
  rewrite lookup_insert_ne by congruence. apply lookup_empty.
Qed.

Lemma calls_of_app (tr tr' : list event) :
  calls_of (tr ++ tr') = calls_of tr ++ calls_of tr'.
Proof. apply omap_app. Qed.

Lemma calls_of_retry_events (s : string) (others : list string) :
  calls_of (retry_events s others) = [].
Proof.
  induction others as [|line others IH]; [reflexivity|].
  cbn [retry_events]. rewrite calls_of_app, IH. reflexivity.
Qed.

Lemma calls_of_credential_events (profile : string) (exists_ : bool)
    (err : option error) (others : list string) (yes tok key : string)
    (err2 : option error) :
  calls_of (credential_events profile exists_ err others yes tok key err2)
  = [CallCheckSecretExists profile ngrok_namespace ngrok_secret;
     CallCreateSecret profile ngrok_namespace ngrok_secret
                      (credential_data tok key) credential_labels].
Proof.
  unfold credential_events.
  rewrite !calls_of_app, calls_of_retry_events.
  destruct err, err2; reflexivity.
Qed.

(** C3.  When the operator accepts the credential prompt (with the line
    [yes], after any lines that are no answer) and enters an authtoken and
    an apikey, the step makes one write, a CreateSecret for
    ngrok-ingress-controller-credentials whose data has exactly the two
    keys AUTHTOKEN and API_KEY with the entered values; when that call
    reaches the cluster, the stored secret is this bundle and nothing else,
    whatever the cluster held before, and the other secrets are the same. *)
Theorem ReconcileCredentials_full_replacement `{GoStd.Unicode}
    (profile : string) (c : Cluster)
    (others : list string) (yes tok key : string) (rest : list string)
    (f : gmap string string) (t : list event) :
  forallb not_an_answer others = true -> accepts yes = true ->
  exists (c' : Cluster) (evs : list event),
    ReconcileCredentials profile
      (mkWorld c (others ++ yes :: tok :: key :: rest) f t)
    = (Done tt, mkWorld c' rest f (t ++ evs)) /\
    calls_of evs
    = [CallCheckSecretExists profile ngrok_namespace ngrok_secret;
       CallCreateSecret profile ngrok_namespace ngrok_secret
                        (credential_data tok key) credential_labels] /\
    (forall k : string,
       credential_data tok key !! k
       = if decide (k = "AUTHTOKEN"%string) then Some tok
         else if decide (k = "API_KEY"%string) then Some key
         else None) /\
    (fault_at 1 c = None ->
     secrets c' !! (ngrok_namespace, ngrok_secret)
     = Some (mkSecret (credential_data tok key) credential_labels) /\
     forall other, other <> (ngrok_namespace, ngrok_secret) ->
       secrets c' !! other = secrets c !! other).
Proof.
  intros Hothers Hyes.
  rewrite (ReconcileCredentials_accept _ _ _ _ _ _ _ _ _ Hothers Hyes).
  cbn [service_CheckSecretExists service_CreateSecret cluster_facade].
  unfold cluster_CheckSecretExists, cluster_CreateSecret, next_fault, fault_at.
  destruct c as [ns secs svcs ings fs]. cbn [faults namespaces secrets services ingresses].
  destruct fs as [|[e1|] [|[e2|] fs]]; cbn [faults namespaces secrets services ingresses];
    (eexists _, _; split; [reflexivity|]; split; [apply calls_of_credential_events|];
     split; [apply credential_data_lookup|]);
    cbn [lookup list_lookup secrets]; intros Hfault; try discriminate;
    (split; [apply lookup_insert_eq | intros other Hne; apply lookup_insert_ne; congruence]).
Qed.

Lemma ReconcileCredentials_full_replacement_witness :
  exists (c' : Cluster) (evs : list event),
    ReconcileCredentials "minikube"
      (mkWorld cluster_with_secret (["maybe"] ++ ["Y"; "c"; "d"]) ∅ [])
    = (Done tt, mkWorld c' [] ∅ ([] ++ evs)) /\
    secrets c' !! (ngrok_namespace, ngrok_secret)
    = Some (mkSecret (credential_data "c" "d") credential_labels).
Proof.
  destruct (ReconcileCredentials_full_replacement "minikube" cluster_with_secret
              ["maybe"%string] "Y" "c" "d" [] ∅ [] eq_refl eq_refl)
    as (c' & evs & Hrun & _ & _ & Hstore).
  exists c', evs. split; [exact Hrun|]. apply Hstore. reflexivity.
Defined.

(** Reconciling with the bundle (a, b) and then with (c, d) leaves exactly
    the second bundle in the cluster. *)
Example reconcile_twice :
  let w1 := snd (ReconcileCredentials "minikube"
                   (mkWorld empty_cluster ["y"; "a"; "b"; "yes"; "c"; "d"] ∅ [])) in
  let w2 := snd (ReconcileCredentials "minikube" w1) in
  secrets (cluster w1) !! (ngrok_namespace, ngrok_secret)
  = Some (mkSecret (credential_data "a" "b") credential_labels) /\
  secrets (cluster w2) !! (ngrok_namespace, ngrok_secret)
  = Some (mkSecret (credential_data "c" "d") credential_labels) /\
  stdin w2 = [].
Proof. vm_compute. repeat split. Qed.

(** ** Failures of the facade in the setup steps *)

Example secret_creation_fails_run :
  let tr := trace (snd (addonsConfigureCmd_ngrok "minikube" world_secret_creation_fails)) in
  calls_of tr
  = [CallCheckNamespace "minikube" ngrok_namespace;
     CallCreateNamespace "minikube" ngrok_namespace;
     CallCheckSecretExists "minikube" ngrok_namespace ngrok_secret;
     CallCreateSecret "minikube" ngrok_namespace ngrok_secret
                      (credential_data "tok" "key") credential_labels;
     CallListAllServices "minikube";
     CallCreateIngress "minikube" "default" "ngrok-ingress-web" "foo.ngrok.app"
                       "web" 80 "ngrok"] /\
  failed_calls_of tr
  = [CallCreateSecret "minikube" ngrok_namespace ngrok_secret
                      (credential_data "tok" "key") credential_labels].
Proof. vm_compute. split; reflexivity. Qed.

(** When each of the four setup calls fails, each failure is printed and
    the wizard still goes all the way to the mapping. *)
Example every_setup_call_fails_run :
  let run := addonsConfigureCmd_ngrok "minikube" world_setup_calls_fail in
  fst run = Done tt /\
  failed_calls_of (trace (snd run))
  = [CallCheckNamespace "minikube" ngrok_namespace;
     CallCreateNamespace "minikube" ngrok_namespace;
     CallCheckSecretExists "minikube" ngrok_namespace ngrok_secret;
     CallCreateSecret "minikube" ngrok_namespace ngrok_secret
                      (credential_data "tok" "key") credential_labels] /\
  last (calls_of (trace (snd run)))
  = Some (CallCreateIngress "minikube" "default" "ngrok-ingress-web"
                            "foo.ngrok.app" "web" 80 "ngrok").
Proof. vm_compute. repeat split. Qed.


Section Setup.

Context {St : Type} `{Facade St} `{GoStd.Unicode}.

Lemma emits_such_bind {A B} (Q : list event -> Prop) (m : M St A)
    (k : A -> M St B) :
  (forall evs evs', Q evs -> Q evs' -> Q (evs ++ evs')) ->
  emits_such Q m -> (forall a, emits_such Q (k a)) -> emits_such Q (bind m k).
Proof.
  intros Happ Hm Hk w. rewrite bind_unfold.
  destruct (Hm w) as (evs & Htr & HQ).
  destruct (m w) as [[a| | |] w']; cbn [snd] in *;
    try (exists evs; split; assumption).
  destruct (Hk a w') as (evs' & Htr' & HQ').
  exists (evs ++ evs'). split; [|apply Happ; assumption].
  rewrite Htr', Htr. symmetry. apply app_assoc.
Qed.

Lemma emits_such_of_emits {A} (P : event -> Prop) (Q : list event -> Prop)
    (m : M St A) :
  (forall evs, Forall P evs -> Q evs) -> emits P m -> emits_such Q m.
Proof.
  intros HPQ Hm w. destruct (Hm w) as (evs & Htr & Hall).
  exists evs. split; [exact Htr | apply HPQ, Hall].
Qed.




Lemma ends_or_eof_ret {A} (a : A) : ends_or_eof (ret (St := St) a).
Proof. intros w. left. exists a. reflexivity. Qed.

Lemma ends_or_eof_bind {A B} (m : M St A) (k : A -> M St B) :
  ends_or_eof m -> (forall a, ends_or_eof (k a)) -> ends_or_eof (bind m k).
Proof.
  intros Hm Hk w. rewrite bind_unfold. specialize (Hm w).
  destruct (m w) as [[a| | |] w']; cbn [fst snd] in *.
  - apply Hk.
  - right. destruct Hm as [[a Ha]|Hm]; [discriminate|]. split; [reflexivity|apply Hm].
  - destruct Hm as [[a Ha]|[Hm _]]; discriminate.
  - destruct Hm as [[a Ha]|[Hm _]]; discriminate.
Qed.

Lemma ends_or_eof_out (fn : out_fn) (format : string) (args : list out_arg) :
  ends_or_eof (out (St := St) fn format args).
Proof. intros w. left. exists tt. reflexivity. Qed.

Lemma ends_or_eof_facade_call {A} (c : call) (f : St -> A * St) (r : A -> reply) :
  ends_or_eof (facade_call c f r).
Proof.
  intros w. left. unfold facade_call. destruct (f (cluster w)) as [a st].
  exists a. reflexivity.
Qed.

Lemma ends_or_eof_prompt_answer (s : string) (choices : list string) :
  ends_or_eof (prompt_answer (St := St) s choices).
Proof.
  intros [c i f t]. destruct i as [|line rest].
  - right. rewrite prompt_answer_nil. split; reflexivity.
  - left. rewrite prompt_answer_cons. exists line. reflexivity.
Qed.

Lemma yesno_lines_outcome (s : string) (pos neg : list string)
    (lines : list string) :
  forall tr,
    (exists b, fst (fst (yesno_lines s pos neg lines tr)) = Done b) \/
    (fst (fst (yesno_lines s pos neg lines tr)) = Exited /\
     snd (fst (yesno_lines s pos neg lines tr)) = []).
Proof.
  induction lines as [|response rest IH]; intros tr; cbn [yesno_lines].
  - right. split; reflexivity.
  - destruct (containsString pos _); [left; exists true; reflexivity|].
    destruct (containsString neg _); [left; exists false; reflexivity|].
    apply IH.
Qed.

Lemma ends_or_eof_AskForYesNoConfirmation (s : string) (pos neg : list string) :
  ends_or_eof (AskForYesNoConfirmation (St := St) s pos neg).
Proof.
  intros w. unfold AskForYesNoConfirmation.
  pose proof (yesno_lines_outcome s pos neg (stdin w) (trace w)) as Ho.
  destruct (yesno_lines s pos neg (stdin w) (trace w)) as [[o rest] tr].
  exact Ho.
Qed.

Lemma EnsureNamespace_ends (profile : string) (w : World St) :
  fst (EnsureNamespace profile w) = Done tt.
Proof.
  destruct w as [c i f t]. rewrite EnsureNamespace_run.
  destruct (service_CheckNamespace profile ngrok_namespace c) as [[ex err] c1].
  destruct ex; [reflexivity|].
  destruct (service_CreateNamespace profile ngrok_namespace c1); reflexivity.
Qed.









Lemma ReconcileCredentials_ends (profile : string) :
  ends_or_eof (ReconcileCredentials profile).
Proof.
  unfold ReconcileCredentials, CheckSecretExists, CreateSecret.
  apply ends_or_eof_bind; [apply ends_or_eof_facade_call | intros r].
  apply ends_or_eof_bind;
    [destruct (snd r); [apply ends_or_eof_out | apply ends_or_eof_ret] | intros _].
  apply ends_or_eof_bind; [apply ends_or_eof_AskForYesNoConfirmation | intros [|]];
    [|apply ends_or_eof_ret].
  apply ends_or_eof_bind; [apply ends_or_eof_prompt_answer | intros tok].
  apply ends_or_eof_bind; [apply ends_or_eof_prompt_answer | intros key].
  apply ends_or_eof_bind; [apply ends_or_eof_facade_call | intros [err|]];
    [apply ends_or_eof_out | apply ends_or_eof_ret].
Qed.

End Setup.



(** ** The policy-module step *)

Lemma LoadAndCreatePolicyModules_outcome {St : Type} `{Facade St}
    (i : list string) :
  forall (c : St) (f : gmap string string) (t : list event),
    fst (LoadAndCreatePolicyModules (mkWorld c i f t))
    = if bool_decide ("none"%string ∈ i) then Done tt else Exited.
Proof.
  induction i as [|path rest IH]; intros c f t.
  - reflexivity.
  - rewrite LoadAndCreatePolicyModules_step.
    destruct (String.eqb_spec path "none") as [->|Hne].
    + rewrite bool_decide_eq_true_2 by (apply elem_of_cons; left; reflexivity).
      reflexivity.
    + rewrite IH.
      rewrite (bool_decide_ext ("none"%string ∈ path :: rest) ("none"%string ∈ rest));
        [reflexivity|].
      rewrite elem_of_cons. intuition congruence.
Qed.

(** C8.  In the policy-module step every path that is not the sentinel is
    read.  When the read fails, the error is printed and the loop goes on
    with the next line; when it succeeds, the loop goes on as well.  The
    step touches neither the cluster nor the files.  The loop ends when the
    sentinel [none] is entered, and only then: it returns exactly when
    [none] is among the lines to come, and otherwise lasts until the
    input ends. *)
Theorem LoadAndCreatePolicyModules_continues
    {St : Type} `{Facade St} (c : St) (path : string) (rest : list string)
    (f : gmap string string) (t : list event) :
  LoadAndCreatePolicyModules (mkWorld c ("none"%string :: rest) f t)
  = (Done tt,
     mkWorld c rest f (t ++ [EvOut OutString policy_prompt []; EvStdin "none"])) /\
  (path <> "none"%string -> f !! path = None ->
   LoadAndCreatePolicyModules (mkWorld c (path :: rest) f t)
   = LoadAndCreatePolicyModules
       (mkWorld c rest f
          (t ++ [EvOut OutString policy_prompt []; EvStdin path; EvReadFile path;
                 EvOut OutErr "Error reading module set file: %v"
                   [ArgE (ErrErrorfW "failed to read file '%s': %w" [path]
                                     (ErrOs "open" path))]]))) /\
  (path <> "none"%string -> is_Some (f !! path) ->
   LoadAndCreatePolicyModules (mkWorld c (path :: rest) f t)
   = LoadAndCreatePolicyModules
       (mkWorld c rest f
          (t ++ [EvOut OutString policy_prompt []; EvStdin path; EvReadFile path]))) /\
  (forall i : list string,
     fst (LoadAndCreatePolicyModules (mkWorld c i f t))
     = if bool_decide ("none"%string ∈ i) then Done tt else Exited).
Proof.
  split; [|split; [|split]].
  - rewrite LoadAndCreatePolicyModules_step. reflexivity.
  - intros Hne Hf. rewrite LoadAndCreatePolicyModules_step.
    destruct (String.eqb_spec path "none") as [Heq|_]; [congruence|].
    unfold policy_events. rewrite Hf. reflexivity.
  - intros Hne [data Hf]. rewrite LoadAndCreatePolicyModules_step.
    destruct (String.eqb_spec path "none") as [Heq|_]; [congruence|].
    unfold policy_events. rewrite Hf. reflexivity.
  - intros i. apply LoadAndCreatePolicyModules_outcome.
Qed.

Lemma LoadAndCreatePolicyModules_continues_witness :
  LoadAndCreatePolicyModules
    (mkWorld empty_cluster ["/no/such/file"; "none"]%string ∅ [])
  = LoadAndCreatePolicyModules
      (mkWorld empty_cluster ["none"%string] ∅
         [EvOut OutString policy_prompt []; EvStdin "/no/such/file";
          EvReadFile "/no/such/file";
          EvOut OutErr "Error reading module set file: %v"
            [ArgE (ErrErrorfW "failed to read file '%s': %w" ["/no/such/file"%string]
                              (ErrOs "open" "/no/such/file"))]]).
Proof.
  apply (proj1 (proj2 (LoadAndCreatePolicyModules_continues
                         empty_cluster "/no/such/file" ["none"%string] ∅ []))).
  - discriminate.
  - reflexivity.
Defined.

(** ** The service-mapping step *)

Section Mapping.

Context {St : Type} `{Facade St} `{GoStd.Unicode}.

(** The sentinel ends the loop; nothing is created. *)
Lemma AddIngressToServices_for_none (profile : string) (items : list Service)
    (singleDomain : bool) (domain : string) (c : St) (rest : list string)
    (f : gmap string string) (t : list event) :
  AddIngressToServices_for profile items singleDomain domain
    (mkWorld c ("none"%string :: rest) f t)
  = (Done tt,
     mkWorld c rest f (t ++ [EvOut OutString service_prompt []; EvStdin "none"])).
Proof.
  unfold AddIngressToServices_for. cbn [stdin length].
  rewrite ingress_loop_step. reflexivity.
Qed.

(** A choice that is not found: the message, then the loop again. *)
Lemma AddIngressToServices_for_not_found (profile : string)
    (items : list Service) (singleDomain : bool) (domain : string) (c : St)
    (choice : string) (rest : list string) (f : gmap string string)
    (t : list event) :
  choice <> "none"%string -> found_items items choice false = false ->
  AddIngressToServices_for profile items singleDomain domain
    (mkWorld c (choice :: rest) f t)
  = AddIngressToServices_for profile items singleDomain domain
      (mkWorld c rest f
         (t ++ [EvOut OutString service_prompt []; EvStdin choice;
                EvOut OutErr "Service not found" []])).
Proof.
  intros Hne Hfound. unfold AddIngressToServices_for. cbn [stdin length].
  rewrite ingress_loop_step.
  destruct (String.eqb_spec choice "none") as [Heq|_]; [congruence|].
  rewrite Hfound. reflexivity.
Qed.

(** The loop after a creation is the loop on the lines that are left. *)
Lemma create_ingress_then_loop (n : nat) (profile : string)
    (items : list Service) (singleDomain : bool) (domain : string)
    (namespace name : string) (port : Z) (w : World St) :
  (length (stdin w) < n)%nat ->
  (create_ingress profile namespace name domain port ;;
   AddIngressToServices_loop n profile items singleDomain domain) w
  = (create_ingress profile namespace name domain port ;;
     AddIngressToServices_for profile items singleDomain domain) w.
Proof.
  intros Hn. rewrite !bind_unfold.
  destruct (create_ingress_stdin profile namespace name domain port w)
    as (st & evs & ->).
  unfold AddIngressToServices_for. cbn [stdin].
  apply ingress_loop_fuel; cbn [stdin]; lia.
Qed.

(** A found choice under the single-domain strategy. *)
Lemma AddIngressToServices_for_single (profile : string)
    (items : list Service) (domain : string) (c : St) (choice : string)
    (rest : list string) (f : gmap string string) (t : list event)
    (namespace name part2 : string) (more : list string) (port : Z) :
  choice <> "none"%string -> found_items items choice false = true ->
  GoStd.Split choice ":" = namespace :: name :: part2 :: more ->
  GoStd.Atoi part2 = (port, None) ->
  AddIngressToServices_for profile items true domain
    (mkWorld c (choice :: rest) f t)
  = (create_ingress profile namespace name domain (GoStd.int32 port) ;;
     AddIngressToServices_for profile items true domain)
      (mkWorld c rest f (t ++ [EvOut OutString service_prompt []; EvStdin choice])).
Proof.
  intros Hne Hfound Hsplit Hatoi.
  unfold AddIngressToServices_for at 1. cbn [stdin length].
  rewrite ingress_loop_step.
  destruct (String.eqb_spec choice "none") as [Heq|_]; [congruence|].
  rewrite Hfound. cbn [negb]. rewrite bind_unfold. unfold ret at 1.
  rewrite (map_selection_parts _ _ _ _ _ _ _ _ _ Hsplit Hatoi).
  apply create_ingress_then_loop. cbn [stdin]. lia.
Qed.

(** A found choice under the multiple-domain strategy: the domain is asked
    for, and the entered domain goes into the request and into the
    variable. *)
Lemma AddIngressToServices_for_multiple (profile : string)
    (items : list Service) (domain0 : string) (c : St) (choice domain : string)
    (rest : list string) (f : gmap string string) (t : list event)
    (namespace name part2 : string) (more : list string) (port : Z) :
  choice <> "none"%string -> found_items items choice false = true ->
  GoStd.Split choice ":" = namespace :: name :: part2 :: more ->
  GoStd.Atoi part2 = (port, None) ->
  AddIngressToServices_for profile items false domain0
    (mkWorld c (choice :: domain :: rest) f t)
  = (create_ingress profile namespace name domain (GoStd.int32 port) ;;
     AddIngressToServices_for profile items false domain)
      (mkWorld c rest f
         (t ++ [EvOut OutString service_prompt []; EvStdin choice;
                EvOut OutString domain_prompt []; EvStdin domain])).
Proof.
  intros Hne Hfound Hsplit Hatoi.
  unfold AddIngressToServices_for at 1. cbn [stdin length].
  rewrite ingress_loop_step.
  destruct (String.eqb_spec choice "none") as [Heq|_]; [congruence|].
  rewrite Hfound. cbn [negb]. rewrite bind_unfold.
  unfold AskForStaticValue. rewrite prompt_answer_cons. cbn [map].
  rewrite <- app_assoc. cbn [app].
  rewrite (map_selection_parts _ _ _ _ _ _ _ _ _ Hsplit Hatoi).
  apply create_ingress_then_loop. cbn [stdin]. lia.
Qed.

End Mapping.

(** *** Selections that are not listed *)



(** The two selections of the specification: the listed triple is mapped,
    the one with the wrong port is not. *)
Example select_dns_53 :
  calls_of (trace (snd (AddIngressToServices "minikube" true "foo.ngrok.app"
    (mkWorld cluster_dns_web ["kube-system:dns:53"; "none"]%string ∅ []))))
  = [CallListAllServices "minikube";
     CallCreateIngress "minikube" "kube-system" "ngrok-ingress-dns"
                       "foo.ngrok.app" "dns" 53 "ngrok"].
Proof. vm_compute. reflexivity. Qed.

Example select_dns_9999 :
  calls_of (trace (snd (AddIngressToServices "minikube" true "foo.ngrok.app"
    (mkWorld cluster_dns_web ["kube-system:dns:9999"; "none"]%string ∅ []))))
  = [CallListAllServices "minikube"].
Proof. vm_compute. reflexivity. Qed.

(** *** Found selections of a well-formed list *)

(** C10.  When no namespace and no name of the discovered services contains
    a colon, a selection that passes the search splits at the colons into
    exactly three segments, the namespace, the name and the port of a
    listed service, and the third segment is the decimal integer that
    parses back to that port.  The mapping code then is the creation of the
    ingress followed by the rest of the loop: neither the port-conversion
    error branch nor an index out of range is reached. *)
Theorem found_selection_parses
    {St : Type} `{Facade St} (profile : string) (items : list Service)
    (choice : string) :
  names_colon_free items = true ->
  found_items items choice false = true ->
  exists svc port,
    svc ∈ items /\ port ∈ Ports svc /\
    GoStd.Split choice ":"
    = [Namespace svc; Name svc; GoStd.FormatInt (Port port)] /\
    GoStd.Atoi (GoStd.FormatInt (Port port)) = (Port port, None) /\
    forall (domain : string) (next : M St unit),
      map_selection profile choice domain next
      = (create_ingress profile (Namespace svc) (Name svc) domain (Port port) ;;
         next).
Proof.
  intros Hnames Hfound. apply found_iff_listed in Hfound.
  destruct (listed_triple_parts items choice Hnames Hfound)
    as (svc & port & Hs & Hp & Hsplit & Hatoi & Hint).
  exists svc, port. repeat split; try assumption.
  intros domain next.
  rewrite (map_selection_parts _ _ _ _ _ _ _ _ _ Hsplit Hatoi), Hint.
  reflexivity.
Qed.

Lemma found_selection_parses_witness :
  exists svc port,
    svc ∈ dns_and_web /\ port ∈ Ports svc /\
    GoStd.Split "default:web:80" ":"
    = [Namespace svc; Name svc; GoStd.FormatInt (Port port)] /\
    GoStd.Atoi (GoStd.FormatInt (Port port)) = (Port port, None).
Proof.
  destruct (found_selection_parses (St := Cluster) "minikube" dns_and_web
              "default:web:80" eq_refl eq_refl)
    as (svc & port & Hs & Hp & Hsplit & Hatoi & _).
  exists svc, port. repeat split; assumption.
Defined.

(** *** Selections that cannot be parsed *)

(** Why the names must hold no colon.  Were a namespace a:b listed (the
    names of a cluster's objects are DNS labels, so none is), the
    selection a:b:c:80 would be found; its third segment c is not an
    integer; the conversion error would be printed and the function would
    return, the loop over. *)
Example bad_port_segment_ends_the_loop :
  let w := mkWorld (mkCluster ∅ ∅ colon_services ∅ [])
                   ["a:b:c:80"; "default:web:80"]%string ∅ [] in
  GoStd.Split "a:b:c:80" ":" !! 2%nat = Some "c"%string /\
  snd (GoStd.Atoi "c") = Some (ErrSyntax "Atoi" "c") /\
  AddIngressToServices_for "minikube" colon_services true "foo.ngrok.app" w
  = (Done tt,
     mkWorld (cluster w) ["default:web:80"%string] ∅
       [EvOut OutString service_prompt []; EvStdin "a:b:c:80";
        EvOut OutErr "Error converting port to int: %v"
              [ArgE (ErrSyntax "Atoi" "c")]]).
Proof. vm_compute. repeat split. Qed.

(** A selection with fewer than three segments is never found, whatever
    the service list. *)
Lemma short_selection_not_found (items : list Service) (choice : string) :
  (length (GoStd.Split choice ":") < 3)%nat ->
  found_items items choice false = false.
Proof.
  intros Hlen. destruct (found_items items choice false) eqn:Hfound; [|reflexivity].
  apply found_iff_listed in Hfound as (svc & port & _ & _ & ->).
  pose proof (Split_render_triple_length (Namespace svc) (Name svc) (Port port)).
  lia.
Qed.

(** *** The two domain strategies *)

Section Domains.

Context {St : Type} `{Facade St} `{GoStd.Unicode}.

Lemma emits_bind_ret {A B} (P : event -> Prop) (a : A) (k : A -> M St B) :
  emits P (k a) -> emits P (bind (ret a) k).
Proof. intros Hk w. exact (Hk w). Qed.

Lemma emits_create_ingress (P : event -> Prop)
    (profile namespace name domain : string) (port : Z) :
  (forall r, P (EvCall (CallCreateIngress profile namespace
                          ("ngrok-ingress-" +:+ name) domain name port "ngrok") r)) ->
  (forall e, P (EvOut OutErr "Error creating ingress: %v" [ArgE e])) ->
  emits P (create_ingress profile namespace name domain port).
Proof.
  intros Hcall Herr. unfold create_ingress, CreateIngress.
  apply emits_bind; [apply emits_facade_call; intros a; apply Hcall|].
  intros [e|]; [apply emits_out, Herr | apply emits_ret].
Qed.

Lemma emits_map_selection (P : event -> Prop)
    (profile choice domain : string) (next : M St unit) :
  (forall namespace name port r,
     P (EvCall (CallCreateIngress profile namespace
                  ("ngrok-ingress-" +:+ name) domain name port "ngrok") r)) ->
  (forall e, P (EvOut OutErr "Error creating ingress: %v" [ArgE e])) ->
  (forall e, P (EvOut OutErr "Error converting port to int: %v" [ArgE e])) ->
  emits P next -> emits P (map_selection profile choice domain next).
Proof.
  intros Hcall Herr Hconv Hnext. unfold map_selection.
  apply emits_bind; [apply emits_index | intros namespace].
  apply emits_bind; [apply emits_index | intros name].
  apply emits_bind; [apply emits_index | intros part2].
  destruct (GoStd.Atoi part2) as [port [e|]]; [apply emits_out, Hconv|].
  apply emits_bind; [|intros _; exact Hnext].
  apply emits_create_ingress; [intros r; apply Hcall | exact Herr].
Qed.

Lemma single_domain_prompt (d s : string) (args : list out_arg) :
  s <> domain_prompt -> single_domain_event d (EvOut OutString s args).
Proof. intros Hs. exact Hs. Qed.

Lemma single_loop_emits (n : nat) (profile : string) (items : list Service)
    (d : string) :
  emits (single_domain_event d)
        (AddIngressToServices_loop n profile items true d).
Proof.
  induction n as [|n IH]; [apply emits_stop|].
  cbn [AddIngressToServices_loop].
  apply emits_bind.
  { apply emits_prompt_answer; [apply single_domain_prompt; discriminate|].
    intros line. exact I. }
  intros choice. destruct (String.eqb choice "none"); [apply emits_ret|].
  destruct (found_items items choice false); cbn [negb].
  - apply emits_bind_ret. apply emits_map_selection; try (intros; exact I); try exact IH.
    intros namespace name port r. reflexivity.
  - apply emits_bind; [apply emits_out; exact I | intros _; exact IH].
Qed.

Lemma policy_loop_emits (P : event -> Prop) (n : nat) :
  P (EvOut OutString policy_prompt []) -> (forall line, P (EvStdin line)) ->
  (forall path, P (EvReadFile path)) ->
  (forall e, P (EvOut OutErr "Error reading module set file: %v" [ArgE e])) ->
  emits P (LoadAndCreatePolicyModules_loop (St := St) n).
Proof.
  intros Hprompt Hline Hread Herr.
  induction n as [|n IH]; [apply emits_stop|].
  cbn [LoadAndCreatePolicyModules_loop].
  apply emits_bind; [apply emits_prompt_answer; assumption | intros path].
  destruct (String.eqb path "none"); [apply emits_ret|].
  apply emits_bind.
  { unfold ReadFileContents. apply emits_bind; [apply emits_os_ReadFile, Hread|].
    intros r. destruct (snd r); apply emits_ret. }
  intros r. destruct (snd r) as [e|]; [|exact IH].
  apply emits_bind; [apply emits_out, Herr | intros _; exact IH].
Qed.

Lemma single_mapping_emits (profile d : string) :
  emits (single_domain_event d) (AddIngressToServices profile true d).
Proof.
  unfold AddIngressToServices, ListAllServices.
  apply emits_bind; [apply emits_facade_call; intros a; exact I | intros r].
  destruct (snd r) as [e|]; [apply emits_out; exact I|].
  apply emits_bind; [apply emits_out; exact I | intros _].
  intros w. apply single_loop_emits.
Qed.

Lemma single_policy_and_mapping_emits (profile d : string) :
  emits (single_domain_event d) (PolicyAndMapping profile true d).
Proof.
  unfold PolicyAndMapping.
  apply emits_bind.
  { apply emits_AskForYesNoConfirmation;
      [apply single_domain_prompt; discriminate | exact I | intros; exact I]. }
  intros configurePolicyModule. apply emits_bind.
  { destruct configurePolicyModule; [|apply emits_ret].
    intros w. apply policy_loop_emits; try (intros; exact I).
    apply single_domain_prompt. discriminate. }
  intros _. apply emits_bind.
  { apply emits_AskForYesNoConfirmation;
      [apply single_domain_prompt; discriminate | exact I | intros; exact I]. }
  intros configureIngressToServices. apply emits_bind.
  { destruct configureIngressToServices; [apply single_mapping_emits | apply emits_ret]. }
  intros _. apply emits_out. exact I.
Qed.

Lemma ConfigureIngress_single (profile : string) (c : St)
    (others : list string) (yes d : string) (rest : list string)
    (f : gmap string string) (t : list event) :
  forallb not_an_answer others = true -> accepts yes = true ->
  ConfigureIngress profile
    (mkWorld c (others ++ yes :: "single"%string :: d :: rest) f t)
  = PolicyAndMapping profile true d
      (mkWorld c rest f
         (t ++ retry_events configure_ingress_question others ++
               [EvOut OutString "%s [y/n]: " [ArgS configure_ingress_question];
                EvStdin yes;
                EvOut OutString domain_choice_prompt [ArgS "single"; ArgS "multiple"];
                EvStdin "single";
                EvOut OutString domain_prompt []; EvStdin d])).
Proof.
  intros Hothers Hyes. unfold ConfigureIngress. rewrite bind_unfold.
  rewrite (AskForYesNoConfirmation_accepts _ _ _ _ _ _ _ Hothers Hyes). cbn [negb].
  rewrite bind_unfold. unfold AskForSingleOrMultipleDomainChoice, AskForChoice.
  rewrite bind_unfold, prompt_answer_cons. unfold ret at 1.
  cbn [String.eqb Ascii.eqb Bool.eqb andb]. rewrite bind_unfold.
  unfold AskForStaticValue. rewrite prompt_answer_cons.
  rewrite <- !app_assoc. reflexivity.
Qed.

Lemma ConfigureIngress_multiple (profile : string) (c : St)
    (others : list string) (yes : string) (rest : list string)
    (f : gmap string string) (t : list event) :
  forallb not_an_answer others = true -> accepts yes = true ->
  ConfigureIngress profile
    (mkWorld c (others ++ yes :: "multiple"%string :: rest) f t)
  = PolicyAndMapping profile false EmptyString
      (mkWorld c rest f
         (t ++ retry_events configure_ingress_question others ++
               [EvOut OutString "%s [y/n]: " [ArgS configure_ingress_question];
                EvStdin yes;
                EvOut OutString domain_choice_prompt [ArgS "single"; ArgS "multiple"];
                EvStdin "multiple"])).
Proof.
  intros Hothers Hyes. unfold ConfigureIngress. rewrite bind_unfold.
  rewrite (AskForYesNoConfirmation_accepts _ _ _ _ _ _ _ Hothers Hyes). cbn [negb].
  rewrite bind_unfold. unfold AskForSingleOrMultipleDomainChoice, AskForChoice.
  rewrite bind_unfold, prompt_answer_cons. unfold ret at 1.
  cbn [String.eqb Ascii.eqb Bool.eqb andb]. rewrite bind_unfold. unfold ret at 1.
  rewrite <- !app_assoc. reflexivity.
Qed.

End Domains.

(** The scenarios of the specification, on the whole wizard.  One domain
    for two services: *)
Example single_domain_two_services :
  calls_of (new_events (mkWorld cluster_dns_web [] ∅ [])
    (snd (ConfigureIngress "minikube"
       (mkWorld cluster_dns_web
          ["y"; "single"; "foo.ngrok.app"; "n"; "y";
           "kube-system:dns:53"; "default:web:80"; "none"]%string ∅ []))))
  = [CallListAllServices "minikube";
     CallCreateIngress "minikube" "kube-system" "ngrok-ingress-dns"
                       "foo.ngrok.app" "dns" 53 "ngrok";
     CallCreateIngress "minikube" "default" "ngrok-ingress-web"
                       "foo.ngrok.app" "web" 80 "ngrok"].
Proof. vm_compute. reflexivity. Qed.

(** A domain per selection, the same service selected twice: *)
Example multiple_domains_same_service :
  calls_of (new_events (mkWorld cluster_dns_web [] ∅ [])
    (snd (ConfigureIngress "minikube"
       (mkWorld cluster_dns_web
          ["y"; "multiple"; "n"; "y";
           "default:web:80"; "a.ngrok.app"; "default:web:80"; "b.ngrok.app";
           "none"]%string ∅ []))))
  = [CallListAllServices "minikube";
     CallCreateIngress "minikube" "default" "ngrok-ingress-web"
                       "a.ngrok.app" "web" 80 "ngrok";
     CallCreateIngress "minikube" "default" "ngrok-ingress-web"
                       "b.ngrok.app" "web" 80 "ngrok"].
Proof. vm_compute. reflexivity. Qed.

(** [enableAddonNgrok], the sibling of the gate on the enable path, answers
    a missing secret with an ordinary error, not with the skip outcome. *)
Example enableAddonNgrok_secret_absent :
  fst (enableAddonNgrok (mkClusterConfig "minikube") idle_world)
  = Done (Some (ErrErrorf
      "please run `minikube %s addons configure ngrok` to create your credentials before enabling"
      ["minikube"%string])) /\
  fst (ngrokValidation "minikube" (mkClusterConfig "minikube") "ngrok" "true" idle_world)
  = Done (Some ErrSkipThisAddon).
Proof. vm_compute. split; reflexivity. Qed.

(** ** The loops always come to an end *)

Section Termination.

Context {St : Type} `{Facade St} `{GoStd.Unicode}.

(** A found choice has three segments at least, so that indexing the
    segments cannot go out of range; mapping it returns, or hands over to
    the rest of the loop. *)
Lemma map_selection_found_ends (profile : string) (items : list Service)
    (choice domain : string) (next : M St unit) (w : World St) :
  found_items items choice false = true ->
  (forall w', stdin w' = stdin w ->
     fst (next w') = Done tt \/ (fst (next w') = Exited /\ stdin (snd (next w')) = [])) ->
  fst (map_selection profile choice domain next w) = Done tt \/
  (fst (map_selection profile choice domain next w) = Exited /\
   stdin (snd (map_selection profile choice domain next w)) = []).
Proof.
  intros Hfound Hnext.
  apply found_iff_listed in Hfound as (svc & port & _ & _ & ->).
  pose proof (Split_render_triple_length (Namespace svc) (Name svc) (Port port))
    as Hlen.
  destruct (GoStd.Split (render_triple (Namespace svc) (Name svc) (Port port)) ":")
    as [|ns [|name [|part2 more]]] eqn:Hsplit; cbn [length] in Hlen; try lia.
  destruct (GoStd.Atoi part2) as [p [err|]] eqn:Hatoi.
  - rewrite (map_selection_bad_port _ _ _ _ _ _ _ _ _ _ _ Hsplit Hatoi).
    left. reflexivity.
  - rewrite (map_selection_parts _ _ _ _ _ _ _ _ _ Hsplit Hatoi).
    rewrite bind_unfold.
    destruct (create_ingress_stdin profile ns name domain (GoStd.int32 p) w)
      as (st & evs & ->).
    apply Hnext. reflexivity.
Qed.

Lemma ingress_loop_ends (n : nat) :
  forall (profile : string) (items : list Service) (singleDomain : bool)
         (domain : string) (w : World St),
    (length (stdin w) < n)%nat ->
    let r := AddIngressToServices_loop n profile items singleDomain domain w in
    fst r = Done tt \/ (fst r = Exited /\ stdin (snd r) = []).
Proof.
  induction n as [|n IH]; intros profile items sd domain [c i f t] Hn;
    cbn [stdin] in *; [lia|].
  cbn zeta. destruct i as [|choice rest]; [right; split; reflexivity|].
  cbn [length] in Hn. rewrite ingress_loop_step.
  destruct (String.eqb choice "none"); [left; reflexivity|].
  destruct (found_items items choice false) eqn:Hfound; cbn [negb].
  - destruct sd; cbn [negb]; rewrite bind_unfold.
    + unfold ret at 1.
      apply (map_selection_found_ends _ items); [exact Hfound|].
      intros w' Hw'. cbn [stdin] in Hw'. apply IH. rewrite Hw'. lia.
    + unfold AskForStaticValue. destruct rest as [|dom rest'].
      * right. split; reflexivity.
      * rewrite prompt_answer_cons.
        apply (map_selection_found_ends _ items); [exact Hfound|].
        intros w' Hw'. cbn [stdin] in Hw'. apply IH. rewrite Hw'.
        cbn [length] in Hn. lia.
  - apply IH. cbn [stdin]. lia.
Qed.

(** The selection loop returns or lasts until the input ends: the bound of
    the model is not reached, and no index is out of range. *)
Lemma AddIngressToServices_for_ends (profile : string) (items : list Service)
    (singleDomain : bool) (domain : string) :
  ends_or_eof (AddIngressToServices_for profile items singleDomain domain).
Proof.
  intros w. unfold AddIngressToServices_for.
  destruct (ingress_loop_ends (S (length (stdin w))) profile items singleDomain
              domain w ltac:(lia)) as [Hd|He].
  - left. exists tt. exact Hd.
  - right. exact He.
Qed.

Lemma policy_loop_ends (n : nat) :
  forall w : World St,
    (length (stdin w) < n)%nat ->
    let r := LoadAndCreatePolicyModules_loop n w in
    fst r = Done tt \/ (fst r = Exited /\ stdin (snd r) = []).
Proof.
  induction n as [|n IH]; intros [c i f t] Hn; cbn [stdin] in *; [lia|].
  cbn zeta. destruct i as [|path rest]; [right; split; reflexivity|].
  rewrite policy_loop_step. destruct (String.eqb path "none"); [left; reflexivity|].
  apply IH. cbn [stdin length] in *. lia.
Qed.

Lemma LoadAndCreatePolicyModules_ends :
  ends_or_eof (LoadAndCreatePolicyModules (St := St)).
Proof.
  intros w. unfold LoadAndCreatePolicyModules.
  destruct (policy_loop_ends (S (length (stdin w))) w ltac:(lia)) as [Hd|He].
  - left. exists tt. exact Hd.
  - right. exact He.
Qed.

Lemma AddIngressToServices_ends (profile : string) (singleDomain : bool)
    (domain : string) :
  ends_or_eof (AddIngressToServices profile singleDomain domain).
Proof.
  unfold AddIngressToServices, ListAllServices.
  apply ends_or_eof_bind; [apply ends_or_eof_facade_call | intros r].
  destruct (snd r); [apply ends_or_eof_out|].
  apply ends_or_eof_bind; [apply ends_or_eof_out | intros _].
  apply AddIngressToServices_for_ends.
Qed.

(** The whole wizard returns, whatever the facade answers, unless the
    operator's input ends first. *)
Lemma addonsConfigureCmd_ngrok_ends (profile : string) :
  ends_or_eof (addonsConfigureCmd_ngrok profile).
Proof.
  unfold addonsConfigureCmd_ngrok.
  apply ends_or_eof_bind.
  { intros w. left. exists tt. apply EnsureNamespace_ends. }
  intros _. apply ends_or_eof_bind; [apply ReconcileCredentials_ends | intros _].
  apply ends_or_eof_bind; [|intros _; apply ends_or_eof_out].
  unfold ConfigureIngress.
  apply ends_or_eof_bind; [apply ends_or_eof_AskForYesNoConfirmation | intros [|]];
    cbn [negb]; [|apply ends_or_eof_ret].
  apply ends_or_eof_bind.
  { unfold AskForSingleOrMultipleDomainChoice, AskForChoice.
    apply ends_or_eof_bind; [apply ends_or_eof_prompt_answer | intros a].
    apply ends_or_eof_ret. }
  intros domainChoice. apply ends_or_eof_bind.
  { destruct (String.eqb domainChoice "single");
      [apply ends_or_eof_prompt_answer | apply ends_or_eof_ret]. }
  intros domain. unfold PolicyAndMapping.
  apply ends_or_eof_bind; [apply ends_or_eof_AskForYesNoConfirmation | intros b1].
  apply ends_or_eof_bind.
  { destruct b1; [apply LoadAndCreatePolicyModules_ends | apply ends_or_eof_ret]. }
  intros _.
  apply ends_or_eof_bind; [apply ends_or_eof_AskForYesNoConfirmation | intros b2].
  apply ends_or_eof_bind; [|intros _; apply ends_or_eof_out].
  destruct b2; [apply AddIngressToServices_ends | apply ends_or_eof_ret].
Qed.

End Termination.

(** ** Every request is for a listed service *)

Section Requests.

Context {St : Type} `{Facade St} `{GoStd.Unicode}.

(** Whatever the operator types, the selection loop over a well-formed
    list only ever asks for ingress to a port of a listed service. *)
Lemma ingress_only_for_listed (profile : string) (items : list Service)
    (singleDomain : bool) :
  names_colon_free items = true ->
  forall (n : nat) (domain : string),
    emits (ingress_for_listed items)
          (AddIngressToServices_loop n profile items singleDomain domain).
Proof.
  intros Hnames. induction n as [|n IH]; intros domain;
    [apply emits_stop|].
  cbn [AddIngressToServices_loop].
  apply emits_bind; [apply emits_prompt_answer; intros; exact I | intros choice].
  destruct (String.eqb choice "none"); [apply emits_ret|].
  destruct (found_items items choice false) eqn:Hfound; cbn [negb].
  - apply found_iff_listed in Hfound.
    destruct (listed_triple_parts items choice Hnames Hfound)
      as (svc & port & Hs & Hp & Hsplit & Hatoi & Hint).
    apply emits_bind.
    { destruct singleDomain; cbn [negb];
        [apply emits_ret | apply emits_prompt_answer; intros; exact I]. }
    intros domain'.
    rewrite (map_selection_parts _ _ _ _ _ _ _ _ _ Hsplit Hatoi), Hint.
    apply emits_bind; [|intros _; apply IH].
    apply emits_create_ingress; [|intros; exact I].
    intros r. exists svc, port. repeat split; assumption.
  - apply emits_bind; [apply emits_out; exact I | intros _; apply IH].
Qed.

End Requests.

(* ====================================================================== *)
(** * Further properties of the code                                       *)
(* ====================================================================== *)

(** ** Searching a slice *)

Lemma posString_from_spec (slice : list string) (element : string) :
  forall index : Z,
    0 <= index ->
    let i := posString_from index slice element in
    (i = -1 /\ element ∉ slice) \/
    (index <= i < index + Z.of_nat (length slice) /\
     slice !! Z.to_nat (i - index) = Some element /\
     forall j, (j < Z.to_nat (i - index))%nat -> slice !! j <> Some element).
Proof.
  induction slice as [|elem slice IH]; intros index Hindex; cbn zeta;
    cbn [posString_from].
  - left. split; [reflexivity|]. intros Hin. inversion Hin.
  - destruct (String.eqb_spec elem element) as [->|Hne].
    + right. cbn [length]. split; [lia|].
      replace (index - index) with 0 by lia. cbn. split; [reflexivity|].
      intros j Hj. lia.
    + destruct (IH (index + 1) ltac:(lia)) as [[Hi Hnin]|(Hrange & Hat & Hfirst)].
      * left. split; [exact Hi|]. intros Hin.
        apply elem_of_cons in Hin as [Heq|Hin]; [congruence | exact (Hnin Hin)].
      * right. cbn [length]. split; [lia|].
        set (i := posString_from (index + 1) slice element) in *.
        replace (Z.to_nat (i - index)) with (S (Z.to_nat (i - (index + 1)))) by lia.
        cbn [lookup list_lookup]. split; [exact Hat|].
        intros [|j] Hj; cbn [lookup list_lookup]; [congruence|].
        apply Hfirst. lia.
Qed.

(** X1.  [posString] returns -1 exactly when the element is not in the
    slice; otherwise it returns an index of the slice at which the element
    is, and the element is at no smaller index. *)
Theorem posString_first_index (slice : list string) (element : string) :
  let i := posString slice element in
  (i = -1 <-> element ∉ slice) /\
  (i <> -1 ->
   0 <= i < Z.of_nat (length slice) /\
   slice !! Z.to_nat i = Some element /\
   forall j, (j < Z.to_nat i)%nat -> slice !! j <> Some element).
Proof.
  cbn zeta. unfold posString.
  destruct (posString_from_spec slice element 0 ltac:(lia))
    as [[Hi Hnin]|(Hrange & Hat & Hfirst)].
  - rewrite Hi. split; [split; auto|]. intros Hne. congruence.
  - rewrite Z.sub_0_r in Hat, Hfirst. split.
    + split; [lia|]. intros Hnin. exfalso. apply Hnin.
      apply list_elem_of_lookup. eauto.
    + intros _. split; [lia|]. split; assumption.
Qed.

(** X2.  [containsString] is membership in the slice. *)
Theorem containsString_iff_elem (slice : list string) (element : string) :
  containsString slice element = true <-> element ∈ slice.
Proof.
  unfold containsString, posString.
  destruct (posString_from_spec slice element 0 ltac:(lia))
    as [[Hi Hnin]|(Hrange & Hat & _)].
  - rewrite Hi. cbn. split; [discriminate | intros Hin; contradiction].
  - destruct (Z.eqb_spec (posString_from 0 slice element) (-1)) as [Heq|Hne];
      [lia|].
    cbn. split; [|reflexivity]. intros _.
    apply list_elem_of_lookup. eauto.
Qed.

(** ** The yes/no question, for any two lists of responses *)

Lemma yesno_lines_skips `{GoStd.Unicode} (s : string)
    (pos neg others rest : list string) :
  forallb (fun line => negb (answers_in pos line) && negb (answers_in neg line))
          others = true ->
  forall tr,
    yesno_lines s pos neg (others ++ rest) tr
    = yesno_lines s pos neg rest (tr ++ retry_events s others).
Proof.
  induction others as [|line others IH]; intros Hall tr.
  - cbn [app retry_events]. rewrite app_nil_r. reflexivity.
  - cbn [forallb] in Hall. apply andb_prop in Hall as [Hline Hall].
    apply andb_prop in Hline as [Hpos Hneg].
    apply negb_true_iff in Hpos, Hneg. unfold answers_in in Hpos, Hneg.
    cbn [app yesno_lines]. rewrite Hpos, Hneg, (IH Hall).
    cbn [retry_events]. rewrite <- !app_assoc. reflexivity.
Qed.

(** X3.  [AskForYesNoConfirmation] asks again after every line that,
    trimmed and in lower case, is in neither list of responses, and returns
    at the first line that is in one: true if it is a positive response
    (also when it is a negative response as well), false otherwise.  It
    has then read that line and none after it, and the cluster and the
    files are as they were. *)
Theorem AskForYesNoConfirmation_first_answer {St : Type} `{GoStd.Unicode}
    (s : string)
    (pos neg : list string) (c : St) (others : list string) (line : string)
    (rest : list string) (f : gmap string string) (t : list event) :
  forallb (fun line => negb (answers_in pos line) && negb (answers_in neg line))
          others = true ->
  answers_in pos line || answers_in neg line = true ->
  AskForYesNoConfirmation s pos neg (mkWorld c (others ++ line :: rest) f t)
  = (Done (answers_in pos line),
     mkWorld c rest f
       (t ++ retry_events s others ++
        [EvOut OutString "%s [y/n]: " [ArgS s]; EvStdin line])).
Proof.
  intros Hothers Hline. unfold AskForYesNoConfirmation. cbn [stdin trace].
  rewrite (yesno_lines_skips _ _ _ _ _ Hothers). cbn [yesno_lines].
  unfold answers_in in *.
  destruct (containsString pos (GoStd.ToLower (GoStd.TrimSpace line))).
  - cbn [cluster files]. rewrite <- !app_assoc. reflexivity.
  - cbn [orb] in Hline. rewrite Hline. cbn [cluster files].
    rewrite <- !app_assoc. reflexivity.
Qed.

Lemma AskForYesNoConfirmation_first_answer_witness :
  AskForYesNoConfirmation "Proceed?" ["ok"]%string ["ok"; "no"]%string
    (mkWorld empty_cluster ["maybe"; "  OK "; "no"]%string ∅ [])
  = (Done true,
     mkWorld empty_cluster ["no"]%string ∅
       [EvOut OutString "%s [y/n]: " [ArgS "Proceed?"]; EvStdin "maybe";
        EvOut OutErr "Please type yes or no:" [];
        EvOut OutString "%s [y/n]: " [ArgS "Proceed?"]; EvStdin "  OK "]).
Proof.
  apply (AskForYesNoConfirmation_first_answer "Proceed?" ["ok"]%string
           ["ok"; "no"]%string empty_cluster ["maybe"]%string "  OK "
           ["no"]%string ∅ []); reflexivity.
Defined.

(** X4.  When the input ends before a line that is a response,
    [AskForYesNoConfirmation] ends the process ([log.Fatal]): every line
    has been read and asked about again, and the question has been printed
    once more. *)
Theorem AskForYesNoConfirmation_end_of_input {St : Type} `{GoStd.Unicode}
    (s : string)
    (pos neg : list string) (c : St) (lines : list string)
    (f : gmap string string) (t : list event) :
  forallb (fun line => negb (answers_in pos line) && negb (answers_in neg line))
          lines = true ->
  AskForYesNoConfirmation s pos neg (mkWorld c lines f t)
  = (Exited,
     mkWorld c [] f
       (t ++ retry_events s lines ++ [EvOut OutString "%s [y/n]: " [ArgS s]])).
Proof.
  intros Hlines. unfold AskForYesNoConfirmation. cbn [stdin trace].
  rewrite <- (app_nil_r lines) at 1.
  rewrite (yesno_lines_skips _ _ _ _ _ Hlines). cbn [yesno_lines cluster files].
  rewrite <- !app_assoc. reflexivity.
Qed.

Lemma AskForYesNoConfirmation_end_of_input_witness :
  AskForYesNoConfirmation "Proceed?" posResponses negResponses
    (mkWorld empty_cluster ["maybe"; "yes please"]%string ∅ [])
  = (Exited,
     mkWorld empty_cluster [] ∅
       [EvOut OutString "%s [y/n]: " [ArgS "Proceed?"]; EvStdin "maybe";
        EvOut OutErr "Please type yes or no:" [];
        EvOut OutString "%s [y/n]: " [ArgS "Proceed?"]; EvStdin "yes please";
        EvOut OutErr "Please type yes or no:" [];
        EvOut OutString "%s [y/n]: " [ArgS "Proceed?"]]).
Proof.
  apply (AskForYesNoConfirmation_end_of_input "Proceed?" posResponses
           negResponses empty_cluster ["maybe"; "yes please"]%string ∅ []).
  reflexivity.
Defined.

(** ** Enabling the addon *)

(** Enabling over any facade: the result is decided by the reply of the
    existence check, which is the only call; nothing is printed. *)
Lemma enableAddonNgrok_run {St : Type} `{Facade St} (cfg : ClusterConfig)
    (c : St) (i : list string) (f : gmap string string) (t : list event) :
  enableAddonNgrok cfg (mkWorld c i f t)
  = let '((exists_, err), c1) :=
      service_CheckSecretExists (cfg_Name cfg) ngrok_namespace ngrok_secret c in
    let check :=
      EvCall (CallCheckSecretExists (cfg_Name cfg) ngrok_namespace ngrok_secret)
             (ReplyBool exists_ err) in
    (Done
       match err with
       | Some e => Some (ErrWrap e "check secret exists")
       | None =>
           if exists_ then None
           else Some (ErrErrorf
                  "please run `minikube %s addons configure ngrok` to create your credentials before enabling"
                  [cfg_Name cfg])
       end,
     mkWorld c1 i f (t ++ [check])).
Proof.
  unfold enableAddonNgrok, CheckSecretExists, facade_call. rewrite bind_unfold.
  cbn [cluster stdin files trace]. fold ngrok_namespace ngrok_secret.
  destruct (service_CheckSecretExists (cfg_Name cfg) ngrok_namespace ngrok_secret c)
    as [[ex [e|]] c1]; cbn [fst snd]; [reflexivity|].
  destruct ex; reflexivity.
Qed.

(** X5.  Over any facade and from any state, the validation callback and
    the enabling of the addon agree: [ngrokValidation] returns [nil]
    exactly when [enableAddonNgrok] does, both wrap a failure of the
    existence check in the same error, and [ngrokValidation] returns the
    skip outcome exactly when [enableAddonNgrok] returns the error that
    names the profile.  Both leave the cluster in the same state, and
    [enableAddonNgrok] prints nothing. *)
Theorem ngrokValidation_agrees_with_enableAddonNgrok {St : Type} `{Facade St}
    (DefaultClusterName : string) (cfg : ClusterConfig) (a b : string)
    (w : World St) :
  let v := ngrokValidation DefaultClusterName cfg a b w in
  let e := enableAddonNgrok cfg w in
  cluster (snd v) = cluster (snd e) /\
  (fst v = Done None <-> fst e = Done None) /\
  (forall err,
     fst v = Done (Some (ErrWrap err "check secret exists")) <->
     fst e = Done (Some (ErrWrap err "check secret exists"))) /\
  (fst v = Done (Some ErrSkipThisAddon) <->
   fst e = Done (Some (ErrErrorf
     "please run `minikube %s addons configure ngrok` to create your credentials before enabling"
     [cfg_Name cfg]))) /\
  Forall (fun ev => is_facade_call ev = true) (new_events w (snd e)).
Proof.
  destruct w as [c i f t]. cbn zeta.
  rewrite ngrokValidation_run, enableAddonNgrok_run.
  destruct (service_CheckSecretExists (cfg_Name cfg) ngrok_namespace ngrok_secret c)
    as [[ex [e|]] c1]; [|destruct ex]; cbn [fst snd cluster];
    (split; [reflexivity|]);
    (split; [split; intros Heq; congruence|]);
    (split; [intros err; split; intros Heq; congruence|]);
    (split; [split; intros Heq; congruence|]);
    rewrite new_events_app; repeat constructor.
Qed.

(** X6.  For a value that parses as true, [enableOrDisableNgrok] on a
    cluster returns [nil] exactly when the existence check goes through
    and the credential secret is present; when the secret is absent it
    returns the error that names the profile, and when the check fails the
    failure, wrapped.  It never returns the skip outcome, makes the
    existence check as its only step, prints nothing, and leaves the
    durable objects of the cluster as they are. *)
Theorem enableOrDisableNgrok_enable (cfg : ClusterConfig) (name val : string)
    (w : World Cluster) :
  GoStd.ParseBool val = (true, None) ->
  exists (res : option error) (w' : World Cluster),
    enableOrDisableNgrok cfg name val w = (Done res, w') /\
    (res = None <->
     pending_fault (cluster w) = None /\
     is_Some (secrets (cluster w) !! (ngrok_namespace, ngrok_secret))) /\
    (res = Some (ErrErrorf
       "please run `minikube %s addons configure ngrok` to create your credentials before enabling"
       [cfg_Name cfg]) <->
     pending_fault (cluster w) = None /\
     secrets (cluster w) !! (ngrok_namespace, ngrok_secret) = None) /\
    (forall err, pending_fault (cluster w) = Some err ->
       res = Some (ErrWrap err "check secret exists")) /\
    res <> Some ErrSkipThisAddon /\
    same_store (cluster w) (cluster w') /\
    stdin w' = stdin w /\
    exists reply,
      new_events w w'
      = [EvCall (CallCheckSecretExists (cfg_Name cfg) ngrok_namespace ngrok_secret)
                reply].
Proof.
  intros Hval. destruct w as [c i f t].
  unfold enableOrDisableNgrok. rewrite Hval. rewrite enableAddonNgrok_run.
  cbn [cluster stdin service_CheckSecretExists cluster_facade].
  unfold cluster_CheckSecretExists.
  pose proof (next_fault_same_store c) as Hstore.
  pose proof (next_fault_pending c) as Hpend.
  destruct (next_fault c) as [[err|] c']; cbn [fst snd] in *.
  - eexists _, _. split; [reflexivity|]. rewrite <- Hpend.
    split; [|split; [|split; [|split; [|split; [|split]]]]].
    + split; [discriminate | intros [Hn _]; discriminate].
    + split; [discriminate | intros [Hn _]; discriminate].
    + intros err' Herr. congruence.
    + discriminate.
    + exact Hstore.
    + reflexivity.
    + eexists. rewrite new_events_app. reflexivity.
  - assert (Hsec : secrets c' = secrets c) by (symmetry; apply Hstore).
    rewrite Hsec.
    destruct (secrets c !! (ngrok_namespace, ngrok_secret)) as [sec|] eqn:Hlook.
    + rewrite bool_decide_eq_true_2 by eauto.
      eexists _, _. split; [reflexivity|]. rewrite <- Hpend.
      split; [|split; [|split; [|split; [|split; [|split]]]]].
      * split; [eauto | reflexivity].
      * split; [discriminate | intros [_ Hn]; discriminate].
      * intros err' Herr. discriminate.
      * discriminate.
      * exact Hstore.
      * reflexivity.
      * eexists. rewrite new_events_app. reflexivity.
    + rewrite bool_decide_eq_false_2 by (intros [x Hx]; discriminate).
      eexists _, _. split; [reflexivity|]. rewrite <- Hpend.
      split; [|split; [|split; [|split; [|split; [|split]]]]].
      * split; [discriminate | intros [_ [x Hx]]; discriminate].
      * split; [auto | reflexivity].
      * intros err' Herr. discriminate.
      * discriminate.
      * exact Hstore.
      * reflexivity.
      * eexists. rewrite new_events_app. reflexivity.
Qed.

Lemma enableOrDisableNgrok_enable_witness :
  exists (res : option error) (w' : World Cluster),
    enableOrDisableNgrok (mkClusterConfig "minikube") "ngrok" "true" idle_world
    = (Done res, w') /\
    res = Some (ErrErrorf
      "please run `minikube %s addons configure ngrok` to create your credentials before enabling"
      ["minikube"%string]).
Proof.
  destruct (enableOrDisableNgrok_enable (mkClusterConfig "minikube") "ngrok"
              "true" idle_world eq_refl)
    as (res & w' & Hrun & _ & Habsent & _).
  exists res, w'. split; [exact Hrun|].
  apply Habsent. split; reflexivity.
Defined.

(** ** Declining a step *)

Lemma AskForYesNoConfirmation_declines {St : Type} `{GoStd.Unicode}
    (s : string) (c : St)
    (others : list string) (no : string) (rest : list string)
    (f : gmap string string) (t : list event) :
  forallb not_an_answer others = true -> declines no = true ->
  AskForYesNoConfirmation s posResponses negResponses
    (mkWorld c (others ++ no :: rest) f t)
  = (Done false,
     mkWorld c rest f
       (t ++ retry_events s others ++
        [EvOut OutString "%s [y/n]: " [ArgS s]; EvStdin no])).
Proof.
  intros Hothers Hno. unfold AskForYesNoConfirmation. cbn [stdin trace].
  rewrite (yesno_lines_retries _ _ _ Hothers). cbn [yesno_lines].
  unfold declines, accepts, answers_in in Hno.
  apply andb_prop in Hno as [Hpos Hneg]. apply negb_true_iff in Hpos.
  rewrite Hpos, Hneg. cbn [cluster files].
  rewrite <- !app_assoc. reflexivity.
Qed.

(** The credential step over any facade when the operator declines. *)
Lemma ReconcileCredentials_decline_run {St : Type} `{Facade St} `{GoStd.Unicode}
    (profile : string) (c : St) (others : list string) (no : string)
    (rest : list string) (f : gmap string string) (t : list event) :
  forallb not_an_answer others = true -> declines no = true ->
  ReconcileCredentials profile (mkWorld c (others ++ no :: rest) f t)
  = let '((exists_, err), c1) :=
      service_CheckSecretExists profile ngrok_namespace ngrok_secret c in
    (Done tt,
     mkWorld c1 rest f
       (t ++ [EvCall (CallCheckSecretExists profile ngrok_namespace ngrok_secret)
                     (ReplyBool exists_ err)] ++
        match err with
        | Some e =>
            [EvOut (OutErrT StyleFatal)
               "Error checking for existing `ngrok-ingress-controller-credentials secret`: {{.error}}"
               [ArgE e]]
        | None => []
        end ++
        retry_events (credentials_question exists_) others ++
        [EvOut OutString "%s [y/n]: " [ArgS (credentials_question exists_)];
         EvStdin no])).
Proof.
  intros Hothers Hno.
  unfold ReconcileCredentials, CheckSecretExists, facade_call.
  rewrite bind_unfold. cbn [cluster stdin files trace].
  destruct (service_CheckSecretExists profile ngrok_namespace ngrok_secret c)
    as [[ex err] c1].
  cbn [fst snd]. rewrite bind_unfold. fold (credentials_question ex).
  destruct err as [e|]; unfold out, emit, ret; cbn [cluster stdin files trace];
    rewrite bind_unfold,
      (AskForYesNoConfirmation_declines _ _ _ _ _ _ _ Hothers Hno);
    rewrite <- ?app_assoc; reflexivity.
Qed.

(** X7.  When the operator declines the credential question, after any
    lines that are no answer, the credential step of the wizard makes the
    existence check and no other facade call: no secret is created, the
    durable objects of the cluster are as they were, whether or not the
    check went through, and the lines after the answer are left unread. *)
Theorem ReconcileCredentials_decline `{GoStd.Unicode} (profile : string)
    (c : Cluster)
    (others : list string) (no : string) (rest : list string)
    (f : gmap string string) (t : list event) :
  forallb not_an_answer others = true -> declines no = true ->
  exists (c' : Cluster) (evs : list event),
    ReconcileCredentials profile (mkWorld c (others ++ no :: rest) f t)
    = (Done tt, mkWorld c' rest f (t ++ evs)) /\
    calls_of evs = [CallCheckSecretExists profile ngrok_namespace ngrok_secret] /\
    same_store c c'.
Proof.
  intros Hothers Hno.
  rewrite (ReconcileCredentials_decline_run _ _ _ _ _ _ _ Hothers Hno).
  cbn [service_CheckSecretExists cluster_facade].
  unfold cluster_CheckSecretExists.
  pose proof (next_fault_same_store c) as Hstore.
  destruct (next_fault c) as [[err|] c']; cbn [fst snd] in *;
    eexists _, _; (split; [reflexivity|]); (split; [|exact Hstore]);
    rewrite !calls_of_app, calls_of_retry_events; reflexivity.
Qed.

Lemma ReconcileCredentials_decline_witness :
  exists (c' : Cluster) (evs : list event),
    ReconcileCredentials "minikube"
      (mkWorld cluster_with_secret ["what"; " No "; "yes"]%string ∅ [])
    = (Done tt, mkWorld c' ["yes"]%string ∅ ([] ++ evs)) /\
    calls_of evs
    = [CallCheckSecretExists "minikube" ngrok_namespace ngrok_secret] /\
    same_store cluster_with_secret c'.
Proof.
  apply (ReconcileCredentials_decline "minikube" cluster_with_secret
           ["what"]%string " No " ["yes"]%string ∅ []); reflexivity.
Defined.

Lemma ConfigureIngress_decline_run {St : Type} `{Facade St} `{GoStd.Unicode}
    (profile : string)
    (c : St) (others : list string) (no : string) (rest : list string)
    (f : gmap string string) (t : list event) :
  forallb not_an_answer others = true -> declines no = true ->
  ConfigureIngress profile (mkWorld c (others ++ no :: rest) f t)
  = (Done tt,
     mkWorld c rest f
       (t ++ retry_events configure_ingress_question others ++
        [EvOut OutString "%s [y/n]: " [ArgS configure_ingress_question];
         EvStdin no])).
Proof.
  intros Hothers Hno. unfold ConfigureIngress. rewrite bind_unfold.
  rewrite (AskForYesNoConfirmation_declines _ _ _ _ _ _ _ Hothers Hno).
  reflexivity.
Qed.

(** X8.  When the operator declines the question about ingress for
    existing services, after any lines that are no answer, the wizard's
    ingress step is over: it asks nothing more (no domain strategy, no
    policy module, no service), makes no facade call and leaves the lines
    after the answer unread. *)
Theorem ConfigureIngress_decline {St : Type} `{Facade St} `{GoStd.Unicode}
    (profile : string)
    (c : St) (others : list string) (no : string) (rest : list string)
    (f : gmap string string) (t : list event) :
  forallb not_an_answer others = true -> declines no = true ->
  ConfigureIngress profile (mkWorld c (others ++ no :: rest) f t)
  = (Done tt,
     mkWorld c rest f
       (t ++ retry_events configure_ingress_question others ++
        [EvOut OutString "%s [y/n]: " [ArgS configure_ingress_question];
         EvStdin no])).
Proof.
  intros Hothers Hno. unfold ConfigureIngress. rewrite bind_unfold.
  rewrite (AskForYesNoConfirmation_declines _ _ _ _ _ _ _ Hothers Hno).
  cbn [negb]. reflexivity.
Qed.

Lemma ConfigureIngress_decline_witness :
  ConfigureIngress "minikube"
    (mkWorld cluster_dns_web ["hm"; "N"; "single"]%string ∅ [])
  = (Done tt,
     mkWorld cluster_dns_web ["single"]%string ∅
       [EvOut OutString "%s [y/n]: " [ArgS configure_ingress_question];
        EvStdin "hm"; EvOut OutErr "Please type yes or no:" [];
        EvOut OutString "%s [y/n]: " [ArgS configure_ingress_question];
        EvStdin "N"]).
Proof.
  apply (ConfigureIngress_decline "minikube" cluster_dns_web ["hm"]%string "N"
           ["single"]%string ∅ []); reflexivity.
Defined.

(** The namespace step on a cluster that has the namespace: the durable
    objects stay as they are, whatever the fate of its calls. *)
Lemma EnsureNamespace_keeps_store (profile : string) (c : Cluster)
    (i : list string) (f : gmap string string) (t : list event) :
  ngrok_namespace ∈ namespaces c ->
  exists (c' : Cluster) (evs : list event),
    EnsureNamespace profile (mkWorld c i f t) = (Done tt, mkWorld c' i f (t ++ evs)) /\
    same_store c c' /\
    Forall (fun cl => is_secret_or_ingress_call cl = false) (calls_of evs).
Proof.
  intros Hin. rewrite EnsureNamespace_run.
  cbn [service_CheckNamespace service_CreateNamespace cluster_facade].
  unfold cluster_CheckNamespace, cluster_CreateNamespace.
  pose proof (next_fault_same_store c) as Hstore.
  destruct (next_fault c) as [[err|] c1]; cbn [fst snd] in *.
  - pose proof (next_fault_same_store c1) as Hstore1.
    destruct Hstore as (Hn & ? & ? & ?), Hstore1 as (Hn1 & ? & ? & ?).
    destruct (next_fault c1) as [[err2|] c2]; cbn [fst snd] in *;
      rewrite <- ?app_assoc; eexists _, _; (split; [reflexivity|]);
      (split; [|repeat constructor]).
    + unfold same_store. repeat split; congruence.
    + unfold same_store. cbn [namespaces secrets services ingresses].
      repeat split; try congruence.
      rewrite <- Hn1, <- Hn. symmetry. apply subseteq_union_1_L.
      apply singleton_subseteq_l. exact Hin.
  - destruct Hstore as (Hn & Hs).
    rewrite bool_decide_eq_true_2 by (rewrite <- Hn; exact Hin).
    rewrite <- ?app_assoc. eexists _, _. split; [reflexivity|]. split.
    + split; assumption.
    + repeat constructor.
Qed.

(** X9.  On a cluster that has the namespace ngrok-ingress-controller, a
    run of the wizard in which the operator declines the credential
    question and the ingress question changes no durable object of the
    cluster, whatever calls fail on the way: it creates no secret, lists
    no services and requests no ingress, reads the input up to the second
    answer, and ends with the notice that ngrok was successfully
    configured. *)
Theorem addonsConfigureCmd_ngrok_declined `{GoStd.Unicode} (profile : string)
    (c : Cluster)
    (others1 : list string) (no1 : string) (others2 : list string)
    (no2 : string) (rest : list string) (f : gmap string string)
    (t : list event) :
  ngrok_namespace ∈ namespaces c ->
  forallb not_an_answer others1 = true -> declines no1 = true ->
  forallb not_an_answer others2 = true -> declines no2 = true ->
  exists (c' : Cluster) (evs : list event),
    addonsConfigureCmd_ngrok profile
      (mkWorld c (others1 ++ no1 :: others2 ++ no2 :: rest) f t)
    = (Done tt,
       mkWorld c' rest f
         (t ++ evs ++
          [EvOut OutSuccessT "{{.name}} was successfully configured"
                 [ArgS "ngrok"]])) /\
    same_store c c' /\
    Forall (fun cl => is_secret_or_ingress_call cl = false) (calls_of evs).
Proof.
  intros Hin Ho1 Hn1 Ho2 Hn2. unfold addonsConfigureCmd_ngrok.
  rewrite bind_unfold.
  destruct (EnsureNamespace_keeps_store profile c
              (others1 ++ no1 :: others2 ++ no2 :: rest) f t Hin)
    as (c1 & evs1 & Hrun1 & Hstore1 & Hcalls1).
  rewrite Hrun1, bind_unfold.
  rewrite (ReconcileCredentials_decline_run _ _ _ _ _ _ _ Ho1 Hn1).
  cbn [service_CheckSecretExists cluster_facade].
  unfold cluster_CheckSecretExists.
  pose proof (next_fault_same_store c1) as Hstore2.
  assert (Hstore : same_store c (snd (next_fault c1))).
  { destruct Hstore1 as (? & ? & ? & ?), Hstore2 as (? & ? & ? & ?).
    unfold same_store. repeat split; congruence. }
  clear Hstore1 Hstore2.
  destruct (next_fault c1) as [[err|] c2]; cbn [fst snd] in *;
    rewrite bind_unfold, (ConfigureIngress_decline_run _ _ _ _ _ _ _ Ho2 Hn2);
    unfold configured, out, emit; cbn [cluster stdin files trace];
    rewrite <- !(app_assoc t);
    eexists _, _;
    (split; [reflexivity|]);
    (split; [exact Hstore|]);
    rewrite !calls_of_app, !calls_of_retry_events;
    repeat (apply Forall_app; split); try exact Hcalls1; repeat constructor.
Qed.

Lemma addonsConfigureCmd_ngrok_declined_witness :
  exists (c' : Cluster) (evs : list event),
    addonsConfigureCmd_ngrok "minikube"
      (mkWorld cluster_with_namespace
               ([] ++ "n"%string :: [] ++ "no"%string :: []) ∅ [])
    = (Done tt,
       mkWorld c' [] ∅
         ([] ++ evs ++
          [EvOut OutSuccessT "{{.name}} was successfully configured"
                 [ArgS "ngrok"]])) /\
    same_store cluster_with_namespace c' /\
    Forall (fun cl => is_secret_or_ingress_call cl = false) (calls_of evs).
Proof.
  apply (addonsConfigureCmd_ngrok_declined "minikube" cluster_with_namespace
           [] "n" [] "no" [] ∅ []); reflexivity.
Defined.

(** ** The service mapping *)

(** X10.  When the list of services cannot be fetched,
    [AddIngressToServices] prints the error and returns: it shows no box,
    asks for no selection, reads no line and requests no ingress. *)
Theorem AddIngressToServices_list_failure {St : Type} `{Facade St}
    (profile : string) (singleDomain : bool) (domain : string) (c c1 : St)
    (i : list string) (f : gmap string string) (t : list event)
    (items : list Service) (err : error) :
  service_ListAllServices profile c = ((items, Some err), c1) ->
  AddIngressToServices profile singleDomain domain (mkWorld c i f t)
  = (Done tt,
     mkWorld c1 i f
       (t ++ [EvCall (CallListAllServices profile)
                     (ReplyServices items (Some err));
              EvOut OutErr "Error listing services: %v" [ArgE err]])).
Proof.
  intros Hlist. unfold AddIngressToServices, ListAllServices, facade_call.
  rewrite bind_unfold. cbn [cluster stdin files trace]. rewrite Hlist.
  cbn [fst snd]. unfold out, emit. cbn [cluster stdin files trace].
  rewrite <- app_assoc. reflexivity.
Qed.

Lemma AddIngressToServices_list_failure_witness :
  AddIngressToServices "minikube" true "foo.ngrok.app"
    (mkWorld (mkCluster ∅ ∅ dns_and_web ∅ [Some (ErrFacade "timeout")])
             ["default:web:80"; "none"]%string ∅ [])
  = (Done tt,
     mkWorld (mkCluster ∅ ∅ dns_and_web ∅ [])
             ["default:web:80"; "none"]%string ∅
       [EvCall (CallListAllServices "minikube")
               (ReplyServices [] (Some (ErrFacade "timeout")));
        EvOut OutErr "Error listing services: %v" [ArgE (ErrFacade "timeout")]]).
Proof.
  apply (AddIngressToServices_list_failure "minikube" true "foo.ngrok.app"
           (mkCluster ∅ ∅ dns_and_web ∅ [Some (ErrFacade "timeout")])
           (mkCluster ∅ ∅ dns_and_web ∅ [])
           ["default:web:80"; "none"]%string ∅ [] [] (ErrFacade "timeout")).
  reflexivity.
Defined.

(** X11.  When the services are listed and the operator's first selection
    is [none], [AddIngressToServices] shows the box with one line per
    port and ends: its only facade call is the listing, no ingress is
    requested, and the lines after [none] are left unread. *)
Theorem AddIngressToServices_none {St : Type} `{Facade St}
    (profile : string) (singleDomain : bool) (domain : string) (c c1 : St)
    (rest : list string) (f : gmap string string) (t : list event)
    (items : list Service) :
  service_ListAllServices profile c = ((items, None), c1) ->
  AddIngressToServices profile singleDomain domain
    (mkWorld c ("none"%string :: rest) f t)
  = (Done tt,
     mkWorld c1 rest f
       (t ++ [EvCall (CallListAllServices profile) (ReplyServices items None);
              EvOut OutBoxed
                ("Services:" +:+ String "010" EmptyString +:+
                 serviceString_items items EmptyString) [];
              EvOut OutString service_prompt []; EvStdin "none"])).
Proof.
  intros Hlist. unfold AddIngressToServices, ListAllServices, facade_call.
  rewrite bind_unfold. cbn [cluster stdin files trace]. rewrite Hlist.
  cbn [fst snd]. rewrite bind_unfold. unfold out, emit.
  cbn [cluster stdin files trace].
  rewrite AddIngressToServices_for_none, <- !app_assoc. reflexivity.
Qed.

Lemma AddIngressToServices_none_witness :
  fst (AddIngressToServices "minikube" false ""
         (mkWorld cluster_dns_web ["none"; "default:web:80"]%string ∅ []))
  = Done tt /\
  stdin (snd (AddIngressToServices "minikube" false ""
                (mkWorld cluster_dns_web ["none"; "default:web:80"]%string ∅ [])))
  = ["default:web:80"%string].
Proof.
  assert (Hlist : service_ListAllServices "minikube" cluster_dns_web
                  = ((dns_and_web, None), cluster_dns_web)) by reflexivity.
  rewrite (AddIngressToServices_none "minikube" false "" cluster_dns_web
             cluster_dns_web ["default:web:80"%string] ∅ [] dns_and_web Hlist).
  split; reflexivity.
Defined.

(** One turn of the selection loop on a listed triple, under the
    single-domain strategy. *)
Lemma listed_selection_step {St : Type} `{Facade St}
    (profile : string) (items : list Service) (domain : string) (c c1 : St)
    (svc : Service) (port : ServicePort) (rest : list string)
    (f : gmap string string) (t : list event) (err : option error) :
  names_colon_free items = true -> svc ∈ items -> port ∈ Ports svc ->
  service_CreateIngress profile (Namespace svc) ("ngrok-ingress-" +:+ Name svc)
                        domain (Name svc) (Port port) "ngrok" c = (err, c1) ->
  AddIngressToServices_for profile items true domain
    (mkWorld c (render_triple (Namespace svc) (Name svc) (Port port) :: rest) f t)
  = AddIngressToServices_for profile items true domain
      (mkWorld c1 rest f
         (t ++ [EvOut OutString service_prompt [];
                EvStdin (render_triple (Namespace svc) (Name svc) (Port port));
                EvCall (CallCreateIngress profile (Namespace svc)
                          ("ngrok-ingress-" +:+ Name svc) domain (Name svc)
                          (Port port) "ngrok")
                       (ReplyErr err)] ++
          match err with
          | Some e => [EvOut OutErr "Error creating ingress: %v" [ArgE e]]
          | None => []
          end)).
Proof.
  intros Hnames Hsvc Hport Hcreate.
  destruct (rendered_triple_parts items svc port Hnames Hsvc)
    as (Hsplit & Hatoi & Hint).
  rewrite (AddIngressToServices_for_single profile items domain c _ rest f t
             _ _ _ _ _ (render_triple_not_none _ _ _)
             (proj2 (found_iff_listed items _)
                    (ex_intro _ svc (ex_intro _ port
                       (conj Hsvc (conj Hport eq_refl)))))
             Hsplit Hatoi).
  rewrite Hint, bind_unfold.
  unfold create_ingress, CreateIngress, facade_call. rewrite bind_unfold.
  cbn [cluster stdin files trace]. rewrite Hcreate.
  destruct err as [e|]; unfold out, emit, ret; cbn [cluster stdin files trace];
    rewrite <- !app_assoc; reflexivity.
Qed.

(** X12.  One turn of the selection loop, under the single-domain
    strategy, on the triple of a port of a listed service whose names hold
    no colon: one ingress is requested, named ngrok-ingress-<service>, of
    class ngrok, in the namespace of the service, for the shared domain
    and the listed port.  When the request fails the error is printed;
    either way the loop goes on with the next line. *)
Theorem listed_selection_requests_ingress {St : Type} `{Facade St}
    (profile : string) (items : list Service) (domain : string) (c c1 : St)
    (svc : Service) (port : ServicePort) (rest : list string)
    (f : gmap string string) (t : list event) (err : option error) :
  names_colon_free items = true -> svc ∈ items -> port ∈ Ports svc ->
  service_CreateIngress profile (Namespace svc) ("ngrok-ingress-" +:+ Name svc)
                        domain (Name svc) (Port port) "ngrok" c = (err, c1) ->
  AddIngressToServices_for profile items true domain
    (mkWorld c (render_triple (Namespace svc) (Name svc) (Port port) :: rest) f t)
  = AddIngressToServices_for profile items true domain
      (mkWorld c1 rest f
         (t ++ [EvOut OutString service_prompt [];
                EvStdin (render_triple (Namespace svc) (Name svc) (Port port));
                EvCall (CallCreateIngress profile (Namespace svc)
                          ("ngrok-ingress-" +:+ Name svc) domain (Name svc)
                          (Port port) "ngrok")
                       (ReplyErr err)] ++
          match err with
          | Some e => [EvOut OutErr "Error creating ingress: %v" [ArgE e]]
          | None => []
          end)).
Proof.
  intros Hnames Hsvc Hport Hcreate.
  destruct (rendered_triple_parts items svc port Hnames Hsvc)
    as (Hsplit & Hatoi & Hint).
  rewrite (AddIngressToServices_for_single profile items domain c _ rest f t
             _ _ _ _ _ (render_triple_not_none _ _ _)
             (proj2 (found_iff_listed items _)
                    (ex_intro _ svc (ex_intro _ port
                       (conj Hsvc (conj Hport eq_refl)))))
             Hsplit Hatoi).
  rewrite Hint, bind_unfold.
  unfold create_ingress, CreateIngress, facade_call. rewrite bind_unfold.
  cbn [cluster stdin files trace]. rewrite Hcreate.
  destruct err as [e|]; unfold out, emit, ret; cbn [cluster stdin files trace];
    rewrite <- !app_assoc; reflexivity.
Qed.

Lemma listed_selection_requests_ingress_witness :
  AddIngressToServices_for "minikube" dns_and_web true "foo.ngrok.app"
    (mkWorld (mkCluster ∅ ∅ dns_and_web ∅ [Some (ErrFacade "denied")])
             [render_triple "default" "web" 80; "none"%string] ∅ [])
  = AddIngressToServices_for "minikube" dns_and_web true "foo.ngrok.app"
      (mkWorld (mkCluster ∅ ∅ dns_and_web ∅ []) ["none"%string] ∅
         ([] ++ [EvOut OutString service_prompt [];
                 EvStdin (render_triple "default" "web" 80);
                 EvCall (CallCreateIngress "minikube" "default"
                           ("ngrok-ingress-" +:+ "web") "foo.ngrok.app" "web"
                           80 "ngrok")
                        (ReplyErr (Some (ErrFacade "denied")))] ++
          [EvOut OutErr "Error creating ingress: %v"
                 [ArgE (ErrFacade "denied")]])).
Proof.
  apply (listed_selection_requests_ingress "minikube" dns_and_web
           "foo.ngrok.app"
           (mkCluster ∅ ∅ dns_and_web ∅ [Some (ErrFacade "denied")])
           (mkCluster ∅ ∅ dns_and_web ∅ [])
           (mkService "default" "web" [mkServicePort 80 I]) (mkServicePort 80 I)
           ["none"%string] ∅ [] (Some (ErrFacade "denied"))).
  - reflexivity.
  - apply elem_of_cons. right. apply elem_of_cons. left. reflexivity.
  - apply elem_of_cons. left. reflexivity.
  - reflexivity.
Defined.

(** X13.  Whatever services the cluster lists (their names may hold
    colons) and whatever the operator types, [AddIngressToServices] does
    not index a segment that is not there: it returns, or the process
    exits because the input has ended. *)
Theorem AddIngressToServices_returns_or_input_ends {St : Type} `{Facade St}
    (profile : string) (singleDomain : bool) (domain : string) (w : World St) :
  let r := AddIngressToServices profile singleDomain domain w in
  fst r = Done tt \/ (fst r = Exited /\ stdin (snd r) = []).
Proof.
  cbn zeta.
  destruct (AddIngressToServices_ends profile singleDomain domain w)
    as [[[] Hdone]|Hexit]; [left; exact Hdone | right; exact Hexit].
Qed.

(** X14.  When the names of the listed services hold no colon, every
    ingress request of [AddIngressToServices] is for a port of a listed
    service: in the namespace of that service, named
    ngrok-ingress-<service>, of class ngrok, whatever the operator
    types. *)
Theorem AddIngressToServices_only_listed {St : Type} `{Facade St}
    (profile : string) (singleDomain : bool) (domain : string) (w : World St) :
  let items := fst (fst (service_ListAllServices profile (cluster w))) in
  names_colon_free items = true ->
  exists evs,
    trace (snd (AddIngressToServices profile singleDomain domain w))
    = trace w ++ evs /\
    Forall (ingress_for_listed items) evs.
Proof.
  cbn zeta. intros Hnames. destruct w as [c i f t].
  unfold AddIngressToServices, ListAllServices, facade_call.
  rewrite bind_unfold. cbn [cluster stdin files trace] in *.
  destruct (service_ListAllServices profile c) as [[items err] c1].
  cbn [fst snd] in *. destruct err as [err|].
  - unfold out, emit. cbn [cluster stdin files trace snd].
    rewrite <- app_assoc. eexists. split; [reflexivity|].
    repeat constructor.
  - rewrite bind_unfold. unfold out, emit. cbn [cluster stdin files trace].
    unfold AddIngressToServices_for. cbn [stdin].
    destruct (ingress_only_for_listed profile items singleDomain Hnames
                (S (length i)) domain
                (mkWorld c1 i f
                   ((t ++ [EvCall (CallListAllServices profile)
                                  (ReplyServices items None)]) ++
                    [EvOut OutBoxed
                       ("Services:" +:+ String "010" EmptyString +:+
                        serviceString_items items EmptyString) []])))
      as (evs & Htrace & Hall).
    rewrite Htrace. cbn [trace]. rewrite <- !app_assoc.
    eexists. split; [reflexivity|].
    repeat (constructor; [exact I|]). exact Hall.
Qed.

Lemma AddIngressToServices_only_listed_witness :
  exists evs,
    trace (snd (AddIngressToServices "minikube" true "foo.ngrok.app"
                  (mkWorld cluster_dns_web
                           ["default:web:80"; "default:web:81"; "none"]%string
                           ∅ [])))
    = [] ++ evs /\
    Forall (ingress_for_listed dns_and_web) evs.
Proof.
  exact (AddIngressToServices_only_listed "minikube" true "foo.ngrok.app"
           (mkWorld cluster_dns_web
                    ["default:web:80"; "default:web:81"; "none"]%string ∅ [])
           eq_refl).
Defined.

(** ** The box of services *)

Lemma append_assoc_l (a b c : string) : (a +:+ b) +:+ c = a +:+ (b +:+ c).
Proof.
  induction a as [|ch a IH]; [reflexivity|].
  rewrite !append_cons_l, IH. reflexivity.
Qed.

Lemma append_nil_r (a : string) : a +:+ EmptyString = a.
Proof.
  induction a as [|ch a IH]; [reflexivity|].
  rewrite append_cons_l, IH. reflexivity.
Qed.

Lemma lines_text_app (xs ys : list string) :
  lines_text (xs ++ ys) = lines_text xs +:+ lines_text ys.
Proof.
  induction xs as [|x xs IH]; [reflexivity|].
  cbn [app lines_text]. rewrite IH, !append_assoc_l. reflexivity.
Qed.

Lemma serviceString_ports_lines (svc : Service) (ports : list ServicePort) :
  forall acc,
    serviceString_ports svc ports acc
    = acc +:+ lines_text
                (map (fun port =>
                        render_triple (Namespace svc) (Name svc) (Port port))
                     ports).
Proof.
  induction ports as [|port ports IH]; intros acc; cbn [serviceString_ports map].
  - cbn [lines_text]. rewrite append_nil_r. reflexivity.
  - rewrite IH. cbn [lines_text]. rewrite !append_assoc_l. reflexivity.
Qed.

Lemma serviceString_items_lines (items : list Service) :
  forall acc,
    serviceString_items items acc = acc +:+ lines_text (service_lines items).
Proof.
  induction items as [|svc items IH]; intros acc;
    cbn [serviceString_items service_lines flat_map].
  - cbn [lines_text]. rewrite append_nil_r. reflexivity.
  - rewrite IH, serviceString_ports_lines, lines_text_app, append_assoc_l.
    reflexivity.
Qed.

Lemma listed_triple_iff_line (items : list Service) (choice : string) :
  is_listed_triple items choice <-> choice ∈ service_lines items.
Proof.
  unfold is_listed_triple, service_lines.
  rewrite list_elem_of_In, in_flat_map. split.
  - intros (svc & port & Hs & Hp & ->). exists svc.
    split; [apply list_elem_of_In; exact Hs|].
    apply in_map_iff. exists port.
    split; [reflexivity | apply list_elem_of_In; exact Hp].
  - intros (svc & Hs & Hin). apply in_map_iff in Hin as (port & <- & Hp).
    exists svc, port.
    split; [apply list_elem_of_In; exact Hs|].
    split; [apply list_elem_of_In; exact Hp | reflexivity].
Qed.

(** X15.  The text that [AddIngressToServices] shows in the box is one
    line namespace:service:port for every port of every listed service,
    in the order of the list, each closed by a newline; and the search of
    the selection loop finds a selection exactly when it is one of the
    lines shown. *)
Theorem shown_lines_are_the_selections (items : list Service) :
  serviceString_items items EmptyString = lines_text (service_lines items) /\
  forall choice : string,
    found_items items choice false = true <-> choice ∈ service_lines items.
Proof.
  split.
  - rewrite serviceString_items_lines. reflexivity.
  - intros choice. rewrite found_iff_listed. apply listed_triple_iff_line.
Qed.

(** ** The policy modules *)

Lemma reads_of_app (tr tr' : list event) :
  reads_of (tr ++ tr') = reads_of tr ++ reads_of tr'.
Proof. apply omap_app. Qed.

(** X16.  [LoadAndCreatePolicyModules] reads the files whose paths the
    operator enters before the first [none], each once and in that order,
    and does nothing else with them: it makes no facade call, and the
    cluster and the files are as they were, whatever the files hold. *)
Theorem LoadAndCreatePolicyModules_only_reads {St : Type} `{Facade St}
    (c : St) (i : list string) (f : gmap string string) (t : list event) :
  exists (evs : list event) (rest : list string),
    snd (LoadAndCreatePolicyModules (mkWorld c i f t))
    = mkWorld c rest f (t ++ evs) /\
    calls_of evs = [] /\
    reads_of evs = before_none i.
Proof.
  revert t. induction i as [|path i IH]; intros t.
  - exists [EvOut OutString policy_prompt []], []. repeat split.
  - rewrite LoadAndCreatePolicyModules_step. cbn [before_none].
    destruct (String.eqb path "none").
    + exists (policy_prompt_events path), i. repeat split.
    + destruct (IH (t ++ policy_events f path)) as (evs & rest & Hrun & Hc & Hr).
      exists (policy_events f path ++ evs), rest.
      rewrite Hrun, calls_of_app, reads_of_app, Hc, Hr, <- app_assoc.
      unfold policy_events. destruct (f !! path); repeat split.
Qed.

(** ** The closing notice *)

Section Notice.

Context {St : Type} `{Facade St} `{GoStd.Unicode}.

Lemma bind_bind {A B C} (m : M St A) (k : A -> M St B) (h : B -> M St C)
    (w : World St) :
  bind (bind m k) h w = bind m (fun a => bind (k a) h) w.
Proof.
  rewrite !bind_unfold. destruct (m w) as [[a| | |] w1]; try reflexivity.
Qed.

Lemma bind_ext {A B} (m : M St A) (k k' : A -> M St B) (w : World St) :
  (forall a w', k a w' = k' a w') -> bind m k w = bind m k' w.
Proof.
  intros Hk. rewrite !bind_unfold. destruct (m w) as [[a| | |] w1]; auto.
Qed.

Lemma quiet_policy_modules : emits quiet (LoadAndCreatePolicyModules (St := St)).
Proof.
  intros w. unfold LoadAndCreatePolicyModules.
  apply policy_loop_emits; intros; reflexivity.
Qed.

Lemma quiet_ingress_loop (n : nat) (profile : string) (items : list Service)
    (singleDomain : bool) :
  forall domain,
    emits quiet (AddIngressToServices_loop n profile items singleDomain domain).
Proof.
  induction n as [|n IH]; intros domain; [apply emits_stop|].
  cbn [AddIngressToServices_loop].
  apply emits_bind; [apply emits_prompt_answer; intros; reflexivity|].
  intros choice. destruct (String.eqb choice "none"); [apply emits_ret|].
  destruct (found_items items choice false); cbn [negb].
  - apply emits_bind.
    { destruct singleDomain; cbn [negb];
        [apply emits_ret | apply emits_prompt_answer; intros; reflexivity]. }
    intros domain'.
    apply emits_map_selection; try (intros; reflexivity). apply IH.
  - apply emits_bind; [apply emits_out; reflexivity | intros _; apply IH].
Qed.

Lemma quiet_AddIngressToServices (profile : string) (singleDomain : bool)
    (domain : string) :
  emits quiet (AddIngressToServices profile singleDomain domain).
Proof.
  unfold AddIngressToServices, ListAllServices.
  apply emits_bind; [apply emits_facade_call; intros; reflexivity|].
  intros r. destruct (snd r); [apply emits_out; reflexivity|].
  apply emits_bind; [apply emits_out; reflexivity|].
  intros _ w. unfold AddIngressToServices_for. apply quiet_ingress_loop.
Qed.

Lemma notice_after {A} (m : M St A) (e : event) (w : World St) :
  emits quiet m ->
  exists evs,
    Forall quiet evs /\
    ((fst (bind m (fun _ => emit e) w) = Done tt /\
      new_events w (snd (bind m (fun _ => emit e) w)) = evs ++ [e]) \/
     (fst (bind m (fun _ => emit e) w) <> Done tt /\
      new_events w (snd (bind m (fun _ => emit e) w)) = evs)).
Proof.
  intros Hm. destruct (Hm w) as (evs & Htrace & Hall).
  exists evs. split; [exact Hall|]. rewrite bind_unfold. unfold new_events.
  destruct (m w) as [[a| | |] w1]; cbn [fst snd] in *;
    [left | right | right | right]; (split; [try reflexivity; discriminate|]).
  - unfold emit. cbn [snd trace]. rewrite Htrace, <- app_assoc.
    apply drop_app_length.
  - rewrite Htrace. apply drop_app_length.
  - rewrite Htrace. apply drop_app_length.
  - rewrite Htrace. apply drop_app_length.
Qed.

(** X17.  The steps after the domain strategy print the notice "Congrats,
    you have configured ingress with ngrok in your minikube cluster."
    exactly when they return, as their last output and only once: no
    success notice is printed before it, and none at all when the process
    exits during the steps. *)
Theorem PolicyAndMapping_congratulates_once (profile : string)
    (singleDomain : bool) (domain : string) (w : World St) :
  let r := PolicyAndMapping profile singleDomain domain w in
  exists evs,
    Forall quiet evs /\
    ((fst r = Done tt /\ new_events w (snd r) = evs ++ [congrats]) \/
     (fst r <> Done tt /\ new_events w (snd r) = evs)).
Proof.
  cbn zeta.
  set (steps :=
    configurePolicyModule <- AskForYesNoConfirmation
      "Would you like to create a policy module that can be used to secure ingress to services with authentication?"
      posResponses negResponses ;;
    (if configurePolicyModule then LoadAndCreatePolicyModules else ret tt) ;;
    configureIngressToServices <- AskForYesNoConfirmation
      "Would you like to create ingress to existing services?"
      posResponses negResponses ;;
    (if configureIngressToServices
     then AddIngressToServices profile singleDomain domain else ret tt)).
  assert (Hsteps : PolicyAndMapping profile singleDomain domain w
                   = bind steps (fun _ => emit congrats) w).
  { unfold PolicyAndMapping, steps. rewrite bind_bind.
    apply bind_ext. intros b1 w1. rewrite bind_bind.
    apply bind_ext. intros _ w2. rewrite bind_bind.
    apply bind_ext. intros b2 w3. reflexivity. }
  rewrite Hsteps. apply notice_after. unfold steps.
  apply emits_bind;
    [apply emits_AskForYesNoConfirmation; intros; reflexivity | intros b1].
  apply emits_bind;
    [destruct b1; [apply quiet_policy_modules | apply emits_ret] | intros _].
  apply emits_bind;
    [apply emits_AskForYesNoConfirmation; intros; reflexivity | intros b2].
  destruct b2; [apply quiet_AddIngressToServices | apply emits_ret].
Qed.

End Notice.

(* ====================================================================== *)
(** * The gcp-auth addon                                                   *)
(* ====================================================================== *)

Section GCPAuthProperties.

Import GCPAuth.

Context {St : Type} `{Host St}.

Variable credentialsPath projectPath : string.

(** One reply of the packages around the addon at a time. *)
Ltac host_reply :=
  match goal with
  | |- context [Force ?h] => is_var h; destruct (Force h) eqn:?
  | |- context [detect_IsOnGCE ?h] =>
      is_var h; destruct (detect_IsOnGCE h) as [[|] ?] eqn:?
  | |- context [mustload_Running ?n ?h] =>
      is_var h; destruct (mustload_Running n h) as [[|] ?] eqn:?
  | |- context [google_FindDefaultCredentials ?h] =>
      is_var h;
      destruct (google_FindDefaultCredentials h) as [[[?|] [?|]] ?] eqn:?
  | |- context [runner_Copy ?f ?h] =>
      is_var h; destruct (runner_Copy f h) as [[?|] ?] eqn:?
  | |- context [runner_Remove ?f ?h] =>
      is_var h; destruct (runner_Remove f h) as [[?|] ?] eqn:?
  | |- context [gcloud_config_get_value_project ?h] =>
      is_var h;
      destruct (gcloud_config_get_value_project h) as [[? [?|]] ?] eqn:?
  | |- context [String.eqb (os_Getenv ?k ?h) ?s] =>
      is_var h; destruct (String.eqb (os_Getenv k h) s) eqn:Henv
  | |- context [(0 <? String.length ?s)%nat] =>
      is_var s; destruct (0 <? String.length s)%nat eqn:Hlen
  end;
  cbn [fst snd host journal negb andb is_nil].

Lemma added_app (h h' : St) (j evs : list gevent) :
  added (mkMachine h j) (mkMachine h' (j ++ evs)) = evs.
Proof. unfold added. cbn [journal]. apply drop_app_length. Qed.

Lemma added_nil (h h' : St) (j : list gevent) :
  added (mkMachine h j) (mkMachine h' j) = [].
Proof. unfold added. cbn [journal]. apply drop_all. Qed.

(** Every run of the addon's functions, by the replies it gets. *)
Ltac run_addon :=
  unfold enableOrDisableGCPAuth, enableAddonGCPAuth, disableAddonGCPAuth,
    verifyGCPAuthAddon, read_Force, IsOnGCE, Running, FindDefaultCredentials,
    Copy, Remove, Getenv, gcloud_project, host_op, exit_Message, record,
    gbind, gret;
  cbn [fst snd host journal negb andb is_nil];
  repeat host_reply;
  cbn [fst snd host journal negb andb is_nil];
  rewrite <- ?(app_assoc _ _ _), ?added_app, ?added_nil.

Ltac not_in_list :=
  let Hin := fresh "Hin" in
  intros Hin;
  repeat (apply elem_of_cons in Hin as [Hin|Hin]; [discriminate|]);
  inversion Hin.

(** X18.  [enableAddonGCPAuth] checks before it copies: when it ends the
    process (on GCE without the force flag, no running cluster, no
    credentials found, or credentials without JSON) no file has been
    copied to the node.  It never removes a file, it returns or ends the
    process, and with the force flag set it does not ask whether it runs
    on GCE. *)
Theorem enableAddonGCPAuth_checks_before_copying (cfg : ClusterConfig)
    (m : Machine St) :
  let r := enableAddonGCPAuth credentialsPath projectPath cfg m in
  let evs := added m (snd r) in
  removes_of evs = [] /\
  (Force (host m) = true -> OpIsOnGCE ∉ ops_of evs) /\
  (fst r = Exited -> copies_of evs = []) /\
  (fst r = Exited \/ exists res, fst r = Done res).
Proof.
  cbn zeta. destruct m as [h j]. cbn [host]. run_addon;
    (split; [reflexivity|]);
    (split; [intros Hforce; try discriminate; cbn; not_in_list|]);
    (split; [intros Hexit; try discriminate; reflexivity|]);
    solve [left; reflexivity | right; eexists; reflexivity].
Qed.

(** X19.  When [enableAddonGCPAuth] returns, the first file it copied is
    the JSON of the credentials that were found, to [credentialsPath]
    with mode 0444.  When that copy failed, its error is the result and
    nothing else was copied; otherwise one more file was copied, to
    [projectPath] with mode 0444, and the reply to that copy is the
    result. *)
Theorem enableAddonGCPAuth_copies (cfg : ClusterConfig) (m : Machine St) :
  let r := enableAddonGCPAuth credentialsPath projectPath cfg m in
  let evs := added m (snd r) in
  forall res, fst r = Done res ->
    exists json,
      found_credentials evs = [Some json] /\
      ((copies_of evs = [NewMemoryAssetTarget json credentialsPath "0444"] /\
        copy_replies_of evs = [res] /\ res <> None) \/
       (exists data,
          copies_of evs = [NewMemoryAssetTarget json credentialsPath "0444";
                           NewMemoryAssetTarget data projectPath "0444"] /\
          copy_replies_of evs = [None; res])).
Proof.
  cbn zeta. destruct m as [h j]. run_addon;
    intros res Hres; try discriminate; injection Hres as <-;
    eexists; (split; [reflexivity|]);
    solve [left; repeat split; discriminate
          | right; eexists; split; reflexivity].
Qed.

(** X20.  The project file that [enableAddonGCPAuth] copies holds the
    value of GOOGLE_CLOUD_PROJECT when that is set; else the output of
    gcloud, trimmed, when gcloud ran without error and printed something;
    else nothing.  The warning that no project could be determined is
    printed exactly in the last case, and gcloud is not run when the
    environment variable is set. *)
Theorem enableAddonGCPAuth_project (cfg : ClusterConfig) (m : Machine St) :
  let r := enableAddonGCPAuth credentialsPath projectPath cfg m in
  let evs := added m (snd r) in
  forall c1 c2, copies_of evs = [c1; c2] ->
    c2 = NewMemoryAssetTarget (default EmptyString (project_of evs))
                              projectPath "0444" /\
    warnings_of evs
    = match project_of evs with
      | None => ["Could not determine a Google Cloud project, which might be ok."%string]
      | Some _ => []
      end /\
    (OpGcloudProject ∈ ops_of evs ->
     EvOp (OpGetenv "GOOGLE_CLOUD_PROJECT") (ToldString EmptyString) ∈ evs).
Proof.
  cbn zeta. destruct m as [h j]. run_addon;
    intros c1 c2 Hcopies; try discriminate;
    cbn in Hcopies; injection Hcopies as <- <-;
    cbn [project_of ops_of copies_of warnings_of omap app option_bind mbind
         default from_option];
    rewrite ?Henv, ?Hlen;
    (split; [reflexivity|]); (split; [reflexivity|]);
    intros Hgcloud;
    try solve [exfalso; revert Hgcloud; not_in_list];
    apply String.eqb_eq in Henv; rewrite Henv;
    repeat (apply elem_of_cons; first [left; reflexivity | right]).
Qed.

(** X21.  [disableAddonGCPAuth] removes the credentials file first and
    the project file only when that removal succeeded: it returns the
    error of the first removal that fails, and [nil] when both succeed.
    It copies nothing to the node, and removes nothing when there is no
    running cluster. *)
Theorem disableAddonGCPAuth_removals (cfg : ClusterConfig) (m : Machine St) :
  let r := disableAddonGCPAuth credentialsPath projectPath cfg m in
  let evs := added m (snd r) in
  let creds := NewMemoryAssetTarget EmptyString credentialsPath "0444" in
  let project := NewMemoryAssetTarget EmptyString projectPath "0444" in
  copies_of evs = [] /\
  ((fst r = Exited /\ removes_of evs = []) \/
   (exists err, fst r = Done (Some err) /\
                removes_of evs = [creds] /\
                remove_replies_of evs = [Some err]) \/
   (exists res, fst r = Done res /\
                removes_of evs = [creds; project] /\
                remove_replies_of evs = [None; res])).
Proof.
  cbn zeta. destruct m as [h j]. run_addon; (split; [reflexivity|]);
    solve [ left; repeat split
          | right; left; eexists; repeat split
          | right; right; eexists; repeat split ].
Qed.

(** X22.  [verifyGCPAuthAddon] returns the error of the status check
    as it is, and prints its two notices exactly when the value parses as
    true and the check found no error.  When the value does not parse it
    returns the wrapped parse error without making the check and without
    printing. *)
Theorem verifyGCPAuthAddon_notices (cc : ClusterConfig) (name val : string)
    (m : Machine St) :
  let r := verifyGCPAuthAddon cc name val m in
  let evs := added m (snd r) in
  match GoStd.ParseBool val with
  | (_, Some err) =>
      r = (Done (Some (ErrWrap err ("parsing bool: " +:+ name))), m)
  | (enable, None) =>
      fst r = Done (fst (verifyAddonStatusInternal cc name val "gcp-auth" (host m))) /\
      host (snd r) = snd (verifyAddonStatusInternal cc name val "gcp-auth" (host m)) /\
      ops_of evs = [OpVerifyAddonStatusInternal name val "gcp-auth"] /\
      notices_of evs
      = if enable && is_nil (fst (verifyAddonStatusInternal cc name val "gcp-auth"
                                                            (host m)))
        then ["Your GCP credentials will now be mounted into every pod created in the {{.name}} cluster.";
              "If you don't want your credentials mounted into a specific pod, add a label with the `gcp-auth-skip-secret` key to your pod configuration."]%string
        else []
  end.
Proof.
  cbn zeta. destruct m as [h j]. unfold verifyGCPAuthAddon.
  destruct (GoStd.ParseBool val) as [enable [err|]]; [reflexivity|].
  unfold host_op, record, gbind, gret. cbn [host journal].
  destruct (verifyAddonStatusInternal cc name val "gcp-auth" h) as [[e|] h'];
    destruct enable; cbn [fst snd host journal andb is_nil];
    rewrite <- ?(app_assoc _ _ _), ?added_app; repeat split.
Qed.

(** X23.  [enableOrDisableGCPAuth] with a value that does not parse as
    a boolean returns the wrapped parse error and asks nothing of the
    host.  With a value that parses as true it removes no file from the
    node, and with one that parses as false it copies none. *)
Theorem enableOrDisableGCPAuth_by_value (cfg : ClusterConfig)
    (name val : string) (m : Machine St) :
  let r := enableOrDisableGCPAuth credentialsPath projectPath cfg name val m in
  let evs := added m (snd r) in
  match GoStd.ParseBool val with
  | (_, Some err) =>
      r = (Done (Some (ErrWrap err ("parsing bool: " +:+ name))), m)
  | (true, None) =>
      r = enableAddonGCPAuth credentialsPath projectPath cfg m /\
      removes_of evs = []
  | (false, None) =>
      r = disableAddonGCPAuth credentialsPath projectPath cfg m /\
      copies_of evs = []
  end.
Proof.
  cbn zeta. unfold enableOrDisableGCPAuth.
  destruct (GoStd.ParseBool val) as [[|] [err|]]; try reflexivity.
  - split; [reflexivity|]. destruct m as [h j]. run_addon; reflexivity.
  - split; [reflexivity|]. destruct m as [h j]. run_addon; reflexivity.
Qed.

End GCPAuthProperties.

Lemma enableAddonGCPAuth_copies_witness :
  exists json,
    GCPAuth.found_credentials
      (GCPAuth.added GCPAuth.gcloud_machine (snd GCPAuth.gcloud_run))
    = [Some json] /\
    ((GCPAuth.copies_of
        (GCPAuth.added GCPAuth.gcloud_machine (snd GCPAuth.gcloud_run))
      = [GCPAuth.NewMemoryAssetTarget json "/creds.json" "0444"] /\
      GCPAuth.copy_replies_of
        (GCPAuth.added GCPAuth.gcloud_machine (snd GCPAuth.gcloud_run))
      = [None] /\ None <> (None : option error)) \/
     (exists data,
        GCPAuth.copies_of
          (GCPAuth.added GCPAuth.gcloud_machine (snd GCPAuth.gcloud_run))
        = [GCPAuth.NewMemoryAssetTarget json "/creds.json" "0444";
           GCPAuth.NewMemoryAssetTarget data "/project" "0444"] /\
        GCPAuth.copy_replies_of
          (GCPAuth.added GCPAuth.gcloud_machine (snd GCPAuth.gcloud_run))
        = [None; None])).
Proof.
  assert (Hdone : fst GCPAuth.gcloud_run = Done None) by reflexivity.
  exact (enableAddonGCPAuth_copies (H := GCPAuth.scripted_host)
           "/creds.json" "/project" (mkClusterConfig "minikube")
           GCPAuth.gcloud_machine None Hdone).
Defined.

Lemma enableAddonGCPAuth_project_witness :
  GCPAuth.NewMemoryAssetTarget "my-project" "/project" "0444"
  = GCPAuth.NewMemoryAssetTarget
      (default EmptyString
         (GCPAuth.project_of
            (GCPAuth.added GCPAuth.gcloud_machine (snd GCPAuth.gcloud_run))))
      "/project" "0444".
Proof.
  assert (Hcopies :
    GCPAuth.copies_of
      (GCPAuth.added GCPAuth.gcloud_machine (snd GCPAuth.gcloud_run))
    = [GCPAuth.NewMemoryAssetTarget "{}" "/creds.json" "0444";
       GCPAuth.NewMemoryAssetTarget "my-project" "/project" "0444"])
    by reflexivity.
  exact (proj1 (enableAddonGCPAuth_project (H := GCPAuth.scripted_host)
                  "/creds.json" "/project"
                  (mkClusterConfig "minikube") GCPAuth.gcloud_machine
                  (GCPAuth.NewMemoryAssetTarget "{}" "/creds.json" "0444")
                  (GCPAuth.NewMemoryAssetTarget "my-project" "/project" "0444")
                  Hcopies)).
Defined.

(** The output of gcloud is trimmed before it is copied. *)
Example gcloud_project_is_trimmed :
  fst GCPAuth.gcloud_run = Done None /\
  GCPAuth.copies_of
    (GCPAuth.added GCPAuth.gcloud_machine (snd GCPAuth.gcloud_run))
  = [GCPAuth.NewMemoryAssetTarget "{}" "/creds.json" "0444";
     GCPAuth.NewMemoryAssetTarget "my-project" "/project" "0444"] /\
  GCPAuth.warnings_of
    (GCPAuth.added GCPAuth.gcloud_machine (snd GCPAuth.gcloud_run)) = [].
Proof. vm_compute. repeat split. Qed.

(* ====================================================================== *)
(** * The switch of the configure command                                  *)
(* ====================================================================== *)

Section DispatchProperties.

Context {St : Type} `{Facade St} `{GoStd.Unicode}.

Variable registry_creds_case metallb_case ingress_case registry_aliases_case
         auto_pause_case : string -> M St unit.

(** X24.  The configure command with no argument, or with more than one,
    ends the process before it does anything (and before it indexes the
    arguments).  With the name of an addon that has no case in the switch
    it prints that the addon has no available configuration options and
    returns without the notice of success, without a facade call and
    without reading a line.  With [ngrok] it runs the three steps of the
    wizard and then prints the notice of success. *)
Theorem addonsConfigureCmd_Run_edges (profile : string) (w : World St) :
  (forall args, length args <> 1%nat -> addonsConfigureCmd_Run registry_creds_case metallb_case ingress_case
       registry_aliases_case auto_pause_case profile args w
     = (Exited, w)) /\
  (forall addon, addon ∉ configurable_addons ->
     addonsConfigureCmd_Run registry_creds_case metallb_case ingress_case
       registry_aliases_case auto_pause_case profile [addon] w
     = (Done tt,
        mkWorld (cluster w) (stdin w) (files w)
          (trace w ++
           [EvOut OutFailureT "{{.name}} has no available configuration options"
                  [ArgS addon]]))) /\
  addonsConfigureCmd_Run registry_creds_case metallb_case ingress_case
       registry_aliases_case auto_pause_case profile ["ngrok"%string] w
  = addonsConfigureCmd_ngrok profile w.
Proof.
  split; [|split].
  - intros args Hlen. unfold addonsConfigureCmd_Run. rewrite bind_unfold.
    destruct (Nat.eqb_spec (length args) 1) as [Heq|_]; [contradiction|].
    reflexivity.
  - intros addon Hnot. unfold addonsConfigureCmd_Run. rewrite bind_unfold.
    cbn [length Nat.eqb negb]. unfold ret at 1. rewrite bind_unfold.
    unfold index. cbn [lookup list_lookup]. unfold ret at 1.
    unfold configurable_addons in Hnot.
    repeat (let Hne := fresh "Hne" in
            apply not_elem_of_cons in Hnot as [Hne Hnot];
            apply String.eqb_neq in Hne; rewrite Hne).
    reflexivity.
  - unfold addonsConfigureCmd_Run, addonsConfigureCmd_ngrok, ngrok_case.
    rewrite bind_unfold. cbn [length Nat.eqb negb]. unfold ret at 1.
    rewrite bind_unfold. unfold index. cbn [lookup list_lookup]. unfold ret at 1.
    cbn [String.eqb Ascii.eqb Bool.eqb andb].
    rewrite bind_bind. apply bind_ext. intros _ w1.
    rewrite bind_bind. apply bind_ext. intros _ w2. reflexivity.
Qed.

End DispatchProperties.

(* ====================================================================== *)
(** * The wizard and the gate together                                     *)
(* ====================================================================== *)

(** X25.  On a cluster that can be reached, once the operator has
    accepted the credential question and entered the two values, the
    credential step has made the secret that the gate looks for: run
    next, [ngrokValidation] returns [nil], and so does
    [enableOrDisableNgrok] with the value true. *)
Theorem credentials_open_the_gate `{GoStd.Unicode}
    (DefaultClusterName profile : string)
    (c : Cluster) (others : list string) (yes tok key : string)
    (rest : list string) (f : gmap string string) (t : list event)
    (a b : string) :
  faults c = [] ->
  forallb not_an_answer others = true -> accepts yes = true ->
  exists w' : World Cluster,
    ReconcileCredentials profile
      (mkWorld c (others ++ yes :: tok :: key :: rest) f t) = (Done tt, w') /\
    secrets (cluster w') !! (ngrok_namespace, ngrok_secret)
    = Some (mkSecret (credential_data tok key) credential_labels) /\
    fst (ngrokValidation DefaultClusterName (mkClusterConfig profile) a b w')
    = Done None /\
    fst (enableOrDisableNgrok (mkClusterConfig profile) "ngrok" "true" w')
    = Done None.
Proof.
  intros Hf Hothers Hyes.
  rewrite (ReconcileCredentials_accept _ _ _ _ _ _ _ _ _ Hothers Hyes).
  cbn [service_CheckSecretExists service_CreateSecret cluster_facade].
  unfold cluster_CheckSecretExists, cluster_CreateSecret, next_fault.
  rewrite Hf. cbn [fst snd]. rewrite Hf.
  eexists. split; [reflexivity|]. cbn [cluster secrets].
  split; [apply lookup_insert_eq|].
  rewrite ngrokValidation_run.
  unfold enableOrDisableNgrok. cbn [GoStd.ParseBool].
  change (GoStd.ParseBool "true") with (true, @None error).
  rewrite enableAddonNgrok_run.
  cbn [service_CheckSecretExists cluster_facade cfg_Name].
  unfold cluster_CheckSecretExists, next_fault. cbn [faults]. rewrite Hf.
  cbn [secrets fst snd].
  rewrite bool_decide_eq_true_2
    by (rewrite lookup_insert_eq; eexists; reflexivity).
  split; reflexivity.
Qed.

Lemma credentials_open_the_gate_witness :
  exists w' : World Cluster,
    ReconcileCredentials "minikube"
      (mkWorld empty_cluster ([] ++ ["y"; "tok"; "key"]%string) ∅ [])
    = (Done tt, w') /\
    secrets (cluster w') !! (ngrok_namespace, ngrok_secret)
    = Some (mkSecret (credential_data "tok" "key") credential_labels) /\
    fst (ngrokValidation "minikube" (mkClusterConfig "minikube") "ngrok" "true" w')
    = Done None /\
    fst (enableOrDisableNgrok (mkClusterConfig "minikube") "ngrok" "true" w')
    = Done None.
Proof.
  apply (credentials_open_the_gate "minikube" "minikube" empty_cluster []
           "y" "tok" "key" [] ∅ [] "ngrok" "true"); reflexivity.
Defined.


(** X26.  The selection loop does not deduplicate: when the operator
    selects the same listed port twice under the single-domain strategy
    and then types [none], two equal ingress requests are sent to the
    facade, one per selection, whatever the facade answers to the first;
    no other facade call is made and the loop returns. *)
Theorem same_selection_twice_two_requests {St : Type} `{Facade St}
    (profile : string) (items : list Service) (domain : string) (c : St)
    (svc : Service) (port : ServicePort) (rest : list string)
    (f : gmap string string) (t : list event) :
  names_colon_free items = true -> svc ∈ items -> port ∈ Ports svc ->
  let choice := render_triple (Namespace svc) (Name svc) (Port port) in
  let request :=
    CallCreateIngress profile (Namespace svc) ("ngrok-ingress-" +:+ Name svc)
                      domain (Name svc) (Port port) "ngrok" in
  exists (c' : St) (evs : list event),
    AddIngressToServices_for profile items true domain
      (mkWorld c (choice :: choice :: "none"%string :: rest) f t)
    = (Done tt, mkWorld c' rest f (t ++ evs)) /\
    calls_of evs = [request; request].
Proof.
  intros Hnames Hsvc Hport. cbn zeta.
  destruct (service_CreateIngress profile (Namespace svc)
              ("ngrok-ingress-" +:+ Name svc) domain (Name svc) (Port port)
              "ngrok" c) as [err1 c1] eqn:Hfirst.
  rewrite (listed_selection_step profile items domain c c1 svc port _ f t err1
             Hnames Hsvc Hport Hfirst).
  destruct (service_CreateIngress profile (Namespace svc)
              ("ngrok-ingress-" +:+ Name svc) domain (Name svc) (Port port)
              "ngrok" c1) as [err2 c2] eqn:Hsecond.
  rewrite (listed_selection_step profile items domain c1 c2 svc port _ f _ err2
             Hnames Hsvc Hport Hsecond).
  rewrite AddIngressToServices_for_none.
  rewrite <- !(app_assoc t). eexists _, _. split; [reflexivity|].
  destruct err1, err2; reflexivity.
Qed.

Lemma same_selection_twice_two_requests_witness :
  exists (c' : Cluster) (evs : list event),
    AddIngressToServices_for "minikube" dns_and_web true "foo.ngrok.app"
      (mkWorld cluster_dns_web
         [render_triple "default" "web" 80; render_triple "default" "web" 80;
          "none"%string] ∅ [])
    = (Done tt, mkWorld c' [] ∅ ([] ++ evs)) /\
    calls_of evs
    = [CallCreateIngress "minikube" "default" ("ngrok-ingress-" +:+ "web")
                         "foo.ngrok.app" "web" 80 "ngrok";
       CallCreateIngress "minikube" "default" ("ngrok-ingress-" +:+ "web")
                         "foo.ngrok.app" "web" 80 "ngrok"].
Proof.
  apply (same_selection_twice_two_requests "minikube" dns_and_web
           "foo.ngrok.app" cluster_dns_web
           (mkService "default" "web" [mkServicePort 80 I]) (mkServicePort 80 I)
           [] ∅ []).
  - reflexivity.
  - apply elem_of_cons. right. apply elem_of_cons. left. reflexivity.
  - apply elem_of_cons. left. reflexivity.
Defined.

(* ====================================================================== *)
(** * The domain strategy                                                  *)
(* ====================================================================== *)

Section DomainStrategy.

Context {St : Type} `{Facade St} `{GoStd.Unicode}.

Lemma no_request_after_own_prompt (tr : list event) :
  Forall (fun e => is_ingress_request e = false) tr ->
  request_after_own_prompt tr.
Proof.
  intros Hall pre post profile namespace name domain serviceName port class r ->.
  apply Forall_app in Hall as [_ Hall]. apply Forall_cons in Hall as [Hreq _].
  discriminate.
Qed.

Lemma request_after_own_prompt_app (tr tr' : list event) :
  request_after_own_prompt tr -> request_after_own_prompt tr' ->
  request_after_own_prompt (tr ++ tr').
Proof.
  intros Htr Htr' pre post profile namespace name domain serviceName port class
    r Heq.
  apply app_eq_app in Heq as [l [[Hpre Hpost]|[Hpre Hpost]]].
  - destruct l as [|e l].
    + cbn [app] in Hpost.
      destruct (Htr' [] post profile namespace name domain serviceName port
                  class r (eq_sym Hpost)) as ([|e0 [|e1 pre']] & Hnil);
        discriminate.
    + cbn [app] in Hpost. injection Hpost as <- _.
      exact (Htr pre l profile namespace name domain serviceName port class r
                 Hpre).
  - destruct (Htr' l post profile namespace name domain serviceName port class
                r Hpost) as (pre' & ->).
    exists (tr ++ pre'). rewrite Hpre, app_assoc. reflexivity.
Qed.

Lemma prompted_request (profile namespace name domain serviceName : string)
    (port : Z) (class : string) (r : reply) :
  request_after_own_prompt
    [EvOut OutString domain_prompt []; EvStdin domain;
     EvCall (CallCreateIngress profile namespace name domain serviceName port
                               class) r].
Proof.
  intros pre post profile' namespace' name' domain' serviceName' port' class'
    r' Heq.
  destruct pre as [|e0 [|e1 [|e2 pre]]]; try discriminate.
  - inversion Heq. subst. exists []. reflexivity.
  - inversion Heq as [[He0 He1 He2 Hnil]]. destruct pre; discriminate.
Qed.

Lemma create_ingress_run (profile namespace name domain : string) (port : Z)
    (c : St) (i : list string) (f : gmap string string) (t : list event) :
  create_ingress profile namespace name domain port (mkWorld c i f t)
  = let '(err, c1) :=
      service_CreateIngress profile namespace ("ngrok-ingress-" +:+ name)
                            domain name port "ngrok" c in
    (Done tt,
     mkWorld c1 i f
       (t ++ [EvCall (CallCreateIngress profile namespace
                        ("ngrok-ingress-" +:+ name) domain name port "ngrok")
                     (ReplyErr err)] ++
        match err with
        | Some e => [EvOut OutErr "Error creating ingress: %v" [ArgE e]]
        | None => []
        end)).
Proof.
  unfold create_ingress, CreateIngress, facade_call. rewrite bind_unfold.
  cbn [cluster stdin files trace].
  destruct (service_CreateIngress _ _ _ _ _ _ _ c) as [[e|] c1];
    unfold out, emit, ret; cbn [cluster stdin files trace];
    rewrite <- ?app_assoc; reflexivity.
Qed.

(** A mapped selection, read together with the domain prompt in front of
    it. *)
Lemma map_selection_after_prompt (profile choice domain : string)
    (next : M St unit) :
  emits_such request_after_own_prompt next ->
  forall w,
    exists evs,
      trace (snd (map_selection profile choice domain next w)) = trace w ++ evs /\
      request_after_own_prompt
        ([EvOut OutString domain_prompt []; EvStdin domain] ++ evs).
Proof.
  intros Hnext [c i f t]. unfold map_selection, index.
  destruct (GoStd.Split choice ":" !! 0%nat) as [namespace|];
    [|exists []; split; [symmetry; apply app_nil_r|];
      apply no_request_after_own_prompt; repeat constructor].
  unfold ret at 1. rewrite bind_unfold.
  destruct (GoStd.Split choice ":" !! 1%nat) as [name|];
    [|exists []; split; [symmetry; apply app_nil_r|];
      apply no_request_after_own_prompt; repeat constructor].
  unfold ret at 1. rewrite bind_unfold.
  destruct (GoStd.Split choice ":" !! 2%nat) as [part2|];
    [|exists []; split; [symmetry; apply app_nil_r|];
      apply no_request_after_own_prompt; repeat constructor].
  unfold ret at 1. rewrite bind_unfold.
  destruct (GoStd.Atoi part2) as [port [e|]].
  - eexists. split; [reflexivity|].
    apply no_request_after_own_prompt. repeat constructor.
  - rewrite bind_unfold, create_ingress_run.
    destruct (service_CreateIngress _ _ _ _ _ _ _ c) as [err c1].
    destruct (Hnext (mkWorld c1 i f
                (t ++ [EvCall (CallCreateIngress profile namespace
                                 ("ngrok-ingress-" +:+ name) domain name
                                 (GoStd.int32 port) "ngrok") (ReplyErr err)] ++
                 match err with
                 | Some e => [EvOut OutErr "Error creating ingress: %v" [ArgE e]]
                 | None => []
                 end))) as (evs & Htrace & Hevs).
    rewrite Htrace. cbn [trace]. rewrite <- !app_assoc.
    eexists. split; [reflexivity|].
    rewrite (app_assoc [_; _] [_]).
    apply request_after_own_prompt_app; [apply prompted_request|].
    apply request_after_own_prompt_app; [|exact Hevs].
    apply no_request_after_own_prompt. destruct err; repeat constructor.
Qed.

(** The selection loop under the multiple-domain strategy, whatever the
    operator types. *)
Lemma multiple_loop_after_own_prompt (profile : string) (items : list Service)
    (n : nat) :
  forall domain,
    emits_such request_after_own_prompt
      (AddIngressToServices_loop n profile items false domain).
Proof.
  induction n as [|n IH]; intros domain [c i f t].
  - exists []. split; [symmetry; apply app_nil_r|].
    apply no_request_after_own_prompt. constructor.
  - destruct i as [|choice rest].
    + exists [EvOut OutString service_prompt []]. split; [reflexivity|].
      apply no_request_after_own_prompt. repeat constructor.
    + rewrite ingress_loop_step.
      destruct (String.eqb choice "none").
      { eexists. split; [reflexivity|].
        apply no_request_after_own_prompt. repeat constructor. }
      destruct (found_items items choice false); cbn [negb].
      * rewrite bind_unfold. unfold AskForStaticValue.
        destruct rest as [|d rest].
        { rewrite prompt_answer_nil. cbn [snd trace map].
          rewrite <- app_assoc. eexists. split; [reflexivity|].
          apply no_request_after_own_prompt. repeat constructor. }
        rewrite prompt_answer_cons. cbn [map].
        destruct (map_selection_after_prompt profile choice d
                    (AddIngressToServices_loop n profile items false d) (IH d)
                    (mkWorld c rest f
                       ((t ++ [EvOut OutString service_prompt []; EvStdin choice]) ++
                        [EvOut OutString domain_prompt []; EvStdin d])))
          as (evs & Htrace & Hevs).
        rewrite Htrace. cbn [trace]. rewrite <- !app_assoc.
        eexists. split; [reflexivity|].
        apply request_after_own_prompt_app; [|exact Hevs].
        apply no_request_after_own_prompt. repeat constructor.
      * destruct (IH domain
                    (mkWorld c rest f
                       (t ++ [EvOut OutString service_prompt []; EvStdin choice;
                              EvOut OutErr "Service not found" []])))
          as (evs & Htrace & Hevs).
        rewrite Htrace. cbn [trace]. rewrite <- app_assoc.
        eexists. split; [reflexivity|].
        apply request_after_own_prompt_app; [|exact Hevs].
        apply no_request_after_own_prompt. repeat constructor.
Qed.

Lemma no_request_emits {A} (m : M St A) :
  emits (fun e => is_ingress_request e = false) m ->
  emits_such request_after_own_prompt m.
Proof.
  apply emits_such_of_emits. exact no_request_after_own_prompt.
Qed.

(** Everything after the choice of the multiple-domain strategy. *)
Lemma multiple_policy_and_mapping_after_own_prompt (profile domain : string) :
  emits_such request_after_own_prompt (PolicyAndMapping profile false domain).
Proof.
  unfold PolicyAndMapping.
  apply emits_such_bind; [exact request_after_own_prompt_app | |intros b1].
  { apply no_request_emits, emits_AskForYesNoConfirmation; intros; reflexivity. }
  apply emits_such_bind; [exact request_after_own_prompt_app | |intros _].
  { apply no_request_emits. destruct b1; [|apply emits_ret].
    intros w. apply policy_loop_emits; intros; reflexivity. }
  apply emits_such_bind; [exact request_after_own_prompt_app | |intros b2].
  { apply no_request_emits, emits_AskForYesNoConfirmation; intros; reflexivity. }
  apply emits_such_bind; [exact request_after_own_prompt_app | |intros _].
  - destruct b2; [|apply no_request_emits, emits_ret].
    unfold AddIngressToServices, ListAllServices.
    apply emits_such_bind; [exact request_after_own_prompt_app | |intros r].
    { apply no_request_emits, emits_facade_call. intros; reflexivity. }
    destruct (snd r); [apply no_request_emits, emits_out; reflexivity|].
    apply emits_such_bind; [exact request_after_own_prompt_app | |intros _].
    { apply no_request_emits, emits_out. reflexivity. }
    intros w. apply multiple_loop_after_own_prompt.
  - apply no_request_emits, emits_out. reflexivity.
Qed.

Lemma domain_prompts_app (tr tr' : list event) :
  domain_prompts (tr ++ tr') = (domain_prompts tr + domain_prompts tr')%nat.
Proof. unfold domain_prompts. rewrite List.filter_app. apply length_app. Qed.

Lemma domain_prompts_retry_events (others : list string) :
  domain_prompts (retry_events configure_ingress_question others) = 0%nat.
Proof.
  induction others as [|line others IH]; [reflexivity|].
  cbn [retry_events]. rewrite domain_prompts_app, IH. reflexivity.
Qed.

(** The policy modules declined, the mapping accepted. *)
Lemma PolicyAndMapping_mapping_only (profile : string) (singleDomain : bool)
    (domain : string) (c : St) (no yes : string) (rest : list string)
    (f : gmap string string) (t : list event) :
  declines no = true -> accepts yes = true ->
  PolicyAndMapping profile singleDomain domain (mkWorld c (no :: yes :: rest) f t)
  = (AddIngressToServices profile singleDomain domain ;;
     out OutSuccessT
       "Congrats, you have configured ingress with ngrok in your minikube cluster."
       [])
      (mkWorld c rest f
         (t ++ [EvOut OutString "%s [y/n]: "
                  [ArgS "Would you like to create a policy module that can be used to secure ingress to services with authentication?"];
                EvStdin no;
                EvOut OutString "%s [y/n]: "
                  [ArgS "Would you like to create ingress to existing services?"];
                EvStdin yes])).
Proof.
  intros Hno Hyes. unfold PolicyAndMapping. rewrite bind_unfold.
  change (no :: yes :: rest) with ([] ++ no :: yes :: rest).
  rewrite (AskForYesNoConfirmation_declines _ c [] no _ f _ eq_refl Hno).
  rewrite bind_unfold. unfold ret at 1. rewrite bind_unfold.
  change (yes :: rest) with ([] ++ yes :: rest).
  rewrite (AskForYesNoConfirmation_accepts _ c [] yes _ f _ eq_refl Hyes).
  cbn [retry_events app]. rewrite <- app_assoc. reflexivity.
Qed.

Lemma AddIngressToServices_listed (profile : string) (singleDomain : bool)
    (domain : string) (c c1 : St) (items : list Service) (i : list string)
    (f : gmap string string) (t : list event) :
  service_ListAllServices profile c = ((items, None), c1) ->
  AddIngressToServices profile singleDomain domain (mkWorld c i f t)
  = AddIngressToServices_for profile items singleDomain domain
      (mkWorld c1 i f
         (t ++ [EvCall (CallListAllServices profile) (ReplyServices items None);
                EvOut OutBoxed
                  ("Services:" +:+ String "010" EmptyString +:+
                   serviceString_items items EmptyString) []])).
Proof.
  intros Hlist. unfold AddIngressToServices, ListAllServices, facade_call.
  rewrite bind_unfold. cbn [cluster stdin files trace]. rewrite Hlist.
  cbn [fst snd]. rewrite bind_unfold. unfold out, emit.
  cbn [cluster stdin files trace]. rewrite <- app_assoc. reflexivity.
Qed.

(** One turn of the selection loop on a listed triple, under the
    multiple-domain strategy: the domain is the line after the selection. *)
Lemma listed_selection_step_multiple (profile : string) (items : list Service)
    (earlier domain : string) (c c1 : St) (svc : Service) (port : ServicePort)
    (rest : list string) (f : gmap string string) (t : list event)
    (err : option error) :
  names_colon_free items = true -> svc ∈ items -> port ∈ Ports svc ->
  service_CreateIngress profile (Namespace svc) ("ngrok-ingress-" +:+ Name svc)
                        domain (Name svc) (Port port) "ngrok" c = (err, c1) ->
  AddIngressToServices_for profile items false earlier
    (mkWorld c (render_triple (Namespace svc) (Name svc) (Port port) ::
                domain :: rest) f t)
  = AddIngressToServices_for profile items false domain
      (mkWorld c1 rest f
         (t ++ [EvOut OutString service_prompt [];
                EvStdin (render_triple (Namespace svc) (Name svc) (Port port));
                EvOut OutString domain_prompt []; EvStdin domain;
                EvCall (CallCreateIngress profile (Namespace svc)
                          ("ngrok-ingress-" +:+ Name svc) domain (Name svc)
                          (Port port) "ngrok")
                       (ReplyErr err)] ++
          match err with
          | Some e => [EvOut OutErr "Error creating ingress: %v" [ArgE e]]
          | None => []
          end)).
Proof.
  intros Hnames Hsvc Hport Hcreate.
  destruct (rendered_triple_parts items svc port Hnames Hsvc)
    as (Hsplit & Hatoi & Hint).
  rewrite (AddIngressToServices_for_multiple profile items earlier c _ domain
             rest f t _ _ _ _ _ (render_triple_not_none _ _ _)
             (proj2 (found_iff_listed items _)
                    (ex_intro _ svc (ex_intro _ port
                       (conj Hsvc (conj Hport eq_refl)))))
             Hsplit Hatoi).
  rewrite Hint, bind_unfold, create_ingress_run, Hcreate.
  rewrite <- !app_assoc. reflexivity.
Qed.

End DomainStrategy.

(** C4.  Under the single-domain strategy every ingress request of the
    run carries the domain [d] entered up front and no further domain is
    asked for, whatever the operator types; and when the operator maps two
    listed ports, the run sends, after the listing, one request for each,
    both with the domain [d], and has asked for a domain once.  Under the
    multiple-domain strategy every ingress request comes right after a
    domain prompt of its own and carries the line entered at that prompt,
    whatever the operator types; and when the operator maps two listed
    ports (the same one twice, if they are equal), entering [d1] and [d2],
    the run sends one request with [d1] and one with [d2] and has asked
    for a domain twice. *)
Theorem domain_strategy_consistency
    {St : Type} `{Facade St} `{GoStd.Unicode} (profile : string) :
  (forall d : string,
     emits (single_domain_event d) (PolicyAndMapping profile true d)) /\
  (forall (c c1 : St) (items : list Service) (svc1 svc2 : Service)
          (port1 port2 : ServicePort) (others : list string)
          (yes d no yes' : string) (rest : list string)
          (f : gmap string string) (t : list event),
     service_ListAllServices profile c = ((items, None), c1) ->
     names_colon_free items = true ->
     svc1 ∈ items -> port1 ∈ Ports svc1 -> svc2 ∈ items -> port2 ∈ Ports svc2 ->
     forallb not_an_answer others = true -> accepts yes = true ->
     declines no = true -> accepts yes' = true ->
     exists (c' : St) (evs : list event),
       ConfigureIngress profile
         (mkWorld c
            (others ++ yes :: "single"%string :: d :: no :: yes' ::
             render_triple (Namespace svc1) (Name svc1) (Port port1) ::
             render_triple (Namespace svc2) (Name svc2) (Port port2) ::
             "none"%string :: rest) f t)
       = (Done tt, mkWorld c' rest f (t ++ evs)) /\
       calls_of evs
       = [CallListAllServices profile;
          CallCreateIngress profile (Namespace svc1)
            ("ngrok-ingress-" +:+ Name svc1) d (Name svc1) (Port port1) "ngrok";
          CallCreateIngress profile (Namespace svc2)
            ("ngrok-ingress-" +:+ Name svc2) d (Name svc2) (Port port2) "ngrok"] /\
       domain_prompts evs = 1%nat) /\
  (forall d : string,
     emits_such request_after_own_prompt (PolicyAndMapping profile false d)) /\
  (forall (c c1 : St) (items : list Service) (svc1 svc2 : Service)
          (port1 port2 : ServicePort) (others : list string)
          (yes no yes' d1 d2 : string) (rest : list string)
          (f : gmap string string) (t : list event),
     service_ListAllServices profile c = ((items, None), c1) ->
     names_colon_free items = true ->
     svc1 ∈ items -> port1 ∈ Ports svc1 -> svc2 ∈ items -> port2 ∈ Ports svc2 ->
     forallb not_an_answer others = true -> accepts yes = true ->
     declines no = true -> accepts yes' = true ->
     exists (c' : St) (evs : list event),
       ConfigureIngress profile
         (mkWorld c
            (others ++ yes :: "multiple"%string :: no :: yes' ::
             render_triple (Namespace svc1) (Name svc1) (Port port1) :: d1 ::
             render_triple (Namespace svc2) (Name svc2) (Port port2) :: d2 ::
             "none"%string :: rest) f t)
       = (Done tt, mkWorld c' rest f (t ++ evs)) /\
       calls_of evs
       = [CallListAllServices profile;
          CallCreateIngress profile (Namespace svc1)
            ("ngrok-ingress-" +:+ Name svc1) d1 (Name svc1) (Port port1) "ngrok";
          CallCreateIngress profile (Namespace svc2)
            ("ngrok-ingress-" +:+ Name svc2) d2 (Name svc2) (Port port2) "ngrok"] /\
       domain_prompts evs = 2%nat).
Proof.
  split; [|split; [|split]].
  - intros d. apply single_policy_and_mapping_emits.
  - intros c c1 items svc1 svc2 port1 port2 others yes d no yes' rest f t
      Hlist Hnames Hs1 Hp1 Hs2 Hp2 Hothers Hyes Hno Hyes'.
    rewrite (ConfigureIngress_single _ _ _ _ _ _ _ _ Hothers Hyes).
    rewrite (PolicyAndMapping_mapping_only _ _ _ _ _ _ _ _ _ Hno Hyes').
    rewrite bind_unfold, (AddIngressToServices_listed _ _ _ _ _ _ _ _ _ Hlist).
    destruct (service_CreateIngress profile (Namespace svc1)
                ("ngrok-ingress-" +:+ Name svc1) d (Name svc1) (Port port1)
                "ngrok" c1) as [e1 c2] eqn:Hfirst.
    rewrite (listed_selection_step profile items d c1 c2 svc1 port1 _ f _ e1
               Hnames Hs1 Hp1 Hfirst).
    destruct (service_CreateIngress profile (Namespace svc2)
                ("ngrok-ingress-" +:+ Name svc2) d (Name svc2) (Port port2)
                "ngrok" c2) as [e2 c3] eqn:Hsecond.
    rewrite (listed_selection_step profile items d c2 c3 svc2 port2 _ f _ e2
               Hnames Hs2 Hp2 Hsecond).
    rewrite AddIngressToServices_for_none. unfold out, emit.
    cbn [cluster stdin files trace]. rewrite <- !(app_assoc t).
    eexists _, _. split; [reflexivity|].
    rewrite !calls_of_app, !domain_prompts_app, calls_of_retry_events,
      domain_prompts_retry_events.
    destruct e1, e2; split; reflexivity.
  - intros d. apply multiple_policy_and_mapping_after_own_prompt.
  - intros c c1 items svc1 svc2 port1 port2 others yes no yes' d1 d2 rest f t
      Hlist Hnames Hs1 Hp1 Hs2 Hp2 Hothers Hyes Hno Hyes'.
    rewrite (ConfigureIngress_multiple _ _ _ _ _ _ _ Hothers Hyes).
    rewrite (PolicyAndMapping_mapping_only _ _ _ _ _ _ _ _ _ Hno Hyes').
    rewrite bind_unfold, (AddIngressToServices_listed _ _ _ _ _ _ _ _ _ Hlist).
    destruct (service_CreateIngress profile (Namespace svc1)
                ("ngrok-ingress-" +:+ Name svc1) d1 (Name svc1) (Port port1)
                "ngrok" c1) as [e1 c2] eqn:Hfirst.
    rewrite (listed_selection_step_multiple profile items _ d1 c1 c2 svc1 port1
               _ f _ e1 Hnames Hs1 Hp1 Hfirst).
    destruct (service_CreateIngress profile (Namespace svc2)
                ("ngrok-ingress-" +:+ Name svc2) d2 (Name svc2) (Port port2)
                "ngrok" c2) as [e2 c3] eqn:Hsecond.
    rewrite (listed_selection_step_multiple profile items _ d2 c2 c3 svc2 port2
               _ f _ e2 Hnames Hs2 Hp2 Hsecond).
    rewrite AddIngressToServices_for_none. unfold out, emit.
    cbn [cluster stdin files trace]. rewrite <- !(app_assoc t).
    eexists _, _. split; [reflexivity|].
    rewrite !calls_of_app, !domain_prompts_app, calls_of_retry_events,
      domain_prompts_retry_events.
    destruct e1, e2; split; reflexivity.
Qed.

Lemma domain_strategy_consistency_witness :
  (exists (c' : Cluster) (evs : list event),
     ConfigureIngress "minikube"
       (mkWorld cluster_dns_web
          ([] ++ "y"%string :: "single"%string :: "foo.ngrok.app"%string ::
           "n"%string :: "yes"%string ::
           render_triple "kube-system" "dns" 53 ::
           render_triple "default" "web" 80 :: "none"%string :: []) ∅ [])
     = (Done tt, mkWorld c' [] ∅ ([] ++ evs)) /\
     calls_of evs
     = [CallListAllServices "minikube";
        CallCreateIngress "minikube" "kube-system" ("ngrok-ingress-" +:+ "dns")
                          "foo.ngrok.app" "dns" 53 "ngrok";
        CallCreateIngress "minikube" "default" ("ngrok-ingress-" +:+ "web")
                          "foo.ngrok.app" "web" 80 "ngrok"] /\
     domain_prompts evs = 1%nat) /\
  (exists (c' : Cluster) (evs : list event),
     ConfigureIngress "minikube"
       (mkWorld cluster_dns_web
          ([] ++ "y"%string :: "multiple"%string :: "n"%string :: "yes"%string ::
           render_triple "default" "web" 80 :: "a.ngrok.app"%string ::
           render_triple "default" "web" 80 :: "b.ngrok.app"%string ::
           "none"%string :: []) ∅ [])
     = (Done tt, mkWorld c' [] ∅ ([] ++ evs)) /\
     calls_of evs
     = [CallListAllServices "minikube";
        CallCreateIngress "minikube" "default" ("ngrok-ingress-" +:+ "web")
                          "a.ngrok.app" "web" 80 "ngrok";
        CallCreateIngress "minikube" "default" ("ngrok-ingress-" +:+ "web")
                          "b.ngrok.app" "web" 80 "ngrok"] /\
     domain_prompts evs = 2%nat).
Proof.
  assert (Hlist : service_ListAllServices "minikube" cluster_dns_web
                  = ((dns_and_web, None), cluster_dns_web)) by reflexivity.
  assert (Hdns : mkService "kube-system" "dns" [mkServicePort 53 I] ∈ dns_and_web)
    by (apply elem_of_cons; left; reflexivity).
  assert (Hweb : mkService "default" "web" [mkServicePort 80 I] ∈ dns_and_web)
    by (apply elem_of_cons; right; apply elem_of_cons; left; reflexivity).
  assert (H53 : mkServicePort 53 I ∈ [mkServicePort 53 I])
    by (apply elem_of_cons; left; reflexivity).
  assert (H80 : mkServicePort 80 I ∈ [mkServicePort 80 I])
    by (apply elem_of_cons; left; reflexivity).
  split.
  - exact (proj1 (proj2 (domain_strategy_consistency "minikube"))
             cluster_dns_web cluster_dns_web dns_and_web
             (mkService "kube-system" "dns" [mkServicePort 53 I])
             (mkService "default" "web" [mkServicePort 80 I])
             (mkServicePort 53 I) (mkServicePort 80 I)
             [] "y" "foo.ngrok.app" "n" "yes" [] ∅ []
             Hlist eq_refl Hdns H53 Hweb H80 eq_refl eq_refl eq_refl eq_refl).
  - exact (proj2 (proj2 (proj2 (domain_strategy_consistency "minikube")))
             cluster_dns_web cluster_dns_web dns_and_web
             (mkService "default" "web" [mkServicePort 80 I])
             (mkService "default" "web" [mkServicePort 80 I])
             (mkServicePort 80 I) (mkServicePort 80 I)
             [] "y" "n" "yes" "a.ngrok.app" "b.ngrok.app" [] ∅ []
             Hlist eq_refl Hweb H80 Hweb H80 eq_refl eq_refl eq_refl eq_refl).
Defined.

(* ====================================================================== *)
(** * Selections that cannot be parsed                                     *)
(* ====================================================================== *)

(** Every turn of the selection loop begins with the prompt. *)
Lemma selection_loop_prompts_first {St : Type} `{Facade St} (profile : string)
    (items : list Service) (singleDomain : bool) (domain : string)
    (w : World St) :
  exists evs,
    trace (snd (AddIngressToServices_for profile items singleDomain domain w))
    = trace w ++ EvOut OutString service_prompt [] :: evs.
Proof.
  destruct w as [c i f t]. unfold AddIngressToServices_for. cbn [stdin trace].
  destruct i as [|choice rest].
  - exists []. reflexivity.
  - cbn [length]. rewrite ingress_loop_step.
    destruct (String.eqb choice "none"); [eexists; reflexivity|].
    destruct (found_items items choice false); cbn [negb].
    + assert (Hrest : emits quiet
        (domain' <- (if negb singleDomain then AskForStaticValue domain_prompt
                     else ret domain) ;;
         map_selection profile choice domain'
           (AddIngressToServices_loop (S (length rest)) profile items singleDomain
                                      domain'))).
      { apply emits_bind.
        - destruct singleDomain; cbn [negb];
            [apply emits_ret | apply emits_prompt_answer; intros; reflexivity].
        - intros domain'. apply emits_map_selection; try (intros; reflexivity).
          apply quiet_ingress_loop. }
      destruct (Hrest (mkWorld c rest f
                  (t ++ [EvOut OutString service_prompt []; EvStdin choice])))
        as (evs & Htrace & _).
      cbn [trace] in Htrace. eexists.
      etransitivity; [exact Htrace|]. rewrite <- app_assoc. reflexivity.
    + destruct (quiet_ingress_loop (S (length rest)) profile items singleDomain
                  domain
                  (mkWorld c rest f
                     (t ++ [EvOut OutString service_prompt []; EvStdin choice;
                            EvOut OutErr "Service not found" []])))
        as (evs & Htrace & _).
      cbn [trace] in Htrace. eexists.
      etransitivity; [exact Htrace|]. rewrite <- app_assoc. reflexivity.
Qed.

(** C6.  On the service list of a cluster (no namespace and no name of it
    holds a colon) every selection, the sentinel [none] apart, that has
    fewer than three colon-delimited segments or whose third segment is
    not an integer is reported: "Service not found" is printed, nothing
    is sent to the facade for it, and the loop goes on with the lines that
    are left, so that the next thing the run does is to prompt again. *)
Theorem malformed_selection_is_reported
    {St : Type} `{Facade St} (profile : string) (items : list Service)
    (singleDomain : bool) (domain : string) (c : St) (choice : string)
    (rest : list string) (f : gmap string string) (t : list event) :
  names_colon_free items = true ->
  choice <> "none"%string ->
  ((length (GoStd.Split choice ":") < 3)%nat \/
   exists part2, GoStd.Split choice ":" !! 2%nat = Some part2 /\
                 snd (GoStd.Atoi part2) <> None) ->
  AddIngressToServices_for profile items singleDomain domain
    (mkWorld c (choice :: rest) f t)
  = AddIngressToServices_for profile items singleDomain domain
      (mkWorld c rest f
         (t ++ [EvOut OutString service_prompt []; EvStdin choice;
                EvOut OutErr "Service not found" []])) /\
  exists evs,
    trace (snd (AddIngressToServices_for profile items singleDomain domain
                  (mkWorld c (choice :: rest) f t)))
    = t ++ [EvOut OutString service_prompt []; EvStdin choice;
            EvOut OutErr "Service not found" [];
            EvOut OutString service_prompt []] ++ evs.
Proof.
  intros Hnames Hne Hbad.
  assert (Hstep :
    AddIngressToServices_for profile items singleDomain domain
      (mkWorld c (choice :: rest) f t)
    = AddIngressToServices_for profile items singleDomain domain
        (mkWorld c rest f
           (t ++ [EvOut OutString service_prompt []; EvStdin choice;
                  EvOut OutErr "Service not found" []]))).
  { apply AddIngressToServices_for_not_found; [exact Hne|].
    destruct Hbad as [Hlen|(part2 & Hpart & Hatoi)];
      [apply short_selection_not_found, Hlen|].
    destruct (found_items items choice false) eqn:Hfound; [|reflexivity].
    apply found_iff_listed in Hfound.
    destruct (listed_triple_parts items choice Hnames Hfound)
      as (svc & port & _ & _ & Hsplit & Hparse & _).
    rewrite Hsplit in Hpart. cbn in Hpart. injection Hpart as <-.
    rewrite Hparse in Hatoi. cbn in Hatoi. congruence. }
  split; [exact Hstep|]. rewrite Hstep.
  destruct (selection_loop_prompts_first profile items singleDomain domain
              (mkWorld c rest f
                 (t ++ [EvOut OutString service_prompt []; EvStdin choice;
                        EvOut OutErr "Service not found" []])))
    as (evs & Htrace).
  rewrite Htrace. cbn [trace]. rewrite <- app_assoc. exists evs. reflexivity.
Qed.

Lemma malformed_selection_is_reported_witness :
  AddIngressToServices_for "minikube" dns_and_web false ""
    (mkWorld cluster_dns_web ["default:web:http"; "none"]%string ∅ [])
  = AddIngressToServices_for "minikube" dns_and_web false ""
      (mkWorld cluster_dns_web ["none"%string] ∅
         [EvOut OutString service_prompt []; EvStdin "default:web:http";
          EvOut OutErr "Service not found" []]).
Proof.
  apply (malformed_selection_is_reported "minikube" dns_and_web false ""
           cluster_dns_web "default:web:http" ["none"%string] ∅ []
           eq_refl ltac:(discriminate)).
  right. exists "http"%string. split; [reflexivity | discriminate].
Defined.
